(** * Wi-SUN router core: ICMPv6 engine, token bucket and reachable time

    A shallow embedding of
      - stack/source/common_protocols/icmpv6.c
      - stack/source/nwk_interface/protocol.c
    with the address constants of the netaddr types header.

    Octets are [byte]; C integers are [Z] with their wrap-around written
    out; offsets and lengths inside a packet are [nat].  Code of the
    repository that the two files call but that is outside the
    files modelled here is either a field of the record [collab] (one field
    per absent function, acting on the state it is handed in C) or a
    definition whose comment says that it is modelled. *)

From Stdlib Require Import ZArith List Bool Lia.
From Stdlib.Strings Require Import Byte.
Import ListNotations.
Open Scope Z_scope.

(** ** Octets and machine integers *)

Definition u8 (b : byte) : Z := Z.of_N (Byte.to_N b).

Definition to_u8 (z : Z) : byte :=
  match Byte.of_N (Z.to_N (z mod 256)) with
  | Some b => b
  | None => x00
  end.

Definition to_u16 (z : Z) : Z := z mod 65536.
Definition to_u32 (z : Z) : Z := z mod 4294967296.

Definition bytes_of (l : list Z) : list byte := map to_u8 l.

Definition byte_eqb (a b : byte) : bool := u8 a =? u8 b.

Fixpoint bytes_eqb (a b : list byte) : bool :=
  match a, b with
  | [], [] => true
  | x :: a', y :: b' => byte_eqb x y && bytes_eqb a' b'
  | _, _ => false
  end.

(** [p[i]] on an octet region. *)
Definition at8 (p : list byte) (i : nat) : Z := u8 (nth i p x00).

Definition read_be16 (p : list byte) : Z := at8 p 0 * 256 + at8 p 1.

Definition write_be16 (v : Z) : list byte :=
  [to_u8 (Z.shiftr v 8); to_u8 v].

Definition write_be32 (v : Z) : list byte :=
  [to_u8 (Z.shiftr v 24); to_u8 (Z.shiftr v 16); to_u8 (Z.shiftr v 8); to_u8 v].

(** [p[i] ^= m]. *)
Fixpoint xor_at (p : list byte) (i : nat) (m : Z) : list byte :=
  match p, i with
  | [], _ => []
  | b :: p', O => to_u8 (Z.lxor (u8 b) m) :: p'
  | b :: p', S i' => b :: xor_at p' i' m
  end.

(** ** Addresses (netaddr types header) *)

Inductive addrtype_e : Type :=
  | ADDR_NONE
  | ADDR_802_15_4_SHORT
  | ADDR_802_15_4_LONG
  | ADDR_IPV6
  | ADDR_BROADCAST
  | ADDR_EUI_48.

Definition addrtype_eqb (a b : addrtype_e) : bool :=
  match a, b with
  | ADDR_NONE, ADDR_NONE
  | ADDR_802_15_4_SHORT, ADDR_802_15_4_SHORT
  | ADDR_802_15_4_LONG, ADDR_802_15_4_LONG
  | ADDR_IPV6, ADDR_IPV6
  | ADDR_BROADCAST, ADDR_BROADCAST
  | ADDR_EUI_48, ADDR_EUI_48 => true
  | _, _ => false
  end.

(** [address_t]: sixteen octets. *)
Definition address_t : Type := list byte.

Record sockaddr_t : Type := mk_sockaddr {
  addr_type : addrtype_e;
  address : address_t;
  port : Z
}.

Definition ADDR_LINK_LOCAL_PREFIX : list byte :=
  bytes_of [0xfe; 0x80; 0; 0; 0; 0; 0; 0].

Definition ADDR_MULTICAST_SOLICITED : list byte :=
  bytes_of [0xff; 0x02; 0; 0; 0; 0; 0; 0; 0; 0; 0; 0x01; 0xff].

Definition ADDR_LINK_LOCAL_ALL_NODES : address_t :=
  bytes_of [0xff; 0x02; 0; 0; 0; 0; 0; 0; 0; 0; 0; 0; 0; 0; 0; 0x01].

Definition ADDR_UNSPECIFIED : address_t := repeat x00 16.

(** Modelled from the spec: [addr_is_ipv6_multicast] is outside the
    files modelled here; the data model recognises a multicast address
    by its prefix ff00::/8. *)
Definition addr_is_ipv6_multicast (a : address_t) : bool := at8 a 0 =? 0xff.

(** Modelled from the spec: [addr_is_ipv6_unspecified] is outside the
    files modelled here; the unspecified address is ::. *)
Definition addr_is_ipv6_unspecified (a : address_t) : bool :=
  bytes_eqb (firstn 16 a) ADDR_UNSPECIFIED.

(** Modelled from the spec: [addr_is_ipv6_link_local] is outside the
    files modelled here; a link-local address has the prefix
    fe80::/10. *)
Definition addr_is_ipv6_link_local (a : address_t) : bool :=
  (at8 a 0 =? 0xfe) && (Z.land (at8 a 1) 0xc0 =? 0x80).

(** [memcmp(a, b, n) == 0]. *)
Definition memcmp_eq (a b : list byte) (n : nat) : bool :=
  bytes_eqb (firstn n a) (firstn n b).

(** ** Packet buffers

    The buffer header is outside the files modelled here; the record keeps
    the fields the two files read or write.  [buf_data] is the octet
    region between the data pointer and the data end. *)

Inductive buffer_dir : Type := B_DIR_UP | B_DIR_DOWN.
Inductive buffer_layer : Type := B_LAYER_NONE | B_LAYER_ICMP | B_LAYER_IPV6.

Record buffer_info_t : Type := mk_info {
  b_dir : buffer_dir;
  b_from : buffer_layer;
  b_to : buffer_layer
}.

Inductive ack_cb_t : Type :=
  | CB_NONE
  | CB_ack_receive_cb
  | CB_ack_remove_neighbour_cb
  | CB_icmpv6_aro_cb.

Record buffer_options_t : Type := mk_options {
  opt_type : Z;
  opt_code : Z;
  hop_limit : Z;
  traffic_class : Z;
  ll_security_bypass_rx : bool;
  ll_broadcast_rx : bool;
  ll_multicast_rx : bool
}.

Record buffer_t : Type := mk_buffer {
  options : buffer_options_t;
  info : buffer_info_t;
  src_sa : sockaddr_t;
  dst_sa : sockaddr_t;
  buf_data : list byte;
  buf_ack_receive_cb : ack_cb_t;
  (** next hop forced by [ipv6_buffer_route_to], when set *)
  buf_route_to : option address_t
}.

Definition buffer_data_length (buf : buffer_t) : Z :=
  Z.of_nat (length (buf_data buf)).

Definition set_options (buf : buffer_t) (o : buffer_options_t) : buffer_t :=
  mk_buffer o (info buf) (src_sa buf) (dst_sa buf) (buf_data buf)
            (buf_ack_receive_cb buf) (buf_route_to buf).

Definition set_info (buf : buffer_t) (i : buffer_info_t) : buffer_t :=
  mk_buffer (options buf) i (src_sa buf) (dst_sa buf) (buf_data buf)
            (buf_ack_receive_cb buf) (buf_route_to buf).

Definition set_src_sa (buf : buffer_t) (s : sockaddr_t) : buffer_t :=
  mk_buffer (options buf) (info buf) s (dst_sa buf) (buf_data buf)
            (buf_ack_receive_cb buf) (buf_route_to buf).

Definition set_dst_sa (buf : buffer_t) (s : sockaddr_t) : buffer_t :=
  mk_buffer (options buf) (info buf) (src_sa buf) s (buf_data buf)
            (buf_ack_receive_cb buf) (buf_route_to buf).

Definition set_data (buf : buffer_t) (d : list byte) : buffer_t :=
  mk_buffer (options buf) (info buf) (src_sa buf) (dst_sa buf) d
            (buf_ack_receive_cb buf) (buf_route_to buf).

Definition set_ack_cb (buf : buffer_t) (cb : ack_cb_t) : buffer_t :=
  mk_buffer (options buf) (info buf) (src_sa buf) (dst_sa buf) (buf_data buf)
            cb (buf_route_to buf).

Definition set_route_to (buf : buffer_t) (a : address_t) : buffer_t :=
  mk_buffer (options buf) (info buf) (src_sa buf) (dst_sa buf) (buf_data buf)
            (buf_ack_receive_cb buf) (Some a).

Definition set_type_code (o : buffer_options_t) (t c : Z) : buffer_options_t :=
  mk_options t c (hop_limit o) (traffic_class o)
             (ll_security_bypass_rx o) (ll_broadcast_rx o) (ll_multicast_rx o).

Definition set_hop_limit (o : buffer_options_t) (h : Z) : buffer_options_t :=
  mk_options (opt_type o) (opt_code o) h (traffic_class o)
             (ll_security_bypass_rx o) (ll_broadcast_rx o) (ll_multicast_rx o).

Definition set_traffic_class (o : buffer_options_t) (tc : Z) : buffer_options_t :=
  mk_options (opt_type o) (opt_code o) (hop_limit o) tc
             (ll_security_bypass_rx o) (ll_broadcast_rx o) (ll_multicast_rx o).

Definition set_address (s : sockaddr_t) (a : address_t) : sockaddr_t :=
  mk_sockaddr (addr_type s) a (port s).

Definition set_addr_type (s : sockaddr_t) (t : addrtype_e) : sockaddr_t :=
  mk_sockaddr t (address s) (port s).

(** ** Protocol constants

    The headers that define these are outside the files modelled here.  The
    values are the ones of the IPv6 header layout and the Neighbor
    Advertisement layout drawn in the comments of icmpv6.c (R, S and O
    are the three top bits of the first octet after the checksum), of
    the option formats of the external interface (SLLAO 1, TLLAO 2,
    EARO 33) and of the EARO status list (SUCCESS 0). *)

Definition IPV6_HDRLEN : Z := 40.
Definition IPV6_HDROFF_PAYLOAD_LENGTH : nat := 4.
Definition IPV6_HDROFF_NH : nat := 6.
Definition IPV6_MIN_LINK_MTU : Z := 1280.

Definition IPV6_NH_HOP_BY_HOP : Z := 0.
Definition IPV6_NH_ROUTING : Z := 43.
Definition IPV6_NH_AUTH : Z := 51.
Definition IPV6_NH_ICMPV6 : Z := 58.
Definition IPV6_NH_DEST_OPT : Z := 60.
Definition IPV6_NH_MOBILITY : Z := 135.
Definition IPV6_NH_HIP : Z := 139.
Definition IPV6_NH_SHIM6 : Z := 140.

Definition ICMPV6_TYPE_ERROR_DESTINATION_UNREACH : Z := 1.
Definition ICMPV6_TYPE_ERROR_PACKET_TOO_BIG : Z := 2.
Definition ICMPV6_TYPE_ERROR_TIME_EXCEEDED : Z := 3.
Definition ICMPV6_TYPE_ERROR_PARAMETER_PROBLEM : Z := 4.
Definition ICMPV6_CODE_PARAM_PRB_UNREC_IPV6_OPT : Z := 2.
Definition ICMPV6_TYPE_INFO_NS : Z := 135.
Definition ICMPV6_TYPE_INFO_NA : Z := 136.
Definition ICMPV6_TYPE_INFO_REDIRECT : Z := 137.

Definition ICMPV6_OPT_SRC_LL_ADDR : Z := 1.
Definition ICMPV6_OPT_TGT_LL_ADDR : Z := 2.
Definition ICMPV6_OPT_ADDR_REGISTRATION : Z := 33.

Definition NA_R : Z := 0x80.
Definition NA_S : Z := 0x40.
Definition NA_O : Z := 0x20.

Definition ARO_SUCCESS : Z := 0.
Definition ARO_TOPOLOGICALLY_INCORRECT : Z := 8.

Definition IPV6_ND_OPT_EARO_FLAGS_I_MASK : Z := 0x0c.
Definition IPV6_ND_OPT_EARO_FLAGS_R_MASK : Z := 0x02.
Definition IPV6_ND_OPT_EARO_FLAGS_T_MASK : Z := 0x01.

Definition IP_DSCP_CS6 : Z := 48.
Definition IP_TCLASS_DSCP_SHIFT : Z := 2.

(** [FIELD_PREP(mask, val)] for a mask whose lowest set bit is [sh]. *)
Definition FIELD_PREP (mask sh val : Z) : Z := Z.land (Z.shiftl val sh) mask.

Inductive stats_type_t : Type := STATS_IP_RX_DROP | STATS_IP_CKSUM_ERROR.

(** ** Interface state (protocol.h) *)

Record ipv6_neighbour_cache_t {NC : Type} : Type := mk_cache {
  nc_list : NC;               (* the entries, field [list] *)
  reachable_time : Z;
  recv_addr_reg : bool;
  omit_na : bool;
  omit_na_aro_success : bool;
  link_mtu : Z
}.
Arguments ipv6_neighbour_cache_t : clear implicits.

Record net_if {NC : Type} : Type := mk_net_if {
  icmp_tokens : Z;            (* uint16_t *)
  cur_hop_limit : Z;          (* uint8_t *)
  reachable_time_ttl : Z;     (* uint16_t, seconds *)
  base_reachable_time : Z;    (* uint32_t, milliseconds *)
  mac : list byte;            (* uint8_t[8] *)
  ipv6_neighbour_cache : ipv6_neighbour_cache_t NC
}.
Arguments net_if : clear implicits.

(** The interface is a singleton: [protocol_stack_interface_info_get]
    returns the first element of the interface list and [protocol_init]
    is the only function that adds one.  [ext] is the state the two
    files never touch by field: address lists, routes and destination
    cache, statistics, the MAC neighbour table, the RPL engine. *)
Record world {NC Ext : Type} : Type := mk_world {
  cur : net_if NC;
  ext : Ext
}.
Arguments world : clear implicits.

Definition set_icmp_tokens {NC} (c : net_if NC) (t : Z) : net_if NC :=
  mk_net_if NC t (cur_hop_limit c) (reachable_time_ttl c)
            (base_reachable_time c) (mac c) (ipv6_neighbour_cache c).

Definition set_reachable_time_ttl {NC} (c : net_if NC) (t : Z) : net_if NC :=
  mk_net_if NC (icmp_tokens c) (cur_hop_limit c) t
            (base_reachable_time c) (mac c) (ipv6_neighbour_cache c).

Definition set_base_reachable_time {NC} (c : net_if NC) (b : Z) : net_if NC :=
  mk_net_if NC (icmp_tokens c) (cur_hop_limit c) (reachable_time_ttl c)
            b (mac c) (ipv6_neighbour_cache c).

Definition set_neighbour_cache {NC} (c : net_if NC)
           (n : ipv6_neighbour_cache_t NC) : net_if NC :=
  mk_net_if NC (icmp_tokens c) (cur_hop_limit c) (reachable_time_ttl c)
            (base_reachable_time c) (mac c) n.

Definition set_reachable_time {NC} (n : ipv6_neighbour_cache_t NC) (t : Z)
  : ipv6_neighbour_cache_t NC :=
  mk_cache NC (nc_list n) t (recv_addr_reg n) (omit_na n)
           (omit_na_aro_success n) (link_mtu n).

Definition set_cur {NC Ext} (w : world NC Ext) (c : net_if NC) : world NC Ext :=
  mk_world NC Ext c (ext w).

Definition set_ext {NC Ext} (w : world NC Ext) (e : Ext) : world NC Ext :=
  mk_world NC Ext (cur w) e.

(** [struct ipv6_nd_opt_earo], as icmpv6.c uses it. *)
Record ipv6_nd_opt_earo : Type := mk_earo {
  earo_present : bool;
  earo_status : Z;
  earo_opaque : Z;
  earo_i : Z;
  earo_r : bool;
  earo_t : bool;
  earo_tid : Z;
  earo_lifetime : Z;
  earo_eui64 : list byte
}.

Definition earo_zero : ipv6_nd_opt_earo :=
  mk_earo false 0 0 0 false false 0 0 (repeat x00 8).

(** ** Collaborators

    One field per function of the repository that icmpv6.c and
    protocol.c call and whose body is outside the files modelled here.  A
    function that takes the interface in C takes the [world]; one that
    takes only the neighbour cache takes the cache; a function that
    returns a pointer that may be NULL returns an [option]. *)
Record collab {NC NE Ext : Type} : Type := mk_collab {
  (* addresses of the interface *)
  addr_interface_address_compare : world NC Ext -> address_t -> Z;
  addr_is_assigned_to_interface : world NC Ext -> address_t -> bool;
  addr_get_entry : world NC Ext -> address_t -> bool;
  addr_select_source : world NC Ext -> address_t -> option address_t;
  addr_interface_get_ll_address : world NC Ext -> option address_t;
  (* buffers *)
  buffer_get : nat -> option buffer_t;
  buffer_headroom : buffer_t -> nat -> option buffer_t;
  buffer_turnaround : buffer_t -> buffer_t;
  (* IPv6 routing and statistics *)
  ipv6_buffer_route : world NC Ext -> buffer_t -> option buffer_t * Ext;
  ipv6_max_unfragmented_payload : buffer_t -> Z -> Z;
  protocol_stats_update : Ext -> stats_type_t -> Z -> Ext;
  (* neighbour cache *)
  ipv6_neighbour_lookup : ipv6_neighbour_cache_t NC -> address_t -> option NE;
  ipv6_neighbour_update_from_na :
    ipv6_neighbour_cache_t NC -> NE -> Z -> addrtype_e -> address_t ->
    ipv6_neighbour_cache_t NC;
  ipv6_neighbour_update_unsolicited :
    ipv6_neighbour_cache_t NC -> address_t -> addrtype_e -> address_t ->
    ipv6_neighbour_cache_t NC;
  (* [entry->state == IP_NEIGHBOUR_REACHABLE] *)
  neighbour_is_reachable : ipv6_neighbour_cache_t NC -> NE -> bool;
  (* address registration and Wi-SUN glue *)
  nd_ns_earo_handler :
    world NC Ext -> list byte -> nat -> option (list byte) ->
    address_t -> address_t -> bool * ipv6_nd_opt_earo * world NC Ext;
  ws_common_black_list_neighbour : Ext -> address_t -> Z -> Ext;
  ws_common_aro_failure : world NC Ext -> address_t -> world NC Ext;
  ws_common_neighbor_update : world NC Ext -> address_t -> world NC Ext;
  ws_common_negative_aro_mark : world NC Ext -> list byte -> bool * world NC Ext;
  (* the interface's link-layer address option methods *)
  if_llao_parse : world NC Ext -> list byte -> sockaddr_t -> Z * sockaddr_t;
  if_llao_write : world NC Ext -> Z -> bool -> address_t -> list byte;
  (* the random generator: one raw draw *)
  rand_get : Ext -> Z * Ext
}.
Arguments collab : clear implicits.

(** ** Outcomes

    [OutOfFuel]: the loop was still running when the fuel ended.
    [Fault]: the C code dereferences a NULL pointer or reads outside
    the data of the buffer. *)
Inductive outcome (A : Type) : Type :=
  | Ret (a : A)
  | OutOfFuel
  | Fault.
Arguments Ret {A} a.
Arguments OutOfFuel {A}.
Arguments Fault {A}.

Definition bind {A B : Type} (m : outcome A) (f : A -> outcome B) : outcome B :=
  match m with
  | Ret a => f a
  | OutOfFuel => OutOfFuel
  | Fault => Fault
  end.

Notation "x <- m ;; k" := (bind m (fun x => k))
  (at level 61, m at next level, right associativity).
Notation "' p <- m ;; k" := (bind m (fun p => k))
  (at level 61, p pattern, m at next level, right associativity).

(** ** The octet reader [struct iobuf_read]

    Modelled from the spec: the reader's functions are outside the
    files modelled here.  An option chain is well-formed when it
    consumes exactly the remaining buffer, so a read past the end has
    to fail; icmpv6.c fixes the rest by the way it uses the reader:
    [cnt] is the cursor, which the code saves and restores, [err] is
    set by a read past [data_size] and makes every later read fail and
    the remaining size zero, and a failed read returns 0 (or NULL).
    [io_data] is the region that starts at the [data] pointer. *)
Record iobuf_read : Type := mk_iobuf {
  io_data_size : nat;
  io_data : list byte;
  io_cnt : nat;
  io_err : bool
}.

Definition iobuf_set_cnt (b : iobuf_read) (c : nat) : iobuf_read :=
  mk_iobuf (io_data_size b) (io_data b) c (io_err b).

Definition iobuf_set_err (b : iobuf_read) : iobuf_read :=
  mk_iobuf (io_data_size b) (io_data b) (io_cnt b) true.

Definition iobuf_remaining_size (b : iobuf_read) : nat :=
  if io_err b then 0%nat else (io_data_size b - io_cnt b)%nat.

(** The region at the cursor. *)
Definition iobuf_ptr (b : iobuf_read) : list byte := skipn (io_cnt b) (io_data b).

Definition iobuf_pop_data_ptr (b : iobuf_read) (size : nat)
  : option (list byte) * iobuf_read :=
  if io_err b then (None, b)
  else if (iobuf_remaining_size b <? size)%nat then (None, iobuf_set_err b)
  else (Some (iobuf_ptr b), iobuf_set_cnt b (io_cnt b + size)).

Definition iobuf_pop_u8 (b : iobuf_read) : Z * iobuf_read :=
  match iobuf_pop_data_ptr b 1 with
  | (Some p, b') => (at8 p 0, b')
  | (None, b') => (0, b')
  end.

Definition iobuf_pop_be16 (b : iobuf_read) : Z * iobuf_read :=
  match iobuf_pop_data_ptr b 2 with
  | (Some p, b') => (read_be16 p, b')
  | (None, b') => (0, b')
  end.

(** [iobuf_pop_data(b, val, size)]: the destination is zeroed when the
    read fails. *)
Definition iobuf_pop_data (b : iobuf_read) (size : nat) : list byte * iobuf_read :=
  match iobuf_pop_data_ptr b size with
  | (Some p, b') => (firstn size p, b')
  | (None, b') => (repeat x00 size, b')
  end.

(** The result slot of [icmpv6_nd_option_get] after its memset and
    [res->err = true]. *)
Definition iobuf_res_none : iobuf_read := mk_iobuf 0 [] 0 true.

(** ** icmpv6.c: option chains *)

(** One run of the [while] loop of [icmpv6_nd_options_validate]. *)
Fixpoint icmpv6_nd_options_validate_loop (fuel : nat) (input : iobuf_read)
  : outcome bool :=
  match fuel with
  | O => OutOfFuel
  | S fuel' =>
      if (iobuf_remaining_size input =? 0)%nat then Ret (negb (io_err input))
      else
        let opt_start := io_cnt input in
        let '(_, input1) := iobuf_pop_u8 input in
        let '(l, input2) := iobuf_pop_u8 input1 in
        let opt_len := (8 * Z.to_nat l)%nat in
        if (opt_len =? 0)%nat then Ret false
        else
          let input3 := iobuf_set_cnt input2 opt_start in
          let '(_, input4) := iobuf_pop_data_ptr input3 opt_len in
          icmpv6_nd_options_validate_loop fuel' input4
  end.

(** The loop never needs more rounds than there are octets plus one
    (lemma [icmpv6_nd_options_validate_loop_total]), so the default is
    never taken. *)
Definition icmpv6_nd_options_validate (data : list byte) (len : nat) : bool :=
  match icmpv6_nd_options_validate_loop (S (S len)) (mk_iobuf len data 0 false) with
  | Ret b => b
  | _ => false
  end.

(** The [while] loop of [icmpv6_nd_option_get].  An option of length
    zero whose type is not the one looked for leaves the cursor where
    it was. *)
Fixpoint icmpv6_nd_option_get_loop (fuel : nat) (input : iobuf_read) (opt : Z)
  : outcome (bool * iobuf_read) :=
  match fuel with
  | O => OutOfFuel
  | S fuel' =>
      if (iobuf_remaining_size input =? 0)%nat then Ret (false, iobuf_res_none)
      else
        let opt_start := io_cnt input in
        let '(opt_type, input1) := iobuf_pop_u8 input in
        let '(l, input2) := iobuf_pop_u8 input1 in
        let opt_len := (8 * Z.to_nat l)%nat in
        let input3 := iobuf_set_cnt input2 opt_start in
        if opt_type =? opt then
          match iobuf_pop_data_ptr input3 opt_len with
          | (None, _) => Ret (false, iobuf_res_none)
          | (Some p, _) => Ret (true, mk_iobuf opt_len p 0 false)
          end
        else
          let '(_, input4) := iobuf_pop_data_ptr input3 opt_len in
          icmpv6_nd_option_get_loop fuel' input4 opt
  end.

Definition icmpv6_nd_option_get (fuel : nat) (data : list byte) (len : nat)
           (opt : Z) : outcome (bool * iobuf_read) :=
  icmpv6_nd_option_get_loop fuel (mk_iobuf len data 0 false) opt.

(** [icmpv6_options_well_formed_in_buffer]. *)
Definition icmpv6_options_well_formed_in_buffer (buf : buffer_t) (offset : nat)
  : bool :=
  if buffer_data_length buf <? Z.of_nat offset then false
  else icmpv6_nd_options_validate (skipn offset (buf_data buf))
                                  (length (buf_data buf) - offset).

(** [icmpv6_find_option_in_buffer]: the pointer to the option, or NULL.
    The C function does not compare the offset with the length: behind
    the end of the data the unsigned subtraction wraps and the search
    reads outside the buffer. *)
Definition icmpv6_find_option_in_buffer (fuel : nat) (buf : buffer_t)
           (offset : nat) (opt : Z) : outcome (option (list byte)) :=
  if (length (buf_data buf) <? offset)%nat then Fault
  else
    '(_, res) <- icmpv6_nd_option_get fuel (skipn offset (buf_data buf))
                   (length (buf_data buf) - offset) opt ;;
    Ret (if io_err res then None else Some (io_data res)).

(** [icmpv6_nd_ws_sllao_dummy]: the dummy SLLAO built from an EARO and
    the flag [!earo.err].  When the EARO is too short for its EUI-64
    the C code hands a NULL source to [iobuf_push_data]. *)
Definition icmpv6_nd_ws_sllao_dummy (aro_ptr : list byte) (aro_len : nat)
  : outcome (bool * list byte) :=
  let earo := mk_iobuf aro_len aro_ptr 0 false in
  let '(_, earo) := iobuf_pop_u8 earo in
  let '(_, earo) := iobuf_pop_u8 earo in
  let '(_, earo) := iobuf_pop_u8 earo in
  let '(_, earo) := iobuf_pop_data_ptr earo 3 in
  let '(_, earo) := iobuf_pop_be16 earo in
  let '(eui64, earo) := iobuf_pop_data_ptr earo 8 in
  match eui64 with
  | None => Fault
  | Some p =>
      let sllao := [to_u8 ICMPV6_OPT_SRC_LL_ADDR; x00] ++ firstn 8 p in
      let pad := ((8 - length sllao mod 8) mod 8)%nat in
      let sllao := sllao ++ repeat x00 pad in
      let sllao :=
        match sllao with
        | t :: _ :: rest => t :: to_u8 (Z.of_nat (length sllao / 8)) :: rest
        | _ => sllao
        end in
      Ret (negb (io_err earo), sllao)
  end.

(** ** icmpv6.c: the error responder *)

Definition is_ext_header (nh : Z) : bool :=
  (nh =? IPV6_NH_HOP_BY_HOP) || (nh =? IPV6_NH_DEST_OPT) ||
  (nh =? IPV6_NH_ROUTING) || (nh =? IPV6_NH_MOBILITY) ||
  (nh =? IPV6_NH_HIP) || (nh =? IPV6_NH_SHIM6).

(** The [while (len)] loop of [is_icmpv6_msg]: [Some (type, code)] when
    the chain of extension headers ends in an ICMPv6 header. *)
Fixpoint is_icmpv6_msg_loop (fuel : nat) (ptr : list byte) (len : Z) (nh : Z)
  : outcome (option (Z * Z)) :=
  match fuel with
  | O => OutOfFuel
  | S fuel' =>
      if len =? 0 then Ret None
      else if nh =? IPV6_NH_ICMPV6 then
        if len <? 4 then Ret None
        else Ret (Some (at8 ptr 0, at8 ptr 1))
      else if is_ext_header nh then
        if len <? 8 then Ret None
        else
          let nh' := at8 ptr 0 in
          let hdrlen := to_u16 ((at8 ptr 1 + 1) * 8) in
          if (hdrlen >? len) || negb (Z.land hdrlen 7 =? 0) then Ret None
          else is_icmpv6_msg_loop fuel' (skipn (Z.to_nat hdrlen) ptr)
                                  (to_u16 (len - hdrlen)) nh'
      else if nh =? IPV6_NH_AUTH then
        if len <? 8 then Ret None
        else
          let nh' := at8 ptr 0 in
          let hdrlen := to_u16 ((at8 ptr 1 + 2) * 4) in
          if (hdrlen >? len) || negb (Z.land hdrlen 7 =? 0) then Ret None
          else is_icmpv6_msg_loop fuel' (skipn (Z.to_nat hdrlen) ptr)
                                  (to_u16 (len - hdrlen)) nh'
      else Ret None
  end.

(** [is_icmpv6_msg]: the flag and the buffer with type and code filled
    in.  Every round of the loop removes at least eight octets (lemma
    [is_icmpv6_msg_loop_total]), so the default is never taken. *)
Definition is_icmpv6_msg (buf : buffer_t) : bool * buffer_t :=
  let ptr := buf_data buf in
  let len := to_u16 (buffer_data_length buf) in
  if len <? IPV6_HDRLEN then (false, buf)
  else
    let ip_len := read_be16 (skipn IPV6_HDROFF_PAYLOAD_LENGTH ptr) in
    let nh := at8 ptr IPV6_HDROFF_NH in
    let ptr := skipn (Z.to_nat IPV6_HDRLEN) ptr in
    let len := to_u16 (len - IPV6_HDRLEN) in
    if ip_len >? len then (false, buf)
    else
      match is_icmpv6_msg_loop (S (Z.to_nat ip_len)) ptr ip_len nh with
      | Ret (Some (t, c)) => (true, set_options buf (set_type_code (options buf) t c))
      | _ => (false, buf)
      end.

(** [memcpy(dst, src, n)] into an array of the same size. *)
Definition memcpy_n (src : list byte) (n : nat) : list byte := firstn n src.

(** Modelled from the spec: [ipv6_buffer_route_to] is outside the files
    modelled here; L3 resolves the next hop of an outbound packet, and
    this call forces it to the address given. *)
Definition ipv6_buffer_route_to (buf : buffer_t) (next_hop : address_t) : buffer_t :=
  set_route_to buf next_hop.

(** Modelled from the spec: the least value [rand_randomise_base] may
    return, base x min_factor / 0x8000 rounded up. *)
Definition rand_randomise_lo (base min_factor : Z) : Z :=
  (base * min_factor + 0x7fff) / 0x8000.

(** Modelled from the spec: the greatest value [rand_randomise_base]
    may return, base x max_factor / 0x8000 rounded down. *)
Definition rand_randomise_hi (base max_factor : Z) : Z :=
  (base * max_factor) / 0x8000.

(** Modelled from the spec: [rand_randomise_base] is outside the files
    modelled here.  The reachable time is re-rolled uniformly in
    [0.5 x base, 1.5 x base]; protocol.c passes the two factors as
    0x4000 and 0xBFFF, in units of 1/0x8000.  The model picks, from the
    raw draw [r], one of the integers between the two bounds. *)
Definition rand_randomise_base (r base min_factor max_factor : Z) : Z :=
  let lo := rand_randomise_lo base min_factor in
  let hi := rand_randomise_hi base max_factor in
  lo + r mod (hi - lo + 1).

Section Model.

Context {NC NE Ext : Type}.
Variable K : collab NC NE Ext.

Abbreviation World := (world NC Ext).

(** [buffer_free] returns NULL: a dropped packet is [None]. *)
Definition icmpv6_error (w : World) (buf : buffer_t) (type code aux : Z)
  : World * option buffer_t :=
  if ll_security_bypass_rx (options buf) then (w, None)
  else
    let w :=
      match b_dir (info buf) with
      | B_DIR_UP => set_ext w (protocol_stats_update K (ext w) STATS_IP_RX_DROP 1)
      | B_DIR_DOWN => w
      end in
    let '(is_icmp, buf) := is_icmpv6_msg buf in
    if is_icmp && ((opt_type (options buf) <? 128) ||
                   (opt_type (options buf) =? ICMPV6_TYPE_INFO_REDIRECT))
    then (w, None)
    else if (addr_is_ipv6_multicast (address (dst_sa buf)) ||
             ll_broadcast_rx (options buf) || ll_multicast_rx (options buf)) &&
            negb ((type =? ICMPV6_TYPE_ERROR_PACKET_TOO_BIG) ||
                  ((type =? ICMPV6_TYPE_ERROR_PARAMETER_PROBLEM) &&
                   (code =? ICMPV6_CODE_PARAM_PRB_UNREC_IPV6_OPT)))
    then (w, None)
    else if addr_is_ipv6_unspecified (address (src_sa buf)) ||
            addr_is_ipv6_multicast (address (src_sa buf))
    then (w, None)
    else
      let buf :=
        if addr_interface_address_compare K w (address (dst_sa buf)) =? 0 then
          (* memswap of the two address arrays *)
          let d := address (dst_sa buf) in
          let s := address (src_sa buf) in
          set_src_sa (set_dst_sa buf (set_address (dst_sa buf) s))
                     (set_address (src_sa buf) d)
        else
          let buf := set_dst_sa buf (src_sa buf) in
          set_src_sa buf (set_addr_type (src_sa buf) ADDR_NONE) in
      let buf := buffer_turnaround K buf in
      match ipv6_buffer_route K w buf with
      | (None, e) => (set_ext w e, None)
      | (Some buf, e) =>
          let w := set_ext w e in
          (* Token-bucket rate limiting *)
          if icmp_tokens (cur w) =? 0 then (w, None)
          else
            let w := set_cur w (set_icmp_tokens (cur w)
                                  (to_u16 (icmp_tokens (cur w) - 1))) in
            let max_payload :=
              to_u16 (ipv6_max_unfragmented_payload K buf IPV6_MIN_LINK_MTU) in
            let buf :=
              if buffer_data_length buf >? max_payload - 8
              then set_data buf (firstn (Z.to_nat (to_u16 (max_payload - 8)))
                                        (buf_data buf))
              else buf in
            match buffer_headroom K buf 4 with
            | None => (w, None)
            | Some buf =>
                let buf := set_data buf (write_be32 aux ++ buf_data buf) in
                let o := options buf in
                let o := set_traffic_class o 0 in
                let o := set_type_code o type code in
                let o := set_hop_limit o (cur_hop_limit (cur w)) in
                let buf := set_options buf o in
                let buf := set_info buf (mk_info B_DIR_DOWN B_LAYER_ICMP B_LAYER_ICMP) in
                (w, Some buf)
            end
      end.

(** ** icmpv6.c: building NS and NA *)

Definition icmpv6_write_icmp_lla (w : World) (icmp_opt : Z) (must : bool)
           (ip_addr : address_t) : list byte :=
  if_llao_write K w icmp_opt must ip_addr.

(** The EARO octets of an NA. *)
Definition earo_na_bytes (earo : ipv6_nd_opt_earo) : list byte :=
  [to_u8 ICMPV6_OPT_ADDR_REGISTRATION; to_u8 2;
   to_u8 (earo_status earo); to_u8 (earo_opaque earo);
   to_u8 (Z.lor (Z.lor (FIELD_PREP IPV6_ND_OPT_EARO_FLAGS_I_MASK 2 (earo_i earo))
                       (FIELD_PREP IPV6_ND_OPT_EARO_FLAGS_R_MASK 1
                                   (if earo_r earo then 1 else 0)))
                (FIELD_PREP IPV6_ND_OPT_EARO_FLAGS_T_MASK 0
                            (if earo_t earo then 1 else 0)));
   to_u8 (earo_tid earo)]
  ++ write_be16 (earo_lifetime earo) ++ memcpy_n (earo_eui64 earo) 8.

(** The EARO octets of an NS. *)
Definition earo_ns_bytes (aro : ipv6_nd_opt_earo) : list byte :=
  [to_u8 ICMPV6_OPT_ADDR_REGISTRATION; to_u8 2; to_u8 (earo_status aro); x00]
  ++ write_be16 0 ++ write_be16 (earo_lifetime aro) ++ memcpy_n (earo_eui64 aro) 8.

Definition icmpv6_build_na (w : World) (solicited override tllao_required : bool)
           (target : address_t) (earo : option ipv6_nd_opt_earo)
           (src_addr : address_t) : World * option buffer_t :=
  let nc := ipv6_neighbour_cache (cur w) in
  let omit_success :=
    match earo with
    | Some e => omit_na_aro_success nc && negb (earo_r e && earo_t e) &&
                (earo_status e =? ARO_SUCCESS)
    | None => false
    end in
  if omit_success then (w, None)
  else if negb tllao_required &&
          (match earo with None => omit_na nc | Some _ => false end)
  then (w, None)
  else
    match buffer_get K (8 + 16 + 16 + 16) with
    | None => (w, None)
    | Some buf =>
        let o := set_hop_limit (options buf) 255 in
        let o := set_type_code o ICMPV6_TYPE_INFO_NA 0 in
        let buf := set_options buf o in
        let flags := 0 in
        let flags := if override then Z.lor flags NA_O else flags in
        let '(flags, dst) :=
          if addr_is_ipv6_unspecified src_addr then
            (* Solicited flag must be 0 if responding to DAD *)
            (flags, memcpy_n ADDR_LINK_LOCAL_ALL_NODES 16)
          else
            let flags := if solicited then Z.lor flags NA_S else flags in
            match earo with
            | Some e =>
                if negb (earo_status e =? ARO_SUCCESS) then
                  (flags, xor_at (memcpy_n ADDR_LINK_LOCAL_PREFIX 8 ++
                                  memcpy_n (earo_eui64 e) 8) 8 2)
                else (flags, memcpy_n src_addr 16)
            | None => (flags, memcpy_n src_addr 16)
            end in
        let buf := set_dst_sa buf (mk_sockaddr ADDR_IPV6 dst (port (dst_sa buf))) in
        let src :=
          if addr_is_assigned_to_interface K w target
          then Some (memcpy_n target 16)
          else match addr_select_source K w (address (dst_sa buf)) with
               | Some s => Some (memcpy_n s 16)
               | None => None
               end in
        match src with
        | None => (w, None)
        | Some src =>
            let buf := set_src_sa buf (mk_sockaddr ADDR_IPV6 src (port (src_sa buf))) in
            let data := write_be32 (to_u32 (Z.shiftl flags 24)) ++ memcpy_n target 16 in
            let data := data ++ icmpv6_write_icmp_lla w ICMPV6_OPT_TGT_LL_ADDR
                                                      tllao_required target in
            let data := match earo with
                        | Some e => data ++ earo_na_bytes e
                        | None => data
                        end in
            let negative :=
              match earo with
              | Some e => negb (earo_status e =? ARO_SUCCESS) &&
                          negb (earo_status e =? ARO_TOPOLOGICALLY_INCORRECT)
              | None => false
              end in
            let finish (w : World) (buf : buffer_t) :=
              let buf := ipv6_buffer_route_to buf (address (dst_sa buf)) in
              let buf := set_data buf data in
              let buf := set_info buf (mk_info B_DIR_DOWN B_LAYER_ICMP B_LAYER_ICMP) in
              (w, Some buf) in
            if negative then
              match earo with
              | Some e =>
                  match ws_common_negative_aro_mark K w (earo_eui64 e) with
                  | (false, w') => (w', None)
                  | (true, w') =>
                      let o := set_traffic_class (options buf)
                                 (Z.shiftl IP_DSCP_CS6 IP_TCLASS_DSCP_SHIFT) in
                      let buf := set_options buf o in
                      let buf := set_ack_cb buf CB_ack_remove_neighbour_cb in
                      finish w' buf
                  end
              | None => finish w buf
              end
            else finish w buf
        end
    end.

Definition icmpv6_build_ns (w : World) (target_addr : address_t)
           (prompting_src_addr : option address_t) (unicast unspecified_source : bool)
           (aro : option ipv6_nd_opt_earo) : outcome (option buffer_t) :=
  if addr_is_ipv6_multicast target_addr then Ret None
  else
    match buffer_get K 127 with
    | None => Ret None
    | Some buf =>
        let o := set_type_code (options buf) ICMPV6_TYPE_INFO_NS 0 in
        let o := set_hop_limit o 255 in
        let buf := set_options buf o in
        let data := write_be32 0 ++ memcpy_n target_addr 16 in
        let data := match aro with
                    | Some a => data ++ earo_ns_bytes a
                    | None => data
                    end in
        let dst :=
          if unicast then memcpy_n target_addr 16
          else memcpy_n ADDR_MULTICAST_SOLICITED 13 ++
               memcpy_n (skipn 13 target_addr) 3 in
        let buf := set_dst_sa buf (mk_sockaddr ADDR_IPV6 dst (port (dst_sa buf))) in
        let finish (buf : buffer_t) :=
          let buf :=
            if unicast && (match aro with
                           | None => omit_na (ipv6_neighbour_cache (cur w))
                           | Some _ => false
                           end)
            then set_ack_cb buf CB_ack_receive_cb else buf in
          let buf := set_src_sa buf (set_addr_type (src_sa buf) ADDR_IPV6) in
          let buf := ipv6_buffer_route_to buf (address (dst_sa buf)) in
          let buf := set_data buf data in
          let buf := set_info buf (mk_info B_DIR_DOWN B_LAYER_ICMP B_LAYER_ICMP) in
          Ret (Some buf) in
        if unspecified_source then
          finish (set_src_sa buf (set_address (src_sa buf) (repeat x00 16)))
        else
          let use_prompt :=
            match aro, prompting_src_addr with
            | Some _, _ => true
            | None, Some p => addr_is_assigned_to_interface K w p
            | None, None => false
            end in
          let set_cb (buf : buffer_t) :=
            match aro with
            | Some a =>
                if omit_na_aro_success (ipv6_neighbour_cache (cur w)) then
                  if earo_lifetime a >? 1 then set_ack_cb buf CB_icmpv6_aro_cb
                  else set_ack_cb buf CB_ack_receive_cb
                else buf
            | None => buf
            end in
          if use_prompt then
            match prompting_src_addr with
            | None => Fault (* memcpy from a NULL prompting address *)
            | Some p =>
                finish (set_cb (set_src_sa buf (set_address (src_sa buf)
                                                            (memcpy_n p 16))))
            end
          else
            match addr_interface_get_ll_address K w with
            | None => Ret None
            | Some ll => finish (set_cb (set_src_sa buf (set_address (src_sa buf) ll)))
            end
    end.

(** ** icmpv6.c: inbound NS and NA *)

Definition icmpv6_na_wisun_aro_handler (w : World) (dptr : list byte)
           (src_addr : address_t) : World :=
  let nd_status := at8 dptr 2 in
  if negb (memcmp_eq (skipn 8 dptr) (mac (cur w)) 8) then w
  else if negb (nd_status =? ARO_SUCCESS) then
    let w := set_ext w (ws_common_black_list_neighbour K (ext w) src_addr nd_status) in
    ws_common_aro_failure K w src_addr
  else w.

(** [icmpv6_ns_handler].  The two searches for options come first, as
    in the C function; [fuel] bounds the rounds of their loops. *)
Definition icmpv6_ns_handler (fuel : nat) (w : World) (buf : buffer_t)
  : outcome (World * option buffer_t) :=
  let iobuf := mk_iobuf (length (buf_data buf)) (buf_data buf) 0 false in
  let '(_, iobuf) := iobuf_pop_data_ptr iobuf 4 in
  let '(target, iobuf) := iobuf_pop_data iobuf 16 in
  let opts := iobuf_ptr iobuf in
  let opts_len := iobuf_remaining_size iobuf in
  '(has_sllao, sllao) <- icmpv6_nd_option_get fuel opts opts_len ICMPV6_OPT_SRC_LL_ADDR ;;
  '(has_earo, earo) <- icmpv6_nd_option_get fuel opts opts_len ICMPV6_OPT_ADDR_REGISTRATION ;;
  let has_earo := if recv_addr_reg (ipv6_neighbour_cache (cur w)) then has_earo else false in
  '(has_sllao, sllao) <-
     (if has_earo && negb has_sllao then
        '(ok, dummy) <- icmpv6_nd_ws_sllao_dummy (io_data earo) (io_data_size earo) ;;
        Ret (ok, mk_iobuf (length dummy) dummy 0 false)
      else Ret (has_sllao, sllao)) ;;
  let drop := Ret (w, None) in
  (* RFC 4861 Section 7.1.1 - Validation of Neighbor Solicitations *)
  if negb (hop_limit (options buf) =? 255) then drop
  else if negb (opt_code (options buf) =? 0) then drop
  else if addr_is_ipv6_multicast target then drop
  else if negb (icmpv6_nd_options_validate opts opts_len) then drop
  (* if (unspecified source) {
       if (!memcmp(dst, ADDR_MULTICAST_SOLICITED, 13)) goto drop;
       if (has_sllao) goto drop; } *)
  else if addr_is_ipv6_unspecified (address (src_sa buf)) &&
          (memcmp_eq (address (dst_sa buf)) ADDR_MULTICAST_SOLICITED 13 || has_sllao)
  then drop
  else
    let proxy := negb (addr_interface_address_compare K w target =? 0) in
    (* Filter Link Local scope *)
    if proxy && addr_is_ipv6_link_local target then drop
    else
      let '(ok, na_earo, w) :=
        if has_earo then
          nd_ns_earo_handler K w (io_data earo) (io_data_size earo)
                             (if has_sllao then Some (io_data sllao) else None)
                             (address (src_sa buf)) target
        else (true, earo_zero, w) in
      if negb ok then Ret (w, None)
      else
        let '(w, buf) :=
          if negb (earo_present na_earo) && has_sllao then
            let '(r, ll) := if_llao_parse K w (io_data sllao) (dst_sa buf) in
            let buf := set_dst_sa buf ll in
            if negb (r =? 0) then
              (set_cur w (set_neighbour_cache (cur w)
                 (ipv6_neighbour_update_unsolicited K (ipv6_neighbour_cache (cur w))
                    (address (src_sa buf)) (addr_type (dst_sa buf))
                    (address (dst_sa buf)))), buf)
            else (w, buf)
          else (w, buf) in
        Ret (icmpv6_build_na w true (negb proxy)
               (addr_is_ipv6_multicast (address (dst_sa buf))) target
               (if earo_present na_earo then Some na_earo else None)
               (address (src_sa buf))).

(** [icmpv6_na_handler]: it always returns [buffer_free(buf)], that is
    NULL; what matters is the state it leaves. *)
Definition icmpv6_na_handler (fuel : nat) (w : World) (buf : buffer_t)
  : outcome (World * option buffer_t) :=
  let dptr := buf_data buf in
  let drop := Ret (w, None) in
  if negb (opt_code (options buf) =? 0) || negb (hop_limit (options buf) =? 255)
  then drop
  else if negb (icmpv6_options_well_formed_in_buffer buf 20) then drop
  else
    let flags := at8 dptr 0 in
    let target := memcpy_n (skipn 4 dptr) 16 in
    if addr_is_ipv6_multicast target then drop
    (* Solicited flag must be clear if sent to a multicast address *)
    else if addr_is_ipv6_multicast (address (dst_sa buf)) &&
            negb (Z.land flags NA_S =? 0)
    then drop
    (* RFC 4862 5.4.4 DAD checks *)
    else if addr_get_entry K w target then drop
    else
      aro <- icmpv6_find_option_in_buffer fuel buf 20 ICMPV6_OPT_ADDR_REGISTRATION ;;
      let aro := match aro with
                 | Some p => if negb (at8 p 1 =? 2) then None else Some p
                 | None => None
                 end in
      let w := match aro with
               | Some p => icmpv6_na_wisun_aro_handler w p (address (src_sa buf))
               | None => w
               end in
      (* No need to create a neighbour cache entry if one doesn't already exist *)
      match ipv6_neighbour_lookup K (ipv6_neighbour_cache (cur w)) target with
      | None => Ret (w, None)
      | Some neighbour_entry =>
          tllao <- icmpv6_find_option_in_buffer fuel buf 20 ICMPV6_OPT_TGT_LL_ADDR ;;
          let dst :=
            match tllao with
            | None => set_addr_type (dst_sa buf) ADDR_NONE
            | Some p =>
                let '(r, ll) := if_llao_parse K w p (dst_sa buf) in
                if r =? 0 then set_addr_type ll ADDR_NONE else ll
            end in
          let nc := ipv6_neighbour_update_from_na K (ipv6_neighbour_cache (cur w))
                      neighbour_entry flags (addr_type dst) (address dst) in
          let w := set_cur w (set_neighbour_cache (cur w) nc) in
          let w := if neighbour_is_reachable K nc neighbour_entry
                   then ws_common_neighbor_update K w target else w in
          Ret (w, None)
      end.

(** ** protocol.c: timers *)

Definition REACHABLE_TIME_UPDATE_SECONDS : Z := 600.

Definition icmp_fast_timer (ticks : Z) (w : World) : World :=
  let t := to_u16 (icmp_tokens (cur w) + ticks) in
  let t := if t >? 10 then 10 else t in
  set_cur w (set_icmp_tokens (cur w) t).

Definition protocol_stack_interface_set_reachable_time (w : World)
           (base_reachable_time : Z) : Z * World :=
  let c := set_base_reachable_time (cur w) base_reachable_time in
  let c := set_reachable_time_ttl c REACHABLE_TIME_UPDATE_SECONDS in
  let '(r, e) := rand_get K (ext w) in
  let rt := rand_randomise_base r base_reachable_time 0x4000 0xBFFF in
  (rt, mk_world NC Ext
         (set_neighbour_cache c (set_reachable_time (ipv6_neighbour_cache c) rt)) e).

Definition update_reachable_time (seconds : Z) (w : World) : World :=
  if reachable_time_ttl (cur w) >? seconds then
    set_cur w (set_reachable_time_ttl (cur w)
                 (to_u16 (reachable_time_ttl (cur w) - seconds)))
  else
    snd (protocol_stack_interface_set_reachable_time w (base_reachable_time (cur w))).

(** ** Traces of the error responder

    What the engine does with the token bucket over time: the fast
    timer fires with a number of ticks, or some layer asks for an
    ICMPv6 error about a packet. *)
Inductive event : Type :=
  | EvTick (ticks : Z)
  | EvError (buf : buffer_t) (type code aux : Z).

Definition step (w : World) (ev : event) : World * nat :=
  match ev with
  | EvTick ticks => (icmp_fast_timer ticks w, 0%nat)
  | EvError buf type code aux =>
      match icmpv6_error w buf type code aux with
      | (w', Some _) => (w', 1%nat)
      | (w', None) => (w', 0%nat)
      end
  end.

(** The final state and the number of ICMPv6 errors emitted. *)
Fixpoint run (w : World) (evs : list event) : World * nat :=
  match evs with
  | [] => (w, 0%nat)
  | ev :: evs' =>
      let '(w1, n1) := step w ev in
      let '(w2, n2) := run w1 evs' in
      (w2, (n1 + n2)%nat)
  end.

(** Repeated calls of [update_reachable_time]. *)
Fixpoint update_reachable_time_all (secs : list Z) (w : World) : World :=
  match secs with
  | [] => w
  | s :: secs' => update_reachable_time_all secs' (update_reachable_time s w)
  end.

End Model.

Definition ticks_of (ev : event) : Z :=
  match ev with
  | EvTick ticks => ticks
  | EvError _ _ _ _ => 0
  end.

Fixpoint ticks_in (evs : list event) : Z :=
  match evs with
  | [] => 0
  | ev :: evs' => ticks_of ev + ticks_in evs'
  end.


Definition ticks_nonneg (evs : list event) : Prop :=
  Forall (fun ev => 0 <= ticks_of ev) evs.

(** Modelled from the spec: the period of the fast ICMP timer is set in
    the timer table, which is outside the files modelled here; the bucket
    refills at 10 tokens per second and [icmp_fast_timer] adds one
    token per tick, so one second is ten ticks. *)
Definition ICMP_FAST_TICKS_PER_SECOND : Z := 10.

(** A window of at most one second. *)
Definition one_second_window (evs : list event) : Prop :=
  ticks_nonneg evs /\ ticks_in evs <= ICMP_FAST_TICKS_PER_SECOND.

(** ** A sample environment

    Concrete collaborators and packets on which the model is run: an
    interface with EUI-64 02:00:00:00:00:00:00:02 that owns fe80::2,
    a neighbour cache kept as an association list, a registration
    handler that accepts every EARO and answers with it. *)
Module Demo.

Definition NC : Type := list (address_t * sockaddr_t).
Definition NE : Type := address_t.
Definition Ext : Type := Z.

Definition fe80_1 : address_t :=
  bytes_of [0xfe; 0x80; 0; 0; 0; 0; 0; 0; 0; 0; 0; 0; 0; 0; 0; 1].
Definition fe80_2 : address_t :=
  bytes_of [0xfe; 0x80; 0; 0; 0; 0; 0; 0; 0; 0; 0; 0; 0; 0; 0; 2].
Definition fe80_9 : address_t :=
  bytes_of [0xfe; 0x80; 0; 0; 0; 0; 0; 0; 0; 0; 0; 0; 0; 0; 0; 9].
Definition global_7 : address_t :=
  bytes_of [0x20; 0x01; 0x0d; 0xb8; 0; 0; 0; 0; 0; 0; 0; 0; 0; 0; 0; 7].
Definition solicited_2 : address_t :=
  bytes_of [0xff; 0x02; 0; 0; 0; 0; 0; 0; 0; 0; 0; 0x01; 0xff; 0; 0; 2].
Definition eui64_if : list byte := bytes_of [0x02; 0; 0; 0; 0; 0; 0; 0x02].
Definition eui64_peer : list byte :=
  bytes_of [0x02; 0x11; 0x22; 0x33; 0x44; 0x55; 0x66; 0x77].

Definition World : Type := world NC Ext.

Definition is_ours (a : address_t) : bool := bytes_eqb a fe80_2.

Definition blank_buffer : buffer_t :=
  mk_buffer (mk_options 0 0 64 0 false false false)
            (mk_info B_DIR_DOWN B_LAYER_NONE B_LAYER_NONE)
            (mk_sockaddr ADDR_NONE (repeat x00 16) 0)
            (mk_sockaddr ADDR_NONE (repeat x00 16) 0)
            [] CB_NONE None.

Fixpoint lookup (l : NC) (a : address_t) : option NE :=
  match l with
  | [] => None
  | (k, _) :: l' => if bytes_eqb k a then Some k else lookup l' a
  end.

Definition on_list (nc : ipv6_neighbour_cache_t NC) (f : NC -> NC)
  : ipv6_neighbour_cache_t NC :=
  mk_cache NC (f (nc_list nc)) (reachable_time nc) (recv_addr_reg nc)
           (omit_na nc) (omit_na_aro_success nc) (link_mtu nc).

Definition earo_of_bytes (p : list byte) : ipv6_nd_opt_earo :=
  mk_earo true (at8 p 2) (at8 p 3) 0 false false (at8 p 5)
          (read_be16 (skipn 6 p)) (firstn 8 (skipn 8 p)).

Definition llao_of_eui64 (opt : Z) (eui64 : list byte) : list byte :=
  [to_u8 opt; to_u8 2] ++ firstn 8 eui64 ++ repeat x00 6.

Definition K : collab NC NE Ext :=
  mk_collab NC NE Ext
    (fun _ a => if is_ours a then 0 else -1)
    (fun _ a => is_ours a)
    (fun _ a => is_ours a)
    (fun _ _ => Some fe80_2)
    (fun _ => Some fe80_2)
    (fun _ => Some blank_buffer)
    (fun b _ => Some b)
    (fun b => set_info b (mk_info B_DIR_DOWN (b_from (info b)) (b_to (info b))))
    (fun w b => (Some b, ext w))
    (fun _ mtu => mtu - 40)
    (fun e _ _ => e)
    (fun nc a => lookup (nc_list nc) a)
    (fun nc e _ t a => on_list nc (fun l => (e, mk_sockaddr t a 0) :: l))
    (fun nc ip t a => on_list nc (fun l => (ip, mk_sockaddr t a 0) :: l))
    (fun _ _ => false)
    (fun w earo _ _ _ _ => (true, earo_of_bytes earo, w))
    (fun e _ _ => e)
    (fun w _ => w)
    (fun w _ => w)
    (fun w _ => (true, w))
    (fun _ opt sa => (1, mk_sockaddr ADDR_802_15_4_LONG
                           (firstn 8 (skipn 2 opt) ++ repeat x00 8) (port sa)))
    (fun w opt _ _ => llao_of_eui64 opt (mac (cur w)))
    (fun e => (e, e + 1)).

Definition cache0 : ipv6_neighbour_cache_t NC :=
  mk_cache NC [(fe80_1, mk_sockaddr ADDR_802_15_4_LONG (repeat x00 16) 0)]
           30000 true false false 1280.

Definition w0 : World :=
  mk_world NC Ext (mk_net_if NC 10 64 600 30000 eui64_if cache0) 0.

Definition with_tokens (t : Z) : World :=
  set_cur w0 (set_icmp_tokens (cur w0) t).

(** An inbound ICMPv6 message as the handlers see it, the four octets
    of type, code and checksum stripped. *)
Definition inbound (type hop : Z) (src dst : address_t) (data : list byte)
  : buffer_t :=
  mk_buffer (mk_options type 0 hop 0 false false false)
            (mk_info B_DIR_UP B_LAYER_IPV6 B_LAYER_ICMP)
            (mk_sockaddr ADDR_IPV6 src 0) (mk_sockaddr ADDR_IPV6 dst 0)
            data CB_NONE None.

Definition earo_s1 : list byte :=
  bytes_of [33; 2; 0; 0; 0; 0; 0x0e; 0x10] ++ eui64_peer.

(** Scenario S1: NS from fe80::1 to ff02::1:ff00:2 for fe80::2, with an
    EARO and no SLLAO. *)
Definition ns_s1 : buffer_t :=
  inbound ICMPV6_TYPE_INFO_NS 255 fe80_1 solicited_2
          (repeat x00 4 ++ fe80_2 ++ earo_s1).

(** An NS with hop limit 64 whose only option has type 3 and length 0. *)
Definition ns_zero_length_option : buffer_t :=
  inbound ICMPV6_TYPE_INFO_NS 64 fe80_1 solicited_2
          (repeat x00 4 ++ fe80_2 ++ bytes_of [3; 0; 0; 0; 0; 0; 0; 0]).

(** A DAD probe: NS from :: to the solicited-node address of fe80::2,
    no option. *)
Definition ns_dad : buffer_t :=
  inbound ICMPV6_TYPE_INFO_NS 255 ADDR_UNSPECIFIED solicited_2
          (repeat x00 4 ++ fe80_2).

(** An NS from :: sent to the all-nodes address. *)
Definition ns_unspecified_all_nodes : buffer_t :=
  inbound ICMPV6_TYPE_INFO_NS 255 ADDR_UNSPECIFIED ADDR_LINK_LOCAL_ALL_NODES
          (repeat x00 4 ++ fe80_2).

(** Scenario S5: NA to ff02::1 with the S flag. *)
Definition na_s5 : buffer_t :=
  inbound ICMPV6_TYPE_INFO_NA 255 fe80_1 ADDR_LINK_LOCAL_ALL_NODES
          (bytes_of [0x40; 0; 0; 0] ++ fe80_1).

(** An NA for fe80::9, which the cache does not know, with a TLLAO and
    an EARO of status 1 for the interface's own EUI-64. *)
Definition na_unknown_target : buffer_t :=
  inbound ICMPV6_TYPE_INFO_NA 255 fe80_9 fe80_2
          (bytes_of [0x60; 0; 0; 0] ++ fe80_9 ++
           llao_of_eui64 ICMPV6_OPT_TGT_LL_ADDR eui64_peer ++
           bytes_of [33; 2; 1; 0; 0; 0; 0x0e; 0x10] ++ eui64_if).

(** An NA with hop limit 64. *)
Definition na_hop_64 : buffer_t :=
  inbound ICMPV6_TYPE_INFO_NA 64 fe80_1 fe80_2 (bytes_of [0x60; 0; 0; 0] ++ fe80_1).

Definition ipv6_header (payload_len nh : Z) (src dst : address_t) : list byte :=
  bytes_of [0x60; 0; 0; 0] ++ write_be16 payload_len ++ [to_u8 nh; to_u8 64]
  ++ src ++ dst.

(** An offending packet as the error responder sees it: the buffer
    holds the whole IPv6 packet. *)
Definition offending (src dst : address_t) (nh : Z) (payload : list byte)
  : buffer_t :=
  mk_buffer (mk_options 0 0 64 0 false false false)
            (mk_info B_DIR_UP B_LAYER_IPV6 B_LAYER_NONE)
            (mk_sockaddr ADDR_IPV6 src 0) (mk_sockaddr ADDR_IPV6 dst 0)
            (ipv6_header (Z.of_nat (length payload)) nh src dst ++ payload)
            CB_NONE None.

(** A UDP datagram from fe80::1 to fe80::2. *)
Definition udp_packet : buffer_t :=
  offending fe80_1 fe80_2 17 (bytes_of [0x12; 0x34; 0x56; 0x78; 0; 8; 0; 0]).

(** An ICMPv6 Destination Unreachable from fe80::1, behind a
    hop-by-hop header. *)
Definition icmp_error_packet : buffer_t :=
  offending fe80_1 fe80_2 IPV6_NH_HOP_BY_HOP
            (bytes_of [58; 0; 1; 4; 0; 0; 0; 0] ++ bytes_of [1; 0; 0; 0; 0; 0; 0; 0]).

(** The same UDP datagram received with the link-layer security
    bypass flag. *)
Definition bypass_packet : buffer_t :=
  set_options udp_packet (mk_options 0 0 64 0 true false false).

Definition udp_error : event :=
  EvError udp_packet ICMPV6_TYPE_ERROR_PARAMETER_PROBLEM 0 0.

(** Ten errors at once, then one error after each of ten ticks. *)
Definition burst_trace : list event :=
  repeat udp_error 10 ++
  concat (repeat [EvTick 1; udp_error] 10).

End Demo.

(** ** What an emitted NA carries, as functions of the NS

    The target the NS handler reads, and the flags and the destination
    that [icmpv6_build_na] is shown to produce. *)

(** The target address [icmpv6_ns_handler] pops after the four reserved
    octets. *)
Definition icmpv6_ns_target (buf : buffer_t) : address_t :=
  fst (iobuf_pop_data
         (snd (iobuf_pop_data_ptr
                 (mk_iobuf (length (buf_data buf)) (buf_data buf) 0 false) 4))
         16).

(** O when [override]; S when [solicited] and the NS source is not the
    unspecified address; R never. *)
Definition na_flags (solicited override : bool) (src_addr : address_t) : Z :=
  Z.lor (if override then NA_O else 0)
        (if addr_is_ipv6_unspecified src_addr then 0
         else if solicited then NA_S else 0).

(** A proxy NA for a subordinate's registered address: the target is
    not an address of the interface, and the neighbour cache holds an
    entry for it when the NS arrives or once the NS, with its
    registration, has been handled. *)
Definition proxy_na_for_registered {NC NE Ext : Type} (K : collab NC NE Ext)
           (w w' : world NC Ext) (target : address_t) : Prop :=
  addr_interface_address_compare K w target <> 0 /\
  (ipv6_neighbour_lookup K (ipv6_neighbour_cache (cur w)) target <> None \/
   ipv6_neighbour_lookup K (ipv6_neighbour_cache (cur w')) target <> None).

(** fe80::/64 followed by the EUI-64 with bit 1 of its first octet
    inverted. *)
Definition link_local_of_eui64 (eui64 : list byte) : address_t :=
  xor_at (ADDR_LINK_LOCAL_PREFIX ++ firstn 8 eui64) 8 2.

Definition earo_failed (earo : option ipv6_nd_opt_earo) : bool :=
  match earo with
  | Some e => negb (earo_status e =? ARO_SUCCESS)
  | None => false
  end.

Definition earo_eui64_of (earo : option ipv6_nd_opt_earo) : list byte :=
  match earo with
  | Some e => earo_eui64 e
  | None => []
  end.

(** ff02::1 in answer to the unspecified address; else the link-local
    address of the EARO when its status is not SUCCESS; else the NS
    source. *)
Definition na_destination (earo : option ipv6_nd_opt_earo) (src_addr : address_t)
  : address_t :=
  if addr_is_ipv6_unspecified src_addr then ADDR_LINK_LOCAL_ALL_NODES
  else if earo_failed earo then link_local_of_eui64 (earo_eui64_of earo)
  else src_addr.

(** ** The rules of the error responder, as predicates

    RFC 4443 2.4 (e.1) to (e.6), in the terms of the packet the error
    would answer. *)

(** The packet is a recognisable ICMPv6 error (type below 128) or a
    Redirect. *)
Definition is_icmpv6_error_or_redirect (buf : buffer_t) : Prop :=
  fst (is_icmpv6_msg buf) = true /\
  (opt_type (options (snd (is_icmpv6_msg buf))) < 128 \/
   opt_type (options (snd (is_icmpv6_msg buf))) = ICMPV6_TYPE_INFO_REDIRECT).

(** The packet went to an IP multicast address or arrived as a
    link-layer broadcast or multicast. *)
Definition received_as_multicast (buf : buffer_t) : Prop :=
  addr_is_ipv6_multicast (address (dst_sa buf)) = true \/
  ll_broadcast_rx (options buf) = true \/
  ll_multicast_rx (options buf) = true.

(** The two errors that may answer a multicast. *)
Definition multicast_exception (type code : Z) : Prop :=
  type = ICMPV6_TYPE_ERROR_PACKET_TOO_BIG \/
  (type = ICMPV6_TYPE_ERROR_PARAMETER_PROBLEM /\
   code = ICMPV6_CODE_PARAM_PRB_UNREC_IPV6_OPT).

(** The source does not name a single node. *)
Definition source_not_single_node (buf : buffer_t) : Prop :=
  addr_is_ipv6_unspecified (address (src_sa buf)) = true \/
  addr_is_ipv6_multicast (address (src_sa buf)) = true.

(** ** Option chains, option by option

    The declarative reading of an option area, against which the two
    loops of icmpv6.c are compared: a list of options, each one a
    type octet, a length octet and a body. *)

Record nd_option : Type := mk_nd_option {
  ndo_type : byte;
  ndo_len : byte;
  ndo_body : list byte
}.

Definition nd_option_bytes (o : nd_option) : list byte :=
  ndo_type o :: ndo_len o :: ndo_body o.

Fixpoint nd_options_bytes (os : list nd_option) : list byte :=
  match os with
  | [] => []
  | o :: os' => nd_option_bytes o ++ nd_options_bytes os'
  end.

(** The length octet is not zero and counts the whole option in units
    of eight octets. *)
Definition nd_option_ok (o : nd_option) : Prop :=
  u8 (ndo_len o) <> 0 /\
  length (nd_option_bytes o) = (8 * Z.to_nat (u8 (ndo_len o)))%nat.

(** The first option of type [opt] and the options behind it. *)
Fixpoint nd_option_first (opt : Z) (os : list nd_option)
  : option (nd_option * list nd_option) :=
  match os with
  | [] => None
  | o :: os' =>
      if u8 (ndo_type o) =? opt then Some (o, os') else nd_option_first opt os'
  end.

(** The flag and the result slot that a search of the chain [os] for
    [opt] is shown to produce. *)
Definition nd_option_get_result (opt : Z) (os : list nd_option) : bool * iobuf_read :=
  match nd_option_first opt os with
  | Some (o, os') =>
      (true, mk_iobuf (8 * Z.to_nat (u8 (ndo_len o)))
                      (nd_option_bytes o ++ nd_options_bytes os') 0 false)
  | None => (false, iobuf_res_none)
  end.

(** ** icmpv6.c: the rest of the receive and transmit paths *)

Definition IP_TCLASS_ECN_MASK : Z := 0x03.

(** More collaborators: the functions that the rest of icmpv6.c calls
    and whose body is outside the files modelled here.
    [buffer_ipv6_fcf] is the checksum over the pseudo-header and the
    data of a buffer; [ipv6_destination_redirect] takes the id of the
    interface in C, which names the one interface of the [world];
    [addr_interface_select_source] returns the source it writes, or
    nothing when it fails. *)
Record collab_paths {NC Ext : Type} : Type := mk_collab_paths {
  buffer_ipv6_fcf : buffer_t -> Z -> Z;
  ipv6_destination_redirect :
    world NC Ext -> address_t -> address_t -> address_t -> addrtype_e ->
    address_t -> world NC Ext;
  addr_interface_select_source : world NC Ext -> address_t -> option address_t;
  ws_common_neighbor_remove : world NC Ext -> address_t -> world NC Ext;
  SOCKET_TX_DONE : Z
}.
Arguments collab_paths : clear implicits.

(** [buffer_data_strip_header(buf, n)]. *)
Definition buffer_data_strip_header (buf : buffer_t) (n : nat) : buffer_t :=
  set_data buf (skipn n (buf_data buf)).

(** [trace_icmp] writes one trace line and changes nothing; what is
    kept of it is the search for an EARO that it runs on an NS longer
    than twenty octets, a search that has to return before the trace
    line is written. *)
Definition trace_icmp (fuel : nat) (buf : buffer_t) : outcome unit :=
  if opt_type (options buf) =? ICMPV6_TYPE_INFO_NS then
    if buffer_data_length buf >? 20 then
      '(_, _) <- icmpv6_nd_option_get fuel (skipn 20 (buf_data buf))
                   (length (buf_data buf) - 20) ICMPV6_OPT_ADDR_REGISTRATION ;;
      Ret tt
    else Ret tt
  else Ret tt.

(** The link-local address that the three ACK callbacks compute from
    the destination of the acknowledged packet: the address itself, or
    fe80::/64 followed by the eight octets behind the PAN id with bit 1
    of the first inverted; nothing for another type of address. *)
Definition ack_ll_target (dst : sockaddr_t) : option address_t :=
  match addr_type dst with
  | ADDR_IPV6 => Some (memcpy_n (address dst) 16)
  | ADDR_802_15_4_LONG =>
      Some (xor_at (memcpy_n ADDR_LINK_LOCAL_PREFIX 8 ++
                    memcpy_n (skipn 2 (address dst)) 8) 8 2)
  | _ => None
  end.

(** Modelled from the spec: [memzcmp] is outside the files modelled
    here; it compares a region with zeros, as memcmp does, and is 0
    when every octet is zero. *)
Definition memzcmp_is_zero (p : list byte) (n : nat) : bool :=
  bytes_eqb (firstn n p) (repeat x00 n).

(** The three fields that [protocol_set_eui64] writes. *)
Record eui64_ids : Type := mk_eui64_ids {
  id_mac : list byte;
  id_iid_eui64 : list byte;
  id_iid_slaac : list byte
}.

(** [protocol_set_eui64]; [None] when the BUG_ON on an all-zero EUI-64
    stops the program. *)
Definition protocol_set_eui64 (eui64 : list byte) : option eui64_ids :=
  if memzcmp_is_zero eui64 8 then None
  else Some (mk_eui64_ids (memcpy_n eui64 8)
                          (xor_at (memcpy_n eui64 8) 0 2)
                          (xor_at (memcpy_n eui64 8) 0 2)).

Section Paths.

Context {NC NE Ext : Type}.
Variable K : collab NC NE Ext.
Variable P : collab_paths NC Ext.

Abbreviation World2 := (world NC Ext).

Definition icmpv6_redirect_handler (fuel : nat) (w : World2) (buf : buffer_t)
  : outcome (World2 * option buffer_t) :=
  let ptr := buf_data buf in
  let tgt := skipn 4 ptr in
  let dest := skipn 20 ptr in
  let tgt_ll := mk_sockaddr ADDR_NONE (repeat x00 16) 0 in
  let drop := Ret (w, None) in
  if negb (hop_limit (options buf) =? 255) then drop
  else if negb (addr_is_ipv6_link_local (address (src_sa buf))) then drop
  else if negb (opt_code (options buf) =? 0) then drop
  else if negb (icmpv6_options_well_formed_in_buffer buf 36) then drop
  else if addr_is_ipv6_multicast dest then drop
  else
    tllao <- icmpv6_find_option_in_buffer fuel buf 36 ICMPV6_OPT_TGT_LL_ADDR ;;
    let tgt_ll := match tllao with
                  | Some p => snd (if_llao_parse K w p tgt_ll)
                  | None => tgt_ll
                  end in
    Ret (ipv6_destination_redirect P w (memcpy_n tgt 16)
           (address (src_sa buf)) (memcpy_n dest 16)
           (addr_type tgt_ll) (address tgt_ll),
         None).

(** The second half of [icmpv6_up]: the trace line and the [switch] on
    the type. *)
Definition icmpv6_up_dispatch (fuel : nat) (w : World2) (buf : buffer_t)
  : outcome (World2 * option buffer_t) :=
  _ <- trace_icmp fuel buf ;;
  if opt_type (options buf) =? ICMPV6_TYPE_INFO_NS then icmpv6_ns_handler K fuel w buf
  else if opt_type (options buf) =? ICMPV6_TYPE_INFO_NA then icmpv6_na_handler K fuel w buf
  else if opt_type (options buf) =? ICMPV6_TYPE_INFO_REDIRECT
  then icmpv6_redirect_handler fuel w buf
  else Ret (w, None).

Definition icmpv6_up (fuel : nat) (w : World2) (buf : buffer_t)
  : outcome (World2 * option buffer_t) :=
  let iobuf := mk_iobuf (length (buf_data buf)) (buf_data buf) 0 false in
  let '(type, iobuf) := iobuf_pop_u8 iobuf in
  let '(code, iobuf) := iobuf_pop_u8 iobuf in
  let buf := set_options buf (set_type_code (options buf) type code) in
  let '(_, iobuf) := iobuf_pop_be16 iobuf in
  if io_err iobuf then Ret (w, None)
  else if negb (buffer_ipv6_fcf P buf IPV6_NH_ICMPV6 =? 0) then
    Ret (set_ext w (protocol_stats_update K (ext w) STATS_IP_CKSUM_ERROR 1), None)
  else icmpv6_up_dispatch fuel w (buffer_data_strip_header buf 4).

Definition icmpv6_down (fuel : nat) (w : World2) (buf : buffer_t)
  : outcome (option buffer_t) :=
  _ <- trace_icmp fuel buf ;;
  match buffer_headroom K buf 4 with
  | None => Ret None
  | Some buf =>
      let buf := set_info buf (mk_info B_DIR_DOWN B_LAYER_ICMP B_LAYER_IPV6) in
      let src :=
        if negb (addrtype_eqb (addr_type (src_sa buf)) ADDR_IPV6) then
          match addr_interface_select_source P w (address (dst_sa buf)) with
          | None => None
          | Some s => Some (mk_sockaddr ADDR_IPV6 s (port (src_sa buf)))
          end
        else Some (src_sa buf) in
      match src with
      | None => Ret None
      | Some src =>
          let buf := set_src_sa buf src in
          let type := to_u8 (opt_type (options buf)) in
          let code := to_u8 (opt_code (options buf)) in
          let body := buf_data buf in
          let buf := set_data buf ([type; code] ++ write_be16 0 ++ body) in
          let fcf := buffer_ipv6_fcf P buf IPV6_NH_ICMPV6 in
          let buf := set_data buf ([type; code] ++ write_be16 fcf ++ body) in
          let o := set_type_code (options buf) IPV6_NH_ICMPV6 0 in
          let o := set_traffic_class o
                     (Z.land (traffic_class o) (Z.lxor 0xff IP_TCLASS_ECN_MASK)) in
          Ret (Some (set_options buf o))
      end
  end.

Definition ack_receive_cb (w : World2) (buffer_ptr : buffer_t) (status : Z) : World2 :=
  if negb (status =? SOCKET_TX_DONE P) then w
  else
    match ack_ll_target (dst_sa buffer_ptr) with
    | None => w
    | Some ll_target =>
        let w :=
          match ipv6_neighbour_lookup K (ipv6_neighbour_cache (cur w)) ll_target with
          | Some neighbour_entry =>
              set_cur w (set_neighbour_cache (cur w)
                (ipv6_neighbour_update_from_na K (ipv6_neighbour_cache (cur w))
                   neighbour_entry NA_S (addr_type (dst_sa buffer_ptr))
                   (address (dst_sa buffer_ptr))))
          | None => w
          end in
        ws_common_neighbor_update K w ll_target
    end.

Definition ack_remove_neighbour_cb (w : World2) (buffer_ptr : buffer_t) (status : Z)
  : World2 :=
  match ack_ll_target (dst_sa buffer_ptr) with
  | None => w
  | Some ll_target => ws_common_neighbor_remove P w ll_target
  end.

(** [protocol_interface_address_compare], with the one interface. *)
Definition protocol_interface_address_compare (w : World2) (addr : address_t) : Z :=
  if addr_is_assigned_to_interface K w addr then 0 else -1.

End Paths.

(** Sample collaborators for the functions above: the checksum is the
    sum of the data octets outside the checksum field minus the
    checksum field, modulo 65536. *)
Module Demo2.

Fixpoint sum_octets (p : list byte) : Z :=
  match p with
  | [] => 0
  | b :: p' => u8 b + sum_octets p'
  end.

Definition fcf (buf : buffer_t) (nh : Z) : Z :=
  let d := buf_data buf in
  to_u16 (nh + sum_octets (firstn 2 d) + sum_octets (skipn 4 d)
          - read_be16 (skipn 2 d)).

Definition P : collab_paths Demo.NC Demo.Ext :=
  mk_collab_paths Demo.NC Demo.Ext
    fcf
    (fun w _ _ _ _ _ => set_ext w (ext w + 1))
    (fun _ _ => Some Demo.fe80_2)
    (fun w _ => w)
    0.

(** An echo request (type 128) of eight data octets. *)
Definition echo_request : buffer_t :=
  set_options
    (Demo.inbound 0 64 Demo.fe80_1 Demo.fe80_2
       (bytes_of [128; 0; 0x01; 0x25; 0x12; 0x34; 0; 1; 1; 2; 3; 4; 5; 6; 7; 8]))
    (mk_options 0 0 64 0 false false false).

(** A Redirect with hop limit 64. *)
Definition redirect_hop_64 : buffer_t :=
  Demo.inbound ICMPV6_TYPE_INFO_REDIRECT 64 Demo.fe80_1 Demo.fe80_2
               (repeat x00 4 ++ Demo.fe80_9 ++ Demo.global_7).

(** An NS for fe80::2 from fe80::1 with an SLLAO and an unknown option
    of type 14. *)
Definition ns_two_options : buffer_t :=
  Demo.inbound ICMPV6_TYPE_INFO_NS 255 Demo.fe80_1 Demo.solicited_2
               (repeat x00 4 ++ Demo.fe80_2 ++
                bytes_of [14; 1; 0; 0; 0; 0; 0; 0] ++
                Demo.llao_of_eui64 ICMPV6_OPT_SRC_LL_ADDR Demo.eui64_peer).

(** The options of [ns_two_options], option by option. *)
Definition two_options : list nd_option :=
  [mk_nd_option (to_u8 14) (to_u8 1) (repeat x00 6);
   mk_nd_option (to_u8 ICMPV6_OPT_SRC_LL_ADDR) (to_u8 2)
                (Demo.eui64_peer ++ repeat x00 6)].

(** A Redirect from fe80::1 with hop limit 255: traffic for 2001:db8::7
    is better sent to fe80::9. *)
Definition redirect_255 : buffer_t :=
  Demo.inbound ICMPV6_TYPE_INFO_REDIRECT 255 Demo.fe80_1 Demo.fe80_2
               (repeat x00 4 ++ Demo.fe80_9 ++ Demo.global_7).

(** The options of [Demo.ns_s1]: one EARO. *)
Definition earo_s1_options : list nd_option :=
  [mk_nd_option (to_u8 ICMPV6_OPT_ADDR_REGISTRATION) (to_u8 2)
                (bytes_of [0; 0; 0; 0; 0x0e; 0x10] ++ Demo.eui64_peer)].

(** The NS of scenario S1 as it arrives, with its four octets of type,
    code and checksum. *)
Definition ns_s1_wire : buffer_t :=
  set_data Demo.ns_s1 (bytes_of [135; 0; 0x04; 0x60] ++ buf_data Demo.ns_s1).

(** The interface of [Demo.w0] with NAs omitted: the MAC ACK stands for
    the NA. *)
Definition w_omit_na : Demo.World :=
  set_cur Demo.w0
    (set_neighbour_cache (cur Demo.w0)
       (mk_cache Demo.NC (nc_list Demo.cache0) 30000 true true false 1280)).

(** [Demo.ns_zero_length_option] with hop limit 255, as it arrives:
    type, code and checksum in front. *)
Definition ns_zero_length_wire : buffer_t :=
  Demo.inbound 0 255 Demo.fe80_1 Demo.solicited_2
               (bytes_of [135; 0; 0x02; 0x44] ++ repeat x00 4 ++ Demo.fe80_2 ++
                bytes_of [3; 0; 0; 0; 0; 0; 0; 0]).

(** An address registration option cut to eight octets. *)
Definition short_earo_options : list nd_option :=
  [mk_nd_option (to_u8 ICMPV6_OPT_ADDR_REGISTRATION) (to_u8 1) (repeat x00 6)].

(** An NS for fe80::2 that carries it and nothing else. *)
Definition ns_short_earo : buffer_t :=
  Demo.inbound ICMPV6_TYPE_INFO_NS 255 Demo.fe80_1 Demo.solicited_2
               (repeat x00 4 ++ Demo.fe80_2 ++ nd_options_bytes short_earo_options).


(** ff02::1:ff00:7, the solicited-node address of 2001:db8::7. *)
Definition solicited_7 : address_t :=
  bytes_of [0xff; 0x02; 0; 0; 0; 0; 0; 0; 0; 0; 0; 0x01; 0xff; 0; 0; 7].

(** An NS from fe80::1 for 2001:db8::7, which is not an address of the
    interface; no option. *)
Definition ns_global_7 : buffer_t :=
  Demo.inbound ICMPV6_TYPE_INFO_NS 255 Demo.fe80_1 solicited_7
               (repeat x00 4 ++ Demo.global_7).

(** The interface of [Demo.w0] after a neighbour has registered
    2001:db8::7: the neighbour cache holds an entry for it. *)
Definition w_registered : Demo.World :=
  set_cur Demo.w0
    (set_neighbour_cache (cur Demo.w0)
       (Demo.on_list Demo.cache0
          (fun l => (Demo.global_7,
                     mk_sockaddr ADDR_802_15_4_LONG
                                 (Demo.eui64_peer ++ repeat x00 8) 0) :: l))).



End Demo2.

(** ** Proof automation *)

(** Reduce the field updates of a buffer without touching the octets. *)
Ltac simpl_buf :=
  cbn -[firstn skipn app repeat write_be32 write_be16 to_u32 to_u16 to_u8
        Z.shiftl Z.eqb Z.gtb Z.ltb Z.lor Z.land negb andb orb
        earo_na_bytes earo_ns_bytes icmpv6_write_icmp_lla].

Tactic Notation "simpl_buf" "in" hyp(H) :=
  cbn -[firstn skipn app repeat write_be32 write_be16 to_u32 to_u16 to_u8
        Z.shiftl Z.eqb Z.gtb Z.ltb Z.lor Z.land negb andb orb
        earo_na_bytes earo_ns_bytes icmpv6_write_icmp_lla] in H.

(** * Properties *)

(** ** Octets *)

Lemma u8_range : forall b, 0 <= u8 b <= 255.
Proof.
  intro b. unfold u8. pose proof (Byte.to_N_bounded b). lia.
Qed.

Lemma at8_range : forall p i, 0 <= at8 p i <= 255.
Proof. intros. apply u8_range. Qed.

Lemma to_u16_small : forall z, 0 <= z < 65536 -> to_u16 z = z.
Proof. intros. unfold to_u16. apply Z.mod_small. lia. Qed.

Lemma to_u16_range : forall z, 0 <= to_u16 z < 65536.
Proof. intros. unfold to_u16. apply Z.mod_pos_bound. lia. Qed.

Lemma to_u16_le : forall z, 0 <= z -> to_u16 z <= z.
Proof. intros. unfold to_u16. apply Z.mod_le; lia. Qed.

(** ** [is_icmpv6_msg] *)

(** Every round of the header walk returns or removes at least eight
    octets: the fuel [S len] is never used up. *)
Lemma is_icmpv6_msg_loop_total :
  forall fuel ptr len nh,
    0 <= len -> (Z.to_nat len < fuel)%nat ->
    exists r, is_icmpv6_msg_loop fuel ptr len nh = Ret r.
Proof.
  induction fuel as [|fuel IH]; intros ptr len nh Hlen Hfuel; [lia|].
  cbn [is_icmpv6_msg_loop].
  destruct (len =? 0) eqn:E0; [eauto|].
  destruct (nh =? IPV6_NH_ICMPV6); [destruct (len <? 4); eauto|].
  pose proof (at8_range ptr 1) as Hb.
  destruct (is_ext_header nh).
  - destruct (len <? 8); [eauto|].
    rewrite (to_u16_small ((at8 ptr 1 + 1) * 8)) by lia.
    destruct ((at8 ptr 1 + 1) * 8 >? len) eqn:Eh; cbn [orb]; [eauto|].
    destruct (negb _); [eauto|].
    apply IH; [apply to_u16_range|].
    pose proof (to_u16_le (len - (at8 ptr 1 + 1) * 8)). lia.
  - destruct (nh =? IPV6_NH_AUTH); [|eauto].
    destruct (len <? 8); [eauto|].
    rewrite (to_u16_small ((at8 ptr 1 + 2) * 4)) by lia.
    destruct ((at8 ptr 1 + 2) * 4 >? len) eqn:Eh; cbn [orb]; [eauto|].
    destruct (negb _); [eauto|].
    apply IH; [apply to_u16_range|].
    pose proof (to_u16_le (len - (at8 ptr 1 + 2) * 4)). lia.
Qed.

(** [is_icmpv6_msg] only ever writes the type and the code. *)
Lemma is_icmpv6_msg_frame :
  forall buf,
    let buf' := snd (is_icmpv6_msg buf) in
    src_sa buf' = src_sa buf /\ dst_sa buf' = dst_sa buf /\
    info buf' = info buf /\ buf_data buf' = buf_data buf /\
    ll_security_bypass_rx (options buf') = ll_security_bypass_rx (options buf) /\
    ll_broadcast_rx (options buf') = ll_broadcast_rx (options buf) /\
    ll_multicast_rx (options buf') = ll_multicast_rx (options buf).
Proof.
  intro buf. unfold is_icmpv6_msg.
  destruct (_ <? IPV6_HDRLEN); [cbn; tauto|].
  destruct (_ >? _); [cbn; tauto|].
  destruct (is_icmpv6_msg_loop _ _ _ _) as [[[t c]|]| |]; cbn; tauto.
Qed.

(** ** The error responder *)

Section ErrorResponder.

Context {NC NE Ext : Type}.
Variable K : collab NC NE Ext.

(** What [icmpv6_error] does to the interface: nothing when it drops
    before the token bucket, one token less afterwards. *)
Lemma icmpv6_error_cur :
  forall (w : world NC Ext) buf type code aux,
    let R := icmpv6_error K w buf type code aux in
    (cur (fst R) = cur w /\ snd R = None) \/
    (icmp_tokens (cur w) <> 0 /\
     cur (fst R) = set_icmp_tokens (cur w) (to_u16 (icmp_tokens (cur w) - 1))).
Proof.
  intros w buf type code aux. unfold icmpv6_error.
  destruct (ll_security_bypass_rx _); [left; split; reflexivity|].
  set (w1 := match b_dir (info buf) with
             | B_DIR_UP => _ | B_DIR_DOWN => _ end).
  assert (Hw1 : cur w1 = cur w) by (subst w1; destruct (b_dir _); reflexivity).
  destruct (is_icmpv6_msg buf) as [is_icmp buf1].
  destruct (is_icmp && _); [left; split; [exact Hw1|reflexivity]|].
  destruct (_ && negb _); [left; split; [exact Hw1|reflexivity]|].
  destruct (_ || _); [left; split; [exact Hw1|reflexivity]|].
  match goal with
  | |- context [ipv6_buffer_route K w1 ?b] =>
      destruct (ipv6_buffer_route K w1 b) as [[rb|] e]
  end; [|left; split; [exact Hw1|reflexivity]].
  cbn [set_ext cur ext].
  destruct (icmp_tokens (cur w1) =? 0) eqn:Et; [left; split; [exact Hw1|reflexivity]|].
  right. rewrite Hw1 in Et. apply Z.eqb_neq in Et. split; [exact Et|].
  destruct (buffer_headroom K _ 4); cbn; rewrite Hw1; reflexivity.
Qed.

(** With an empty bucket nothing is sent. *)
Lemma icmpv6_error_empty_bucket :
  forall (w : world NC Ext) buf type code aux,
    icmp_tokens (cur w) = 0 ->
    snd (icmpv6_error K w buf type code aux) = None /\
    cur (fst (icmpv6_error K w buf type code aux)) = cur w.
Proof.
  intros w buf type code aux H0.
  destruct (icmpv6_error_cur w buf type code aux) as [[Hc Hn]|[Hne _]];
    [split; assumption | contradiction].
Qed.

(** An emitted error costs exactly one token. *)
Lemma icmpv6_error_emitted :
  forall (w w' : world NC Ext) buf type code aux e,
    0 <= icmp_tokens (cur w) <= 10 ->
    icmpv6_error K w buf type code aux = (w', Some e) ->
    0 < icmp_tokens (cur w) /\ icmp_tokens (cur w') = icmp_tokens (cur w) - 1.
Proof.
  intros w w' buf type code aux e Hr He.
  destruct (icmpv6_error_cur w buf type code aux) as [[_ Hn]|[Hne Hc]];
    rewrite He in *; cbn in *; [discriminate|].
  rewrite Hc. cbn. rewrite to_u16_small by lia. lia.
Qed.

Lemma icmp_fast_timer_tokens :
  forall (w : world NC Ext) ticks,
    0 <= icmp_tokens (cur (icmp_fast_timer ticks w)) <= 10.
Proof.
  intros w ticks. unfold icmp_fast_timer. cbn.
  pose proof (to_u16_range (icmp_tokens (cur w) + ticks)).
  destruct (_ >? 10) eqn:E; lia.
Qed.

Lemma icmp_fast_timer_refill :
  forall (w : world NC Ext) ticks,
    0 <= icmp_tokens (cur w) <= 10 -> 0 <= ticks <= 65525 ->
    icmp_tokens (cur (icmp_fast_timer ticks w)) =
    Z.min 10 (icmp_tokens (cur w) + ticks).
Proof.
  intros w ticks Hw Ht. unfold icmp_fast_timer. cbn.
  rewrite to_u16_small by lia.
  destruct (_ >? 10) eqn:E; lia.
Qed.

(** One event: the tokens left plus the errors sent never exceed the
    tokens held plus the ticks added. *)
Lemma step_tokens :
  forall (w : world NC Ext) ev,
    0 <= icmp_tokens (cur w) <= 10 -> 0 <= ticks_of ev ->
    0 <= icmp_tokens (cur (fst (step K w ev))) <= 10 /\
    icmp_tokens (cur (fst (step K w ev))) + Z.of_nat (snd (step K w ev))
    <= icmp_tokens (cur w) + ticks_of ev.
Proof.
  intros w [ticks|buf type code aux] Hw Ht; cbn [step ticks_of fst snd] in *.
  - split; [apply icmp_fast_timer_tokens|].
    unfold icmp_fast_timer. cbn.
    pose proof (to_u16_le (icmp_tokens (cur w) + ticks)).
    destruct (_ >? 10) eqn:E; lia.
  - pose proof (icmpv6_error_cur w buf type code aux) as Hc.
    destruct (icmpv6_error K w buf type code aux) as [w' [e|]] eqn:He;
      cbn [fst snd] in *.
    + destruct Hc as [[_ Hn]|[Hne Hc]]; [discriminate|].
      rewrite Hc. cbn. rewrite to_u16_small by lia. lia.
    + destruct Hc as [[Hc _]|[Hne Hc]]; rewrite Hc; cbn; [lia|].
      rewrite to_u16_small by lia. lia.
Qed.

Lemma run_tokens :
  forall evs (w : world NC Ext),
    0 <= icmp_tokens (cur w) <= 10 -> ticks_nonneg evs ->
    0 <= icmp_tokens (cur (fst (run K w evs))) <= 10 /\
    icmp_tokens (cur (fst (run K w evs))) + Z.of_nat (snd (run K w evs))
    <= icmp_tokens (cur w) + ticks_in evs.
Proof.
  induction evs as [|ev evs IH]; intros w Hw Hev; cbn [run ticks_in].
  - cbn. lia.
  - inversion Hev as [|? ? Hev1 Hev2]; subst.
    pose proof (step_tokens w ev Hw Hev1) as [Hs1 Hs2].
    destruct (step K w ev) as [w1 n1]. cbn [fst snd] in *.
    specialize (IH w1 Hs1 Hev2). destruct IH as [IH1 IH2].
    destruct (run K w1 evs) as [w2 n2]. cbn [fst snd] in *.
    split; [assumption|]. lia.
Qed.

End ErrorResponder.

(** ** The error responder: main results *)

(** C1, as amended.  The bucket never holds more than 10 tokens and a
    tick of the fast timer adds one token up to that capacity; an
    emitted ICMPv6 error takes exactly one token; an error requested
    while the bucket is empty is dropped and the interface is left as
    it was; over a window of at most one second (ten ticks) the errors
    emitted are at most the tokens held when the window opens plus the
    ticks inside it, hence at most 20. *)
Theorem icmp_token_bucket_window :
  forall {NC NE Ext : Type} (K : collab NC NE Ext) (w : world NC Ext)
         (evs : list event),
    0 <= icmp_tokens (cur w) <= 10 ->
    one_second_window evs ->
    (forall ticks, 0 <= icmp_tokens (cur (icmp_fast_timer ticks w)) <= 10) /\
    (forall ticks, 0 <= ticks <= 65525 ->
       icmp_tokens (cur (icmp_fast_timer ticks w)) =
       Z.min 10 (icmp_tokens (cur w) + ticks)) /\
    (forall buf type code aux w' e,
       icmpv6_error K w buf type code aux = (w', Some e) ->
       icmp_tokens (cur w') = icmp_tokens (cur w) - 1) /\
    (forall buf type code aux,
       icmp_tokens (cur w) = 0 ->
       snd (icmpv6_error K w buf type code aux) = None /\
       cur (fst (icmpv6_error K w buf type code aux)) = cur w) /\
    Z.of_nat (snd (run K w evs)) <= icmp_tokens (cur w) + ticks_in evs /\
    (snd (run K w evs) <= 20)%nat.
Proof.
  intros NC NE Ext K w evs Hw [Hnn Hsec].
  pose proof (run_tokens K evs w Hw Hnn) as [Hr1 Hr2].
  unfold ICMP_FAST_TICKS_PER_SECOND in Hsec.
  repeat split.
  - apply icmp_fast_timer_tokens.
  - apply icmp_fast_timer_tokens.
  - intros ticks Ht. apply icmp_fast_timer_refill; assumption.
  - intros buf type code aux w' e He.
    apply (icmpv6_error_emitted K w w' buf type code aux e Hw He).
  - apply icmpv6_error_empty_bucket; assumption.
  - apply icmpv6_error_empty_bucket; assumption.
  - lia.
  - lia.
Qed.

Lemma burst_trace_window : one_second_window Demo.burst_trace.
Proof.
  split.
  - unfold ticks_nonneg, Demo.burst_trace. cbn [repeat concat app].
    repeat (apply Forall_cons; [cbn; lia|]). apply Forall_nil.
  - vm_compute. discriminate.
Qed.

Lemma icmp_token_bucket_window_witness :
  Z.of_nat (snd (run Demo.K Demo.w0 Demo.burst_trace))
  <= icmp_tokens (cur Demo.w0) + ticks_in Demo.burst_trace /\
  (snd (run Demo.K Demo.w0 Demo.burst_trace) <= 20)%nat.
Proof.
  assert (Hw : 0 <= icmp_tokens (cur Demo.w0) <= 10) by (cbn; lia).
  exact (proj2 (proj2 (proj2 (proj2
    (icmp_token_bucket_window Demo.K Demo.w0 Demo.burst_trace Hw
                              burst_trace_window))))).
Defined.

(** C1, as stated, fails: from a full bucket, ten errors at once and
    one more after each of ten ticks are twenty errors inside one
    second. *)
Lemma at_most_10_per_second_counterexample :
  0 <= icmp_tokens (cur Demo.w0) <= 10 /\
  one_second_window Demo.burst_trace /\
  ~ (snd (run Demo.K Demo.w0 Demo.burst_trace) <= 10)%nat.
Proof.
  split; [cbn; lia|]. split; [exact burst_trace_window|].
  assert (E : snd (run Demo.K Demo.w0 Demo.burst_trace) = 20%nat)
    by (vm_compute; reflexivity).
  rewrite E. lia.
Qed.

(** C2.  [icmpv6_error] frees the packet and emits nothing, and leaves
    the interface (its token bucket included) as it was, when the
    packet is a recognisable ICMPv6 error or a Redirect; when it went
    to a multicast destination or arrived as a link-layer broadcast or
    multicast and the error asked for is neither PACKET_TOO_BIG nor
    PARAMETER_PROBLEM with code UNREC_IPV6_OPT; and when its source is
    the unspecified address or a multicast address. *)
Theorem icmpv6_error_rfc4443_rules :
  forall {NC NE Ext : Type} (K : collab NC NE Ext) (w : world NC Ext)
         (buf : buffer_t) (type code aux : Z),
    is_icmpv6_error_or_redirect buf \/
    (received_as_multicast buf /\ ~ multicast_exception type code) \/
    source_not_single_node buf ->
    snd (icmpv6_error K w buf type code aux) = None /\
    cur (fst (icmpv6_error K w buf type code aux)) = cur w.
Proof.
  intros NC NE Ext K w buf type code aux H.
  destruct (icmpv6_error_cur K w buf type code aux) as [[Hc Hn]|[_ _]];
    [split; assumption|].
  unfold icmpv6_error.
  destruct (ll_security_bypass_rx _); [split; reflexivity|].
  set (w1 := match b_dir (info buf) with
             | B_DIR_UP => _ | B_DIR_DOWN => _ end).
  assert (Hw1 : cur w1 = cur w) by (subst w1; destruct (b_dir _); reflexivity).
  pose proof (is_icmpv6_msg_frame buf) as (Hs & Hd & _ & _ & _ & Hb & Hm).
  unfold is_icmpv6_error_or_redirect, received_as_multicast,
    multicast_exception, source_not_single_node in H.
  destruct (is_icmpv6_msg buf) as [is_icmp buf1]. cbn [fst snd] in *.
  rewrite Hs, Hd, Hb, Hm.
  destruct (is_icmp && (_ || _)) eqn:E1; [split; [reflexivity|exact Hw1]|].
  destruct ((_ || _ || _) && negb _) eqn:E2; [split; [reflexivity|exact Hw1]|].
  destruct (addr_is_ipv6_unspecified _ || _) eqn:E3;
    [split; [reflexivity|exact Hw1]|].
  exfalso.
  destruct H as [[Hi Ht]|[[Hr Hx]|Hsrc]].
  - subst is_icmp. cbn [andb] in E1.
    apply orb_false_iff in E1. destruct E1 as [Ea Eb].
    apply Z.ltb_ge in Ea. apply Z.eqb_neq in Eb. lia.
  - apply andb_false_iff in E2. destruct E2 as [E2|E2].
    + apply orb_false_iff in E2. destruct E2 as [E2 Ec].
      apply orb_false_iff in E2. destruct E2 as [Ea Eb].
      destruct Hr as [Hr|[Hr|Hr]]; congruence.
    + apply negb_false_iff in E2. apply Hx.
      apply orb_true_iff in E2. destruct E2 as [E2|E2].
      * left. apply Z.eqb_eq. exact E2.
      * right. apply andb_true_iff in E2. destruct E2 as [Ea Eb].
        split; apply Z.eqb_eq; assumption.
  - apply orb_false_iff in E3. destruct E3 as [Ea Eb].
    destruct Hsrc; congruence.
Qed.

Lemma icmpv6_error_rfc4443_rules_witness :
  snd (icmpv6_error Demo.K Demo.w0 Demo.icmp_error_packet
         ICMPV6_TYPE_ERROR_PARAMETER_PROBLEM 0 0) = None /\
  cur (fst (icmpv6_error Demo.K Demo.w0 Demo.icmp_error_packet
              ICMPV6_TYPE_ERROR_PARAMETER_PROBLEM 0 0)) = cur Demo.w0.
Proof.
  apply (icmpv6_error_rfc4443_rules Demo.K Demo.w0 Demo.icmp_error_packet).
  left. split; [vm_compute; reflexivity|].
  left. vm_compute. reflexivity.
Defined.

(** C9.  A packet received with the link-layer security bypass flag is
    freed by [icmpv6_error] whatever the type, the code and the state
    of the token bucket, and the check comes before everything else:
    the whole state, the drop statistics included, is left as it was. *)
Theorem icmpv6_error_security_bypass :
  forall {NC NE Ext : Type} (K : collab NC NE Ext) (w : world NC Ext)
         (buf : buffer_t) (type code aux : Z),
    ll_security_bypass_rx (options buf) = true ->
    icmpv6_error K w buf type code aux = (w, None).
Proof.
  intros NC NE Ext K w buf type code aux H.
  unfold icmpv6_error. rewrite H. reflexivity.
Qed.

Lemma icmpv6_error_security_bypass_witness :
  icmpv6_error Demo.K Demo.w0 Demo.bypass_packet
               ICMPV6_TYPE_ERROR_PARAMETER_PROBLEM 0 0 = (Demo.w0, None).
Proof.
  apply (icmpv6_error_security_bypass Demo.K Demo.w0 Demo.bypass_packet).
  reflexivity.
Defined.

(** ** The reachable time *)





Section ReachableTime.

Context {NC NE Ext : Type}.
Variable K : collab NC NE Ext.





End ReachableTime.




(** ** The octet reader *)

Lemma iobuf_pop_data_ptr_ok :
  forall size data cnt n,
    (n <= size - cnt)%nat ->
    iobuf_pop_data_ptr (mk_iobuf size data cnt false) n =
    (Some (skipn cnt data), mk_iobuf size data (cnt + n) false).
Proof.
  intros size data cnt n H. unfold iobuf_pop_data_ptr, iobuf_remaining_size.
  cbn [io_err io_data_size io_cnt].
  destruct (Nat.ltb_spec (size - cnt) n); [lia|reflexivity].
Qed.

Lemma iobuf_pop_data_ptr_short :
  forall size data cnt n,
    (size - cnt < n)%nat ->
    iobuf_pop_data_ptr (mk_iobuf size data cnt false) n =
    (None, mk_iobuf size data cnt true).
Proof.
  intros size data cnt n H. unfold iobuf_pop_data_ptr, iobuf_remaining_size.
  cbn [io_err io_data_size io_cnt].
  destruct (Nat.ltb_spec (size - cnt) n); [reflexivity|lia].
Qed.

Lemma iobuf_pop_data_ptr_err :
  forall size data cnt n,
    iobuf_pop_data_ptr (mk_iobuf size data cnt true) n =
    (None, mk_iobuf size data cnt true).
Proof. reflexivity. Qed.

Lemma iobuf_pop_u8_ok :
  forall size data cnt,
    (1 <= size - cnt)%nat ->
    iobuf_pop_u8 (mk_iobuf size data cnt false) =
    (at8 (skipn cnt data) 0, mk_iobuf size data (cnt + 1) false).
Proof.
  intros. unfold iobuf_pop_u8. rewrite iobuf_pop_data_ptr_ok by assumption.
  reflexivity.
Qed.

Lemma iobuf_pop_u8_short :
  forall size data cnt,
    (size - cnt < 1)%nat ->
    iobuf_pop_u8 (mk_iobuf size data cnt false) = (0, mk_iobuf size data cnt true).
Proof.
  intros. unfold iobuf_pop_u8. rewrite iobuf_pop_data_ptr_short by assumption.
  reflexivity.
Qed.

Lemma at8_skipn_next :
  forall data cnt, at8 (skipn (cnt + 1) data) 0 = at8 (skipn cnt data) 1.
Proof.
  intros. unfold at8. rewrite !nth_skipn. f_equal. f_equal. lia.
Qed.

(** ** Option chains *)

(** Every round of the validation loop returns or moves the cursor
    forward: the fuel is never used up. *)
Lemma icmpv6_nd_options_validate_loop_total :
  forall fuel input,
    (iobuf_remaining_size input < fuel)%nat ->
    exists b, icmpv6_nd_options_validate_loop fuel input = Ret b.
Proof.
  induction fuel as [|fuel IH]; intros input Hf; [lia|].
  cbn [icmpv6_nd_options_validate_loop].
  destruct (iobuf_remaining_size input =? 0)%nat eqn:E0; [eauto|].
  apply Nat.eqb_neq in E0.
  destruct input as [size data cnt err].
  unfold iobuf_remaining_size in E0, Hf. cbn [io_err io_data_size io_cnt] in E0, Hf.
  destruct err; [lia|].
  rewrite iobuf_pop_u8_ok by lia.
  destruct (Nat.lt_ge_cases (size - (cnt + 1)) 1) as [H1|H1].
  - rewrite iobuf_pop_u8_short by assumption. cbn. eauto.
  - rewrite iobuf_pop_u8_ok by assumption.
    destruct (8 * Z.to_nat _ =? 0)%nat eqn:E3; [eauto|].
    apply Nat.eqb_neq in E3.
    unfold iobuf_set_cnt. cbn [io_data_size io_data io_cnt io_err].
    match goal with
    | |- context [iobuf_pop_data_ptr _ ?n] =>
        destruct (Nat.lt_ge_cases (size - cnt) n) as [H2|H2]
    end.
    + rewrite iobuf_pop_data_ptr_short by assumption. apply IH. cbn. lia.
    + rewrite iobuf_pop_data_ptr_ok by assumption. apply IH. cbn. lia.
Qed.

(** An option of length zero that is not the one looked for: the loop
    of [icmpv6_nd_option_get] comes back to the state it started from,
    whatever the fuel. *)
Lemma icmpv6_nd_option_get_loop_stuck :
  forall size data cnt opt,
    (2 <= size - cnt)%nat ->
    at8 (skipn cnt data) 0 <> opt ->
    at8 (skipn cnt data) 1 = 0 ->
    forall fuel,
      icmpv6_nd_option_get_loop fuel (mk_iobuf size data cnt false) opt = OutOfFuel.
Proof.
  intros size data cnt opt Hsz Ht Hl fuel.
  induction fuel as [|fuel IH]; [reflexivity|].
  cbn [icmpv6_nd_option_get_loop].
  unfold iobuf_remaining_size at 1. cbn [io_err io_data_size io_cnt].
  destruct (Nat.eqb_spec (size - cnt) 0); [lia|].
  rewrite iobuf_pop_u8_ok by lia.
  rewrite iobuf_pop_u8_ok by lia.
  rewrite at8_skipn_next, Hl.
  apply Z.eqb_neq in Ht. rewrite Ht.
  cbn [Z.to_nat Nat.mul]. unfold iobuf_set_cnt.
  cbn [io_data_size io_data io_cnt io_err].
  rewrite iobuf_pop_data_ptr_ok by lia.
  rewrite Nat.add_0_r. exact IH.
Qed.


(** ** Building NS and NA *)

Section Builders.

Context {NC NE Ext : Type}.
Variable K : collab NC NE Ext.

Lemma na_flags_octet :
  forall (solicited override : bool) (src_addr : address_t) (rest : list byte),
    at8 (write_be32 (to_u32 (Z.shiftl
           (let flags := if override then Z.lor 0 NA_O else 0 in
            if addr_is_ipv6_unspecified src_addr then flags
            else if solicited then Z.lor flags NA_S else flags) 24)) ++ rest) 0
    = na_flags solicited override src_addr.
Proof.
  intros solicited override src_addr rest. unfold na_flags.
  destruct override, (addr_is_ipv6_unspecified src_addr), solicited;
    vm_compute; reflexivity.
Qed.

(** What an NA built by [icmpv6_build_na] carries. *)
Lemma icmpv6_build_na_spec :
  forall (w w' : world NC Ext) solicited override tllao_required target earo
         src_addr na,
    icmpv6_build_na K w solicited override tllao_required target earo src_addr
    = (w', Some na) ->
    hop_limit (options na) = 255 /\
    opt_type (options na) = ICMPV6_TYPE_INFO_NA /\
    at8 (buf_data na) 0 = na_flags solicited override src_addr /\
    address (dst_sa na) =
      (if addr_is_ipv6_unspecified src_addr then ADDR_LINK_LOCAL_ALL_NODES
       else if earo_failed earo then link_local_of_eui64 (earo_eui64_of earo)
       else firstn 16 src_addr) /\
    (if addr_is_assigned_to_interface K w target
     then address (src_sa na) = firstn 16 target
     else exists s, addr_select_source K w (address (dst_sa na)) = Some s /\
                    address (src_sa na) = firstn 16 s).
Proof.
  intros w w' solicited override tllao_required target earo src_addr na.
  unfold icmpv6_build_na.
  destruct (match earo with Some e => _ && _ && _ | None => false end);
    [discriminate|].
  destruct (negb tllao_required && _); [discriminate|].
  destruct (buffer_get K _) as [buf|]; [|discriminate].
  destruct buf as [[t c h tc b1 b2 b3] i [st sa sp] [dt da dp] dat cb r].
  set (fd := if addr_is_ipv6_unspecified src_addr then _ else _).
  pose (flags := let flags := if override then Z.lor 0 NA_O else 0 in
                 if addr_is_ipv6_unspecified src_addr then flags
                 else if solicited then Z.lor flags NA_S else flags).
  pose (dst := if addr_is_ipv6_unspecified src_addr then ADDR_LINK_LOCAL_ALL_NODES
               else if earo_failed earo then link_local_of_eui64 (earo_eui64_of earo)
               else firstn 16 src_addr).
  assert (Hfd : fd = (flags, dst)).
  { subst fd flags dst.
    unfold earo_failed, earo_eui64_of, link_local_of_eui64, memcpy_n.
    destruct (addr_is_ipv6_unspecified src_addr); [reflexivity|].
    destruct earo as [e|]; [|reflexivity].
    destruct (negb (earo_status e =? ARO_SUCCESS)); reflexivity. }
  rewrite Hfd. clear Hfd fd. cbv beta iota.
  intro H. simpl_buf in H. unfold memcpy_n in H.
  set (src := if addr_is_assigned_to_interface K w target then _ else _) in H.
  assert (Hsrc : forall sv, src = Some sv ->
            if addr_is_assigned_to_interface K w target
            then sv = firstn 16 target
            else exists s, addr_select_source K w dst = Some s /\ sv = firstn 16 s).
  { subst src. intros sv. destruct (addr_is_assigned_to_interface K w target).
    - intro E. injection E as <-. reflexivity.
    - destruct (addr_select_source K w dst) as [s|]; [|discriminate].
      intro E. injection E as <-. eauto. }
  destruct src as [sv|]; [|discriminate].
  specialize (Hsrc sv eq_refl).
  set (data := (_ ++ _) ++ _) in H.
  assert (Hdata : forall rest,
            at8 (data ++ rest) 0 = na_flags solicited override src_addr).
  { intro rest. subst data flags. rewrite <- !app_assoc. apply na_flags_octet. }
  assert (Hdata0 : at8 data 0 = na_flags solicited override src_addr).
  { rewrite <- (app_nil_r data). apply Hdata. }
  assert (Hd : at8 (match earo with
                    | Some e => data ++ earo_na_bytes e
                    | None => data
                    end) 0
               = na_flags solicited override src_addr).
  { destruct earo; [apply Hdata|exact Hdata0]. }
  clearbody data flags.
  assert (Hna : hop_limit (options na) = 255 /\
                opt_type (options na) = ICMPV6_TYPE_INFO_NA /\
                buf_data na = match earo with
                              | Some e => data ++ earo_na_bytes e
                              | None => data
                              end /\
                address (dst_sa na) = dst /\ address (src_sa na) = sv).
  { destruct (match earo with Some e => _ && _ | None => false end).
    - destruct earo as [e|].
      + destruct (ws_common_negative_aro_mark K w (earo_eui64 e)) as [[|] w1];
          [|discriminate].
        injection H as _ <-. simpl_buf. tauto.
      + injection H as _ <-. simpl_buf. tauto.
    - injection H as _ <-. simpl_buf. tauto. }
  destruct Hna as (H1 & H2 & H3 & H4 & H5).
  rewrite H1, H2, H3, H4, H5. repeat split; assumption.
Qed.

(** Every NS built by [icmpv6_build_ns] has hop limit 255. *)
Lemma icmpv6_build_ns_hop_limit :
  forall (w : world NC Ext) target prompting unicast unspecified_source aro ns,
    icmpv6_build_ns K w target prompting unicast unspecified_source aro
    = Ret (Some ns) ->
    hop_limit (options ns) = 255 /\ opt_type (options ns) = ICMPV6_TYPE_INFO_NS.
Proof.
  intros w target prompting unicast unspecified_source aro ns.
  unfold icmpv6_build_ns.
  destruct (addr_is_ipv6_multicast target); [discriminate|].
  destruct (buffer_get K 127) as [buf|]; [|discriminate].
  cbv zeta.
  destruct unspecified_source.
  - intro H. injection H as <-.
    destruct (unicast && _); simpl_buf; split; reflexivity.
  - destruct (match aro with Some _ => true | None => _ end).
    + destruct prompting as [p|]; [|discriminate].
      intro H. injection H as <-.
      destruct (unicast && _), aro as [a|];
        try destruct (omit_na_aro_success _); try destruct (earo_lifetime a >? 1);
        simpl_buf; split; reflexivity.
    + destruct (addr_interface_get_ll_address K w) as [ll|]; [|discriminate].
      intro H. injection H as <-.
      destruct (unicast && _), aro as [a|];
        try destruct (omit_na_aro_success _); try destruct (earo_lifetime a >? 1);
        simpl_buf; split; reflexivity.
Qed.

End Builders.

(** ** Inbound NS *)

Section InboundNS.

Context {NC NE Ext : Type}.
Variable K : collab NC NE Ext.

(** The handler reads the target and the options at offsets 4 and 20. *)
Lemma icmpv6_ns_handler_header :
  forall buf,
    (20 <= length (buf_data buf))%nat ->
    iobuf_pop_data
      (snd (iobuf_pop_data_ptr
              (mk_iobuf (length (buf_data buf)) (buf_data buf) 0 false) 4)) 16
    = (firstn 16 (skipn 4 (buf_data buf)),
       mk_iobuf (length (buf_data buf)) (buf_data buf) 20 false).
Proof.
  intros buf H.
  rewrite iobuf_pop_data_ptr_ok by lia. cbn [snd].
  unfold iobuf_pop_data. rewrite iobuf_pop_data_ptr_ok by (cbn; lia).
  reflexivity.
Qed.

(** An NS whose first option has length zero and is not an SLLAO never
    leaves the first search for options, whatever its hop limit. *)
Lemma icmpv6_ns_handler_spins :
  forall fuel (w : world NC Ext) buf,
    (22 <= length (buf_data buf))%nat ->
    at8 (skipn 20 (buf_data buf)) 0 <> ICMPV6_OPT_SRC_LL_ADDR ->
    at8 (skipn 20 (buf_data buf)) 1 = 0 ->
    icmpv6_ns_handler K fuel w buf = OutOfFuel.
Proof.
  intros fuel w buf Hlen Ht Hl. unfold icmpv6_ns_handler.
  pose proof (icmpv6_ns_handler_header buf ltac:(lia)) as Hh.
  destruct (iobuf_pop_data_ptr _ 4) as [p4 io4]. cbn [snd] in Hh.
  rewrite Hh. unfold iobuf_ptr, iobuf_remaining_size.
  cbn [io_data io_cnt io_err io_data_size].
  unfold icmpv6_nd_option_get at 1.
  rewrite icmpv6_nd_option_get_loop_stuck; [reflexivity|lia|exact Ht|exact Hl].
Qed.

(** When the handler returns on an NS whose hop limit is not 255, it
    has dropped it and changed nothing. *)
Lemma icmpv6_ns_handler_hop_limit :
  forall fuel (w : world NC Ext) buf r,
    hop_limit (options buf) <> 255 ->
    icmpv6_ns_handler K fuel w buf = Ret r ->
    r = (w, None).
Proof.
  intros fuel w buf r H. unfold icmpv6_ns_handler.
  destruct (iobuf_pop_data_ptr _ 4) as [p4 io4].
  destruct (iobuf_pop_data io4 16) as [target io].
  destruct (icmpv6_nd_option_get fuel _ _ ICMPV6_OPT_SRC_LL_ADDR)
    as [[has_sllao sllao]| |]; cbn [bind]; try discriminate.
  destruct (icmpv6_nd_option_get fuel _ _ ICMPV6_OPT_ADDR_REGISTRATION)
    as [[has_earo earo]| |]; cbn [bind]; try discriminate.
  match goal with
  | |- context [if ?c then bind (icmpv6_nd_ws_sllao_dummy ?a ?b) _ else _] =>
      destruct c; [destruct (icmpv6_nd_ws_sllao_dummy a b) as [[ok dummy]| |]|]
  end; cbn [bind]; try discriminate.
  all: apply Z.eqb_neq in H; rewrite H; cbn [negb];
    intro E; injection E as <-; reflexivity.
Qed.

(** A DAD probe, from the unspecified address to a solicited-node
    address and without options, is dropped. *)
Lemma icmpv6_ns_handler_dad_dropped :
  forall fuel (w : world NC Ext) buf,
    length (buf_data buf) = 20%nat ->
    addr_is_ipv6_unspecified (address (src_sa buf)) = true ->
    memcmp_eq (address (dst_sa buf)) ADDR_MULTICAST_SOLICITED 13 = true ->
    icmpv6_ns_handler K (S fuel) w buf = Ret (w, None).
Proof.
  intros fuel w buf Hlen Hs Hd. unfold icmpv6_ns_handler.
  pose proof (icmpv6_ns_handler_header buf ltac:(lia)) as Hh.
  destruct (iobuf_pop_data_ptr _ 4) as [p4 io4]. cbn [snd] in Hh.
  rewrite Hh. unfold iobuf_ptr, iobuf_remaining_size.
  cbn [io_data io_cnt io_err io_data_size].
  rewrite Hlen. cbn [Nat.sub].
  unfold icmpv6_nd_option_get. cbn [icmpv6_nd_option_get_loop].
  unfold iobuf_remaining_size. cbn [io_data io_cnt io_err io_data_size Nat.sub Nat.eqb bind].
  destruct (recv_addr_reg _); cbn [andb bind].
  all: destruct (negb (hop_limit _ =? 255)); [reflexivity|].
  all: destruct (negb (opt_code _ =? 0)); [reflexivity|].
  all: destruct (addr_is_ipv6_multicast _); [reflexivity|].
  all: destruct (negb (icmpv6_nd_options_validate _ _)); [reflexivity|].
  all: rewrite Hs, Hd; reflexivity.
Qed.

(** The flags of an NA sent in answer to an NS. *)
Lemma icmpv6_ns_handler_reply :
  forall fuel (w w' : world NC Ext) buf na,
    icmpv6_ns_handler K fuel w buf = Ret (w', Some na) ->
    hop_limit (options na) = 255 /\
    at8 (buf_data na) 0 =
      na_flags true (addr_interface_address_compare K w (icmpv6_ns_target buf) =? 0)
               (address (src_sa buf)).
Proof.
  intros fuel w w' buf na. unfold icmpv6_ns_handler, icmpv6_ns_target.
  destruct (iobuf_pop_data_ptr _ 4) as [p4 io4]. cbn [snd].
  destruct (iobuf_pop_data io4 16) as [target io]. cbn [fst].
  destruct (icmpv6_nd_option_get fuel _ _ ICMPV6_OPT_SRC_LL_ADDR)
    as [[has_sllao sllao]| |]; cbn [bind]; try discriminate.
  destruct (icmpv6_nd_option_get fuel _ _ ICMPV6_OPT_ADDR_REGISTRATION)
    as [[has_earo earo]| |]; cbn [bind]; try discriminate.
  set (has_earo' := if recv_addr_reg _ then has_earo else false).
  assert (Hgen : forall has_sllao' sllao',
    (let drop := Ret (w, None) in
     if negb (hop_limit (options buf) =? 255) then drop
     else if negb (opt_code (options buf) =? 0) then drop
     else if addr_is_ipv6_multicast target then drop
     else if negb (icmpv6_nd_options_validate (iobuf_ptr io) (iobuf_remaining_size io))
     then drop
     else if addr_is_ipv6_unspecified (address (src_sa buf)) &&
             (memcmp_eq (address (dst_sa buf)) ADDR_MULTICAST_SOLICITED 13 || has_sllao')
     then drop
     else
       let proxy := negb (addr_interface_address_compare K w target =? 0) in
       if proxy && addr_is_ipv6_link_local target then drop
       else
         let '(ok, na_earo, w) :=
           if has_earo' then
             nd_ns_earo_handler K w (io_data earo) (io_data_size earo)
                                (if has_sllao' then Some (io_data sllao') else None)
                                (address (src_sa buf)) target
           else (true, earo_zero, w) in
         if negb ok then Ret (w, None)
         else
           let '(w, buf) :=
             if negb (earo_present na_earo) && has_sllao' then
               let '(r, ll) := if_llao_parse K w (io_data sllao') (dst_sa buf) in
               let buf := set_dst_sa buf ll in
               if negb (r =? 0) then
                 (set_cur w (set_neighbour_cache (cur w)
                    (ipv6_neighbour_update_unsolicited K (ipv6_neighbour_cache (cur w))
                       (address (src_sa buf)) (addr_type (dst_sa buf))
                       (address (dst_sa buf)))), buf)
               else (w, buf)
             else (w, buf) in
           Ret (icmpv6_build_na K w true (negb proxy)
                  (addr_is_ipv6_multicast (address (dst_sa buf))) target
                  (if earo_present na_earo then Some na_earo else None)
                  (address (src_sa buf)))) = Ret (w', Some na) ->
    hop_limit (options na) = 255 /\
    at8 (buf_data na) 0 =
      na_flags true (addr_interface_address_compare K w target =? 0)
               (address (src_sa buf))).
  { intros hs sl. cbv zeta.
    destruct (negb (hop_limit _ =? 255)); [discriminate|].
    destruct (negb (opt_code _ =? 0)); [discriminate|].
    destruct (addr_is_ipv6_multicast target); [discriminate|].
    destruct (negb (icmpv6_nd_options_validate _ _)); [discriminate|].
    destruct (addr_is_ipv6_unspecified _ && _); [discriminate|].
    destruct (negb _ && addr_is_ipv6_link_local target); [discriminate|].
    rewrite negb_involutive.
    destruct (if has_earo' then _ else _) as [[ok na_earo] w1].
    destruct (negb ok); [discriminate|].
    destruct (negb (earo_present na_earo) && hs).
    - destruct (if_llao_parse K w1 (io_data sl) (dst_sa buf)) as [r ll].
      destruct (negb (r =? 0)); intro E; injection E as E;
        apply icmpv6_build_na_spec in E; simpl_buf; tauto.
    - intro E; injection E as E; apply icmpv6_build_na_spec in E; tauto. }
  match goal with
  | |- context [if ?c then bind (icmpv6_nd_ws_sllao_dummy ?a ?b) _ else _] =>
      destruct c; [destruct (icmpv6_nd_ws_sllao_dummy a b) as [[ok dummy]| |]|]
  end; cbn [bind]; try discriminate; apply Hgen.
Qed.

End InboundNS.

(** ** Inbound NA *)

Section InboundNA.

Context {NC NE Ext : Type}.
Variable K : collab NC NE Ext.

(** An NA whose hop limit is not 255 or whose code is not 0 is dropped
    at once. *)
Lemma icmpv6_na_handler_hop_limit :
  forall fuel (w : world NC Ext) buf,
    hop_limit (options buf) <> 255 ->
    icmpv6_na_handler K fuel w buf = Ret (w, None).
Proof.
  intros fuel w buf H. unfold icmpv6_na_handler.
  apply Z.eqb_neq in H. rewrite H. cbn [negb]. rewrite orb_true_r. reflexivity.
Qed.


End InboundNA.

(** ** Neighbor Discovery: main results *)

(** C3, at the input where the code departs from it.  The NS of
    [Demo.ns_zero_length_option] has hop limit 64 and one option of
    type 3 and length 0.  [icmpv6_ns_handler] searches the options
    before it looks at the hop limit, and the search never ends: with
    any fuel, for any collaborators and any state, the handler is still
    in the loop of [icmpv6_nd_option_get].  The NS is never dropped.
    (The rest of C3 holds: lemmas [icmpv6_build_ns_hop_limit],
    [icmpv6_build_na_spec], [icmpv6_na_handler_hop_limit] and
    [icmpv6_ns_handler_hop_limit].) *)
Theorem icmpv6_ns_handler_hop_limit_never_checked :
  forall {NC NE Ext : Type} (K : collab NC NE Ext) (w : world NC Ext)
         (fuel : nat),
    hop_limit (options Demo.ns_zero_length_option) = 64 /\
    skipn 20 (buf_data Demo.ns_zero_length_option) =
      bytes_of [3; 0; 0; 0; 0; 0; 0; 0] /\
    icmpv6_ns_handler K fuel w Demo.ns_zero_length_option = OutOfFuel.
Proof.
  intros NC NE Ext K w fuel.
  split; [reflexivity|]. split; [reflexivity|].
  apply icmpv6_ns_handler_spins.
  - cbn. lia.
  - vm_compute. discriminate.
  - vm_compute. reflexivity.
Qed.

(** C4, at the inputs where the code departs from it.  [Demo.ns_dad] is
    a DAD probe: source ::, destination the solicited-node address
    ff02::1:ff00:2, hop limit 255, no option.  The handler drops it,
    for any collaborators and any state.  [Demo.ns_unspecified_all_nodes]
    is the same NS sent to ff02::1, which is not a solicited-node
    address: the handler goes on and answers it with an NA. *)
Theorem icmpv6_ns_handler_dad_probe :
  (addr_is_ipv6_unspecified (address (src_sa Demo.ns_dad)) = true /\
   memcmp_eq (address (dst_sa Demo.ns_dad)) ADDR_MULTICAST_SOLICITED 13 = true /\
   forall {NC NE Ext : Type} (K : collab NC NE Ext) (w : world NC Ext) (fuel : nat),
     icmpv6_ns_handler K (S fuel) w Demo.ns_dad = Ret (w, None)) /\
  (addr_is_ipv6_unspecified (address (src_sa Demo.ns_unspecified_all_nodes)) = true /\
   memcmp_eq (address (dst_sa Demo.ns_unspecified_all_nodes))
             ADDR_MULTICAST_SOLICITED 13 = false /\
   exists na,
     icmpv6_ns_handler Demo.K 1 Demo.w0 Demo.ns_unspecified_all_nodes =
     Ret (Demo.w0, Some na)).
Proof.
  split.
  - split; [vm_compute; reflexivity|]. split; [vm_compute; reflexivity|].
    intros NC NE Ext K w fuel.
    apply icmpv6_ns_handler_dad_dropped; vm_compute; reflexivity.
  - split; [vm_compute; reflexivity|]. split; [vm_compute; reflexivity|].
    eexists. vm_compute. reflexivity.
Qed.

(** C5, as amended.  An NA sent in answer to an NS never has the R flag
    set; it has S set exactly when the NS source is not the unspecified
    address; it has O set when the target is an address of the
    interface, and O clear when it is a proxy NA for a subordinate's
    registered address. *)
Theorem icmpv6_ns_handler_na_flags :
  forall {NC NE Ext : Type} (K : collab NC NE Ext) (w w' : world NC Ext)
         (buf na : buffer_t) (fuel : nat),
    icmpv6_ns_handler K fuel w buf = Ret (w', Some na) ->
    let flags := at8 (buf_data na) 0 in
    Z.land flags NA_R = 0 /\
    (Z.land flags NA_S = NA_S <->
     addr_is_ipv6_unspecified (address (src_sa buf)) = false) /\
    (addr_interface_address_compare K w (icmpv6_ns_target buf) = 0 ->
     Z.land flags NA_O = NA_O) /\
    (proxy_na_for_registered K w w' (icmpv6_ns_target buf) ->
     Z.land flags NA_O = 0).
Proof.
  intros NC NE Ext K w w' buf na fuel H flags.
  apply icmpv6_ns_handler_reply in H. destruct H as [_ H].
  subst flags. rewrite H. unfold na_flags, proxy_na_for_registered.
  destruct (Z.eqb_spec (addr_interface_address_compare K w (icmpv6_ns_target buf)) 0)
    as [E|E];
    destruct (addr_is_ipv6_unspecified (address (src_sa buf)));
    (split; [vm_compute; reflexivity|]); (split; [split; intro X|split; intro X]);
    first [ reflexivity | contradiction | discriminate X
          | (vm_compute in X; discriminate X) | (vm_compute; reflexivity)
          | (destruct X as [X _]; contradiction) ].
Qed.

Lemma icmpv6_ns_handler_s1 :
  exists na,
    icmpv6_ns_handler Demo.K 100 Demo.w0 Demo.ns_s1 = Ret (Demo.w0, Some na) /\
    at8 (buf_data na) 0 = 0x60 /\
    address (dst_sa na) = Demo.fe80_1 /\ address (src_sa na) = Demo.fe80_2.
Proof.
  eexists. split; [vm_compute; reflexivity|].
  repeat split.
Qed.

(** With 2001:db8::7 registered, the NS for it is answered. *)
Lemma icmpv6_ns_handler_registered :
  exists na,
    icmpv6_ns_handler Demo.K 100 Demo2.w_registered Demo2.ns_global_7 =
    Ret (Demo2.w_registered, Some na).
Proof.
  eexists. vm_compute. reflexivity.
Qed.

Lemma icmpv6_ns_handler_na_flags_witness :
  (exists na,
     icmpv6_ns_handler Demo.K 100 Demo.w0 Demo.ns_s1 = Ret (Demo.w0, Some na) /\
     Z.land (at8 (buf_data na) 0) NA_R = 0 /\
     Z.land (at8 (buf_data na) 0) NA_O = NA_O) /\
  (exists na,
     icmpv6_ns_handler Demo.K 100 Demo2.w_registered Demo2.ns_global_7 =
     Ret (Demo2.w_registered, Some na) /\
     Z.land (at8 (buf_data na) 0) NA_R = 0 /\
     Z.land (at8 (buf_data na) 0) NA_O = 0).
Proof.
  split.
  - destruct icmpv6_ns_handler_s1 as (na & H & _).
    exists na. split; [exact H|].
    destruct (icmpv6_ns_handler_na_flags Demo.K Demo.w0 Demo.w0 Demo.ns_s1 na
                                         100 H) as (R & _ & O & _).
    split; [exact R|]. apply O. vm_compute. reflexivity.
  - destruct icmpv6_ns_handler_registered as (na & H).
    exists na. split; [exact H|].
    destruct (icmpv6_ns_handler_na_flags Demo.K Demo2.w_registered
                Demo2.w_registered Demo2.ns_global_7 na 100 H) as (R & _ & _ & O).
    split; [exact R|]. apply O. split.
    + vm_compute. discriminate.
    + left. vm_compute. discriminate.
Defined.

(** C5, as stated, fails twice.  The NA that answers the NS of scenario
    S1 has S and O set and R clear.  And the NS for 2001:db8::7, which
    is neither an address of the interface nor in the neighbour cache,
    is answered with an NA whose O flag is clear, though no subordinate
    has registered the target. *)
Lemma na_router_flag_counterexample :
  (exists na,
     icmpv6_ns_handler Demo.K 100 Demo.w0 Demo.ns_s1 = Ret (Demo.w0, Some na) /\
     Z.land (at8 (buf_data na) 0) NA_S = NA_S /\
     Z.land (at8 (buf_data na) 0) NA_O = NA_O /\
     Z.land (at8 (buf_data na) 0) NA_R <> NA_R) /\
  (exists na,
     icmpv6_ns_handler Demo.K 100 Demo.w0 Demo2.ns_global_7 =
     Ret (Demo.w0, Some na) /\
     ~ proxy_na_for_registered Demo.K Demo.w0 Demo.w0
         (icmpv6_ns_target Demo2.ns_global_7) /\
     Z.land (at8 (buf_data na) 0) NA_O <> NA_O).
Proof.
  split.
  - eexists. split; [vm_compute; reflexivity|].
    vm_compute. repeat split; discriminate.
  - eexists. split; [vm_compute; reflexivity|]. split.
    + intros [_ [X|X]]; apply X; vm_compute; reflexivity.
    + vm_compute. discriminate.
Qed.

(** C6, as amended.  The source of an NA is the target when the target
    is assigned to the interface and else the address that
    [addr_select_source] picks for the destination.  The destination is
    ff02::1 when the NS source is the unspecified address; else the
    link-local address made of fe80::/64 and the EUI-64 of the EARO
    with bit 1 of its first octet inverted, when an EARO whose status
    is not SUCCESS is attached; else the NS source. *)
Theorem icmpv6_build_na_addresses :
  forall {NC NE Ext : Type} (K : collab NC NE Ext) (w w' : world NC Ext)
         (solicited override tllao_required : bool) (target : address_t)
         (earo : option ipv6_nd_opt_earo) (src_addr : address_t) (na : buffer_t),
    length target = 16%nat -> length src_addr = 16%nat ->
    icmpv6_build_na K w solicited override tllao_required target earo src_addr
    = (w', Some na) ->
    (if addr_is_assigned_to_interface K w target
     then address (src_sa na) = target
     else exists s, addr_select_source K w (address (dst_sa na)) = Some s /\
                    address (src_sa na) = firstn 16 s) /\
    address (dst_sa na) = na_destination earo src_addr.
Proof.
  intros NC NE Ext K w w' solicited override tllao_required target earo
         src_addr na Ht Hs H.
  apply icmpv6_build_na_spec in H. destruct H as (_ & _ & _ & Hd & Hsrc).
  assert (Et : firstn 16 target = target) by (apply firstn_all2; lia).
  assert (Es : firstn 16 src_addr = src_addr) by (apply firstn_all2; lia).
  rewrite Et in Hsrc. rewrite Es in Hd.
  split; [exact Hsrc|exact Hd].
Qed.

Lemma icmpv6_build_na_addresses_witness :
  exists na,
    icmpv6_build_na Demo.K Demo.w0 true true true Demo.fe80_2
      (Some (mk_earo true 1 0 0 false false 0 3600 Demo.eui64_peer)) Demo.fe80_1
    = (Demo.w0, Some na) /\
    address (src_sa na) = Demo.fe80_2 /\
    address (dst_sa na) =
      bytes_of [0xfe; 0x80; 0; 0; 0; 0; 0; 0; 0x00; 0x11; 0x22; 0x33; 0x44; 0x55; 0x66; 0x77].
Proof.
  eexists. split; [vm_compute; reflexivity|].
  match goal with
  | |- address (src_sa ?n) = _ /\ _ =>
      pose proof (icmpv6_build_na_addresses Demo.K Demo.w0 Demo.w0 true true true
                    Demo.fe80_2
                    (Some (mk_earo true 1 0 0 false false 0 3600 Demo.eui64_peer))
                    Demo.fe80_1 n eq_refl eq_refl eq_refl) as [H1 H2]
  end.
  split; [exact H1|exact H2].
Defined.

(** C6, as stated, fails: the NA that answers an NS from the
    unspecified address, with no EARO attached, goes to ff02::1 and
    not to the NS source. *)
Lemma na_destination_counterexample :
  exists na,
    icmpv6_ns_handler Demo.K 1 Demo.w0 Demo.ns_unspecified_all_nodes =
      Ret (Demo.w0, Some na) /\
    skipn 20 (buf_data Demo.ns_unspecified_all_nodes) = [] /\
    address (dst_sa na) = ADDR_LINK_LOCAL_ALL_NODES /\
    address (dst_sa na) <> address (src_sa Demo.ns_unspecified_all_nodes).
Proof.
  eexists. split; [vm_compute; reflexivity|].
  split; [reflexivity|]. split; [reflexivity|].
  vm_compute. discriminate.
Qed.

(** C7.  An NA sent to a multicast destination with the Solicited flag
    set is dropped and the whole state, the neighbour cache included,
    is left as it was. *)
Theorem icmpv6_na_handler_multicast_solicited :
  forall {NC NE Ext : Type} (K : collab NC NE Ext) (w : world NC Ext)
         (buf : buffer_t) (fuel : nat),
    addr_is_ipv6_multicast (address (dst_sa buf)) = true ->
    Z.land (at8 (buf_data buf) 0) NA_S <> 0 ->
    icmpv6_na_handler K fuel w buf = Ret (w, None).
Proof.
  intros NC NE Ext K w buf fuel Hd Hs. unfold icmpv6_na_handler.
  destruct (negb (opt_code _ =? 0) || _); [reflexivity|].
  destruct (negb (icmpv6_options_well_formed_in_buffer buf 20)); [reflexivity|].
  destruct (addr_is_ipv6_multicast (memcpy_n _ 16)); [reflexivity|].
  rewrite Hd. apply Z.eqb_neq in Hs. rewrite Hs. reflexivity.
Qed.

Lemma icmpv6_na_handler_multicast_solicited_witness :
  icmpv6_na_handler Demo.K 100 Demo.w0 Demo.na_s5 = Ret (Demo.w0, None).
Proof.
  apply (icmpv6_na_handler_multicast_solicited Demo.K Demo.w0 Demo.na_s5 100).
  - vm_compute. reflexivity.
  - vm_compute. discriminate.
Defined.




(** * Further properties *)

(** ** Option chains against their declarative reading *)

Lemma skipn_app_exact :
  forall (before s : list byte), skipn (length before) (before ++ s) = s.
Proof.
  intros. rewrite skipn_app, skipn_all, Nat.sub_diag. reflexivity.
Qed.

Lemma nd_option_ok_length :
  forall o, nd_option_ok o -> (8 <= length (nd_option_bytes o))%nat.
Proof.
  intros o [Hz Hl]. rewrite Hl. pose proof (u8_range (ndo_len o)). lia.
Qed.

Lemma nd_options_bytes_length :
  forall os, Forall nd_option_ok os ->
    (8 * length os <= length (nd_options_bytes os))%nat.
Proof.
  induction 1 as [|o os Ho _ IH]; cbn [nd_options_bytes length]; [lia|].
  rewrite length_app. pose proof (nd_option_ok_length o Ho). lia.
Qed.

(** One round of the validation loop on a region that starts with a
    type octet and a length octet. *)
Lemma icmpv6_nd_options_validate_loop_step :
  forall fuel before t l s2,
    let s := t :: l :: s2 in
    let data := before ++ s in
    let n := (8 * Z.to_nat (u8 l))%nat in
    icmpv6_nd_options_validate_loop (S fuel)
      (mk_iobuf (length data) data (length before) false) =
    if (n =? 0)%nat then Ret false
    else if (length s <? n)%nat
         then icmpv6_nd_options_validate_loop fuel
                (mk_iobuf (length data) data (length before) true)
         else icmpv6_nd_options_validate_loop fuel
                (mk_iobuf (length data) data (length before + n) false).
Proof.
  intros fuel before t l s2 s data n.
  assert (Hlen : length data = (length before + S (S (length s2)))%nat)
    by (subst data s; rewrite length_app; reflexivity).
  cbn [icmpv6_nd_options_validate_loop].
  unfold iobuf_remaining_size at 1. cbn [io_err io_data_size io_cnt].
  destruct (Nat.eqb_spec (length data - length before) 0); [lia|].
  rewrite iobuf_pop_u8_ok by lia.
  rewrite iobuf_pop_u8_ok by lia.
  rewrite at8_skipn_next.
  assert (Hs : skipn (length before) data = s) by apply skipn_app_exact.
  rewrite Hs. change (at8 s 1) with (u8 l). fold n.
  destruct (n =? 0)%nat; [reflexivity|].
  unfold iobuf_set_cnt. cbn [io_data_size io_data io_cnt io_err].
  destruct (Nat.ltb_spec (length s) n) as [Hlt|Hge].
  - rewrite iobuf_pop_data_ptr_short; [reflexivity|].
    subst s. cbn [length] in Hlt. lia.
  - rewrite iobuf_pop_data_ptr_ok; [reflexivity|].
    subst s. cbn [length] in Hge. lia.
Qed.

(** One round of the search loop on such a region. *)
Lemma icmpv6_nd_option_get_loop_step :
  forall fuel before t l s2 opt,
    let s := t :: l :: s2 in
    let data := before ++ s in
    let n := (8 * Z.to_nat (u8 l))%nat in
    icmpv6_nd_option_get_loop (S fuel)
      (mk_iobuf (length data) data (length before) false) opt =
    if u8 t =? opt then
      if (length s <? n)%nat then Ret (false, iobuf_res_none)
      else Ret (true, mk_iobuf n s 0 false)
    else if (length s <? n)%nat
         then icmpv6_nd_option_get_loop fuel
                (mk_iobuf (length data) data (length before) true) opt
         else icmpv6_nd_option_get_loop fuel
                (mk_iobuf (length data) data (length before + n) false) opt.
Proof.
  intros fuel before t l s2 opt s data n.
  assert (Hlen : length data = (length before + S (S (length s2)))%nat)
    by (subst data s; rewrite length_app; reflexivity).
  cbn [icmpv6_nd_option_get_loop].
  unfold iobuf_remaining_size at 1. cbn [io_err io_data_size io_cnt].
  destruct (Nat.eqb_spec (length data - length before) 0); [lia|].
  rewrite iobuf_pop_u8_ok by lia.
  rewrite iobuf_pop_u8_ok by lia.
  rewrite at8_skipn_next.
  assert (Hs : skipn (length before) data = s) by apply skipn_app_exact.
  rewrite Hs. change (at8 s 1) with (u8 l). change (at8 s 0) with (u8 t). fold n.
  unfold iobuf_set_cnt. cbn [io_data_size io_data io_cnt io_err].
  destruct (Nat.ltb_spec (length s) n) as [Hlt|Hge].
  - rewrite iobuf_pop_data_ptr_short by (subst s; cbn [length] in Hlt; lia).
    destruct (u8 t =? opt); reflexivity.
  - rewrite iobuf_pop_data_ptr_ok by (subst s; cbn [length] in Hge; lia).
    rewrite Hs. destruct (u8 t =? opt); reflexivity.
Qed.

Lemma icmpv6_nd_options_validate_loop_chain :
  forall os before fuel,
    Forall nd_option_ok os -> (length os < fuel)%nat ->
    icmpv6_nd_options_validate_loop fuel
      (mk_iobuf (length (before ++ nd_options_bytes os))
                (before ++ nd_options_bytes os) (length before) false) = Ret true.
Proof.
  induction os as [|o os IH]; intros before fuel Hok Hf.
  - destruct fuel as [|fuel]; [cbn in Hf; lia|].
    cbn [nd_options_bytes icmpv6_nd_options_validate_loop].
    unfold iobuf_remaining_size. cbn [io_err io_data_size io_cnt].
    rewrite app_nil_r, Nat.sub_diag. reflexivity.
  - inversion Hok as [|? ? Ho Hos]; subst.
    destruct fuel as [|fuel]; [cbn in Hf; lia|].
    destruct o as [t l body]. destruct Ho as [Hz Hl].
    unfold nd_option_bytes in Hl. cbn [ndo_len ndo_type ndo_body] in Hz, Hl.
    cbn [nd_options_bytes]. unfold nd_option_bytes. cbn [ndo_len ndo_type ndo_body app].
    rewrite icmpv6_nd_options_validate_loop_step.
    pose proof (u8_range l) as Hr.
    destruct (Nat.eqb_spec (8 * Z.to_nat (u8 l)) 0); [lia|].
    destruct (Nat.ltb_spec (length (t :: l :: body ++ nd_options_bytes os))
                           (8 * Z.to_nat (u8 l))) as [Hlt|_].
    { cbn [length] in Hlt, Hl. rewrite length_app in Hlt. lia. }
    rewrite <- Hl.
    replace (before ++ t :: l :: body ++ nd_options_bytes os)
      with ((before ++ t :: l :: body) ++ nd_options_bytes os)
      by (rewrite <- app_assoc; reflexivity).
    rewrite <- length_app.
    apply IH; [assumption|cbn [length] in Hf; lia].
Qed.

Lemma icmpv6_nd_options_validate_loop_chain_inv :
  forall fuel before s,
    icmpv6_nd_options_validate_loop fuel
      (mk_iobuf (length (before ++ s)) (before ++ s) (length before) false) = Ret true ->
    exists os, Forall nd_option_ok os /\ s = nd_options_bytes os.
Proof.
  induction fuel as [|fuel IH]; intros before s H; [discriminate|].
  destruct s as [|t [|l s2]].
  - exists []. split; [constructor|reflexivity].
  - exfalso. revert H. cbn [icmpv6_nd_options_validate_loop].
    unfold iobuf_remaining_size at 1. cbn [io_err io_data_size io_cnt].
    rewrite length_app. cbn [length].
    destruct (Nat.eqb_spec (length before + 1 - length before) 0); [lia|].
    rewrite iobuf_pop_u8_ok by lia.
    rewrite iobuf_pop_u8_short by lia.
    cbn. discriminate.
  - rewrite icmpv6_nd_options_validate_loop_step in H.
    destruct (Nat.eqb_spec (8 * Z.to_nat (u8 l)) 0) as [|Hn]; [discriminate|].
    destruct (Nat.ltb_spec (length (t :: l :: s2)) (8 * Z.to_nat (u8 l)))
      as [Hlt|Hge].
    + exfalso. destruct fuel as [|fuel]; [discriminate|].
      cbn in H. discriminate.
    + set (n := (8 * Z.to_nat (u8 l))%nat) in *.
      set (s := t :: l :: s2) in *.
      assert (Hsplit : s = firstn n s ++ skipn n s) by (symmetry; apply firstn_skipn).
      assert (Hfl : length (firstn n s) = n) by (apply firstn_length_le; exact Hge).
      assert (Hd : before ++ s = (before ++ firstn n s) ++ skipn n s).
      { rewrite <- app_assoc, <- Hsplit. reflexivity. }
      assert (Hc : (length before + n)%nat = length (before ++ firstn n s)).
      { rewrite length_app, Hfl. reflexivity. }
      rewrite Hd, Hc in H. apply IH in H. destruct H as (os & Hos & Hs).
      assert (Hn8 : (2 <= n)%nat) by (subst n; lia).
      assert (Hf : firstn n s = t :: l :: firstn (n - 2) s2).
      { subst s. destruct n as [|[|n']]; [lia|lia|].
        cbn [firstn]. repeat f_equal. lia. }
      exists (mk_nd_option t l (firstn (n - 2) s2) :: os).
      split.
      * constructor; [|exact Hos]. split.
        -- cbn [ndo_len]. intro E. apply Hn. unfold n. rewrite E. reflexivity.
        -- unfold nd_option_bytes. cbn [ndo_type ndo_len ndo_body].
           rewrite <- Hf. exact Hfl.
      * cbn [nd_options_bytes]. unfold nd_option_bytes.
        cbn [ndo_type ndo_len ndo_body]. rewrite <- Hf, <- Hs. exact Hsplit.
Qed.

(** The validation accepts a region exactly when it is a chain of
    well-formed options. *)
Lemma icmpv6_nd_options_validate_iff :
  forall data,
    icmpv6_nd_options_validate data (length data) = true <->
    exists os, Forall nd_option_ok os /\ data = nd_options_bytes os.
Proof.
  intro data. split.
  - unfold icmpv6_nd_options_validate. intro H.
    destruct (icmpv6_nd_options_validate_loop _ _) as [b| |] eqn:E; try discriminate.
    subst b.
    apply (icmpv6_nd_options_validate_loop_chain_inv (S (S (length data))) [] data).
    exact E.
  - intros (os & Hos & ->). unfold icmpv6_nd_options_validate.
    pose proof (nd_options_bytes_length os Hos) as Hl.
    rewrite (icmpv6_nd_options_validate_loop_chain os [] _ Hos); [reflexivity|lia].
Qed.

Lemma icmpv6_nd_option_get_loop_chain :
  forall os before fuel opt,
    Forall nd_option_ok os -> (length os < fuel)%nat ->
    icmpv6_nd_option_get_loop fuel
      (mk_iobuf (length (before ++ nd_options_bytes os))
                (before ++ nd_options_bytes os) (length before) false) opt
    = Ret (nd_option_get_result opt os).
Proof.
  induction os as [|o os IH]; intros before fuel opt Hok Hf.
  - destruct fuel as [|fuel]; [cbn in Hf; lia|].
    cbn [nd_options_bytes icmpv6_nd_option_get_loop].
    unfold iobuf_remaining_size. cbn [io_err io_data_size io_cnt].
    rewrite app_nil_r, Nat.sub_diag. reflexivity.
  - inversion Hok as [|? ? Ho Hos]; subst.
    destruct fuel as [|fuel]; [cbn in Hf; lia|].
    destruct o as [t l body]. destruct Ho as [Hz Hl].
    unfold nd_option_bytes in Hl. cbn [ndo_len ndo_type ndo_body] in Hz, Hl.
    unfold nd_option_get_result.
    cbn [nd_options_bytes nd_option_first]. unfold nd_option_bytes. cbn [ndo_len ndo_type ndo_body app].
    rewrite icmpv6_nd_option_get_loop_step.
    destruct (Nat.ltb_spec (length (t :: l :: body ++ nd_options_bytes os))
                           (8 * Z.to_nat (u8 l))) as [Hlt|_].
    { cbn [length] in Hlt, Hl. rewrite length_app in Hlt. lia. }
    destruct (u8 t =? opt); [reflexivity|].
    rewrite <- Hl.
    replace (before ++ t :: l :: body ++ nd_options_bytes os)
      with ((before ++ t :: l :: body) ++ nd_options_bytes os)
      by (rewrite <- app_assoc; reflexivity).
    rewrite <- length_app.
    apply IH; [assumption|cbn [length] in Hf; lia].
Qed.

Lemma icmpv6_nd_option_get_loop_chain_stuck :
  forall pre before fuel t rest opt,
    Forall nd_option_ok pre -> nd_option_first opt pre = None -> u8 t <> opt ->
    icmpv6_nd_option_get_loop fuel
      (mk_iobuf (length (before ++ nd_options_bytes pre ++ t :: x00 :: rest))
                (before ++ nd_options_bytes pre ++ t :: x00 :: rest)
                (length before) false) opt
    = OutOfFuel.
Proof.
  induction pre as [|o pre IH]; intros before fuel t rest opt Hok Hfirst Ht.
  - cbn [nd_options_bytes app].
    apply icmpv6_nd_option_get_loop_stuck.
    + rewrite length_app. cbn [length]. lia.
    + rewrite skipn_app_exact. exact Ht.
    + rewrite skipn_app_exact. reflexivity.
  - inversion Hok as [|? ? Ho Hos]; subst.
    destruct fuel as [|fuel]; [reflexivity|].
    destruct o as [to l body]. destruct Ho as [Hz Hl].
    unfold nd_option_bytes in Hl. cbn [ndo_len ndo_type ndo_body] in Hz, Hl.
    cbn [nd_option_first ndo_type] in Hfirst.
    destruct (u8 to =? opt) eqn:Eo; [discriminate|].
    cbn [nd_options_bytes]. unfold nd_option_bytes. cbn [ndo_len ndo_type ndo_body].
    rewrite <- app_assoc. cbn [app].
    rewrite icmpv6_nd_option_get_loop_step. rewrite Eo.
    destruct (Nat.ltb_spec
                (length (to :: l :: body ++ nd_options_bytes pre ++ t :: x00 :: rest))
                (8 * Z.to_nat (u8 l))) as [Hlt|_].
    { cbn [length] in Hlt, Hl. rewrite length_app in Hlt. lia. }
    rewrite <- Hl.
    replace (before ++ to :: l :: body ++ nd_options_bytes pre ++ t :: x00 :: rest)
      with ((before ++ to :: l :: body) ++ nd_options_bytes pre ++ t :: x00 :: rest)
      by (rewrite <- app_assoc; reflexivity).
    rewrite <- length_app.
    apply IH; assumption.
Qed.


(** A zero-length option behind a well-formed chain: the validation
    stops there and rejects the region. *)
Lemma icmpv6_nd_options_validate_loop_zero :
  forall pre before fuel t rest,
    Forall nd_option_ok pre -> (length pre < fuel)%nat ->
    icmpv6_nd_options_validate_loop fuel
      (mk_iobuf (length (before ++ nd_options_bytes pre ++ t :: x00 :: rest))
                (before ++ nd_options_bytes pre ++ t :: x00 :: rest)
                (length before) false)
    = Ret false.
Proof.
  induction pre as [|o pre IH]; intros before fuel t rest Hok Hf.
  - destruct fuel as [|fuel]; [cbn in Hf; lia|].
    cbn [nd_options_bytes app].
    rewrite icmpv6_nd_options_validate_loop_step. reflexivity.
  - inversion Hok as [|? ? Ho Hos]; subst.
    destruct fuel as [|fuel]; [cbn in Hf; lia|].
    destruct o as [to l body]. destruct Ho as [Hz Hl].
    unfold nd_option_bytes in Hl. cbn [ndo_len ndo_type ndo_body] in Hz, Hl.
    cbn [nd_options_bytes]. unfold nd_option_bytes. cbn [ndo_len ndo_type ndo_body].
    rewrite <- app_assoc. cbn [app].
    rewrite icmpv6_nd_options_validate_loop_step.
    pose proof (u8_range l) as Hr.
    destruct (Nat.eqb_spec (8 * Z.to_nat (u8 l)) 0); [lia|].
    destruct (Nat.ltb_spec
                (length (to :: l :: body ++ nd_options_bytes pre ++ t :: x00 :: rest))
                (8 * Z.to_nat (u8 l))) as [Hlt|_].
    { cbn [length] in Hlt, Hl. rewrite length_app in Hlt. lia. }
    rewrite <- Hl.
    replace (before ++ to :: l :: body ++ nd_options_bytes pre ++ t :: x00 :: rest)
      with ((before ++ to :: l :: body) ++ nd_options_bytes pre ++ t :: x00 :: rest)
      by (rewrite <- app_assoc; reflexivity).
    rewrite <- length_app.
    apply IH; [assumption|cbn [length] in Hf; lia].
Qed.

(** The two functions on buffers, on a chain that starts behind
    [before]. *)
Lemma icmpv6_options_well_formed_of_chain :
  forall buf before os,
    buf_data buf = before ++ nd_options_bytes os ->
    Forall nd_option_ok os ->
    icmpv6_options_well_formed_in_buffer buf (length before) = true.
Proof.
  intros buf before os Hd Hok.
  unfold icmpv6_options_well_formed_in_buffer, buffer_data_length.
  rewrite <- length_skipn. rewrite Hd at 2 3. rewrite skipn_app_exact.
  destruct (Z.ltb_spec (Z.of_nat (length (buf_data buf)))
                       (Z.of_nat (length before))) as [Hlt|_].
  - rewrite Hd, length_app in Hlt. lia.
  - apply icmpv6_nd_options_validate_iff. eauto.
Qed.

Lemma icmpv6_find_option_of_chain :
  forall fuel buf before os opt,
    buf_data buf = before ++ nd_options_bytes os ->
    Forall nd_option_ok os ->
    (length os < fuel)%nat ->
    icmpv6_find_option_in_buffer fuel buf (length before) opt
    = Ret (match nd_option_first opt os with
           | Some (o, os') => Some (nd_option_bytes o ++ nd_options_bytes os')
           | None => None
           end).
Proof.
  intros fuel buf before os opt Hd Hok Hf.
  pose proof (icmpv6_nd_option_get_loop_chain os [] fuel opt Hok Hf) as Hg.
  cbn [app length] in Hg.
  unfold icmpv6_find_option_in_buffer, icmpv6_nd_option_get in *.
  rewrite Hd, skipn_app_exact, length_app.
  destruct (Nat.ltb_spec (length before + length (nd_options_bytes os))
                         (length before)) as [|_]; [lia|].
  replace (length before + length (nd_options_bytes os) - length before)%nat
    with (length (nd_options_bytes os)) by lia.
  rewrite Hg. unfold nd_option_get_result.
  destruct (nd_option_first opt os) as [[o os']|]; reflexivity.
Qed.

(** ** Option chains: main results *)

(** X1.  [icmpv6_options_well_formed_in_buffer] (and with it
    [icmpv6_nd_options_validate]) accepts the options of a buffer exactly
    when the offset lies inside the data and the octets behind it are a
    sequence of options, each with a length octet that is not zero and
    that counts the option in units of eight octets, with nothing left
    over. *)
Theorem icmpv6_options_well_formed_chain :
  forall buf offset,
    icmpv6_options_well_formed_in_buffer buf offset = true <->
    (offset <= length (buf_data buf))%nat /\
    exists os, Forall nd_option_ok os /\
               skipn offset (buf_data buf) = nd_options_bytes os.
Proof.
  intros buf offset.
  unfold icmpv6_options_well_formed_in_buffer, buffer_data_length.
  rewrite <- length_skipn.
  destruct (Z.ltb_spec (Z.of_nat (length (buf_data buf))) (Z.of_nat offset)).
  - split; [discriminate|]. intros [Hle _]. lia.
  - rewrite icmpv6_nd_options_validate_iff.
    split; [intro; split; [lia|assumption]|tauto].
Qed.

(** X2.  On a chain of well-formed options [icmpv6_nd_option_get]
    returns, within one round per option, the first option of the type
    asked for (the result reader holds that option and is as long as its
    length octet says) or reports that there is none;
    [icmpv6_find_option_in_buffer] returns the pointer to that option,
    or NULL. *)
Theorem icmpv6_find_option_in_buffer_chain :
  forall fuel buf before os opt,
    buf_data buf = before ++ nd_options_bytes os ->
    Forall nd_option_ok os ->
    (length os < fuel)%nat ->
    icmpv6_nd_option_get fuel (nd_options_bytes os)
                         (length (nd_options_bytes os)) opt
    = Ret (nd_option_get_result opt os) /\
    icmpv6_find_option_in_buffer fuel buf (length before) opt
    = Ret (match nd_option_first opt os with
           | Some (o, os') => Some (nd_option_bytes o ++ nd_options_bytes os')
           | None => None
           end).
Proof.
  intros fuel buf before os opt Hd Hok Hf. split.
  - exact (icmpv6_nd_option_get_loop_chain os [] fuel opt Hok Hf).
  - apply icmpv6_find_option_of_chain; assumption.
Qed.

Lemma icmpv6_find_option_in_buffer_chain_witness :
  icmpv6_find_option_in_buffer 3 Demo2.ns_two_options 20 ICMPV6_OPT_SRC_LL_ADDR
  = Ret (Some (Demo.llao_of_eui64 ICMPV6_OPT_SRC_LL_ADDR Demo.eui64_peer)).
Proof.
  assert (Hd : buf_data Demo2.ns_two_options =
               (repeat x00 4 ++ Demo.fe80_2) ++ nd_options_bytes Demo2.two_options)
    by reflexivity.
  assert (Hok : Forall nd_option_ok Demo2.two_options).
  { repeat (apply Forall_cons; [split; [vm_compute; discriminate|reflexivity]|]).
    apply Forall_nil. }
  assert (Hf : (length Demo2.two_options < 3)%nat) by (vm_compute; lia).
  exact (proj2 (icmpv6_find_option_in_buffer_chain
                  3 Demo2.ns_two_options (repeat x00 4 ++ Demo.fe80_2)
                  Demo2.two_options ICMPV6_OPT_SRC_LL_ADDR Hd Hok Hf)).
Defined.

(** X3.  An option whose length octet is zero and whose type is not the
    one looked for, met behind any number of well-formed options of
    other types, keeps [icmpv6_nd_option_get] in its loop for ever:
    whatever the number of rounds allowed, the search has not returned.
    [icmpv6_nd_options_validate] rejects the same region. *)
Theorem icmpv6_nd_option_get_zero_length :
  forall pre t rest opt fuel,
    Forall nd_option_ok pre ->
    nd_option_first opt pre = None ->
    u8 t <> opt ->
    let data := nd_options_bytes pre ++ t :: x00 :: rest in
    icmpv6_nd_option_get fuel data (length data) opt = OutOfFuel /\
    icmpv6_nd_options_validate data (length data) = false.
Proof.
  intros pre t rest opt fuel Hok Hfirst Ht data. split.
  - unfold icmpv6_nd_option_get.
    apply (icmpv6_nd_option_get_loop_chain_stuck pre [] fuel t rest opt Hok Hfirst Ht).
  - unfold icmpv6_nd_options_validate.
    rewrite (icmpv6_nd_options_validate_loop_zero pre [] _ t rest Hok); [reflexivity|].
    pose proof (nd_options_bytes_length pre Hok) as Hl.
    subst data. rewrite length_app. lia.
Qed.

Lemma icmpv6_nd_option_get_zero_length_witness :
  let data := bytes_of [14; 1; 0; 0; 0; 0; 0; 0; 3; 0; 0; 0; 0; 0; 0; 0] in
  icmpv6_nd_option_get 1000 data 16 ICMPV6_OPT_SRC_LL_ADDR = OutOfFuel /\
  icmpv6_nd_options_validate data 16 = false.
Proof.
  assert (Hok : Forall nd_option_ok [mk_nd_option (to_u8 14) (to_u8 1) (repeat x00 6)]).
  { repeat (apply Forall_cons; [split; [vm_compute; discriminate|reflexivity]|]).
    apply Forall_nil. }
  assert (Hfirst : nd_option_first ICMPV6_OPT_SRC_LL_ADDR
                     [mk_nd_option (to_u8 14) (to_u8 1) (repeat x00 6)] = None)
    by reflexivity.
  assert (Ht : u8 (to_u8 3) <> ICMPV6_OPT_SRC_LL_ADDR) by (vm_compute; discriminate).
  exact (icmpv6_nd_option_get_zero_length
           [mk_nd_option (to_u8 14) (to_u8 1) (repeat x00 6)] (to_u8 3)
           (repeat x00 6) ICMPV6_OPT_SRC_LL_ADDR 1000 Hok Hfirst Ht).
Defined.

(** ** Inbound NA and Redirect: the option searches return *)

(** Options that passed [icmpv6_options_well_formed_in_buffer] are a
    chain, and a search in them returns the first option of the type. *)
Lemma icmpv6_find_option_well_formed :
  forall fuel buf offset opt,
    icmpv6_options_well_formed_in_buffer buf offset = true ->
    (length (buf_data buf) < fuel)%nat ->
    exists os,
      Forall nd_option_ok os /\
      (offset <= length (buf_data buf))%nat /\
      skipn offset (buf_data buf) = nd_options_bytes os /\
      icmpv6_find_option_in_buffer fuel buf offset opt
      = Ret (match nd_option_first opt os with
             | Some (o, os') => Some (nd_option_bytes o ++ nd_options_bytes os')
             | None => None
             end).
Proof.
  intros fuel buf offset opt Hw Hf.
  unfold icmpv6_options_well_formed_in_buffer, buffer_data_length in Hw.
  destruct (Z.ltb_spec (Z.of_nat (length (buf_data buf))) (Z.of_nat offset));
    [discriminate|].
  rewrite <- length_skipn in Hw.
  apply icmpv6_nd_options_validate_iff in Hw. destruct Hw as (os & Hos & Hs).
  exists os. split; [exact Hos|]. split; [lia|]. split; [exact Hs|].
  unfold icmpv6_find_option_in_buffer, icmpv6_nd_option_get.
  destruct (Nat.ltb_spec (length (buf_data buf)) offset) as [|_]; [lia|].
  rewrite <- length_skipn, Hs.
  pose proof (nd_options_bytes_length os Hos) as Hl.
  assert (Hlen : (length (nd_options_bytes os) <= length (buf_data buf))%nat).
  { rewrite <- Hs, length_skipn. lia. }
  pose proof (icmpv6_nd_option_get_loop_chain os [] fuel opt Hos ltac:(lia)) as Hg.
  cbn [app length] in Hg. rewrite Hg. unfold nd_option_get_result.
  destruct (nd_option_first opt os) as [[o os']|]; reflexivity.
Qed.

(** Options that are not a chain, or an offset beyond the data, fail
    [icmpv6_options_well_formed_in_buffer]. *)
Lemma icmpv6_options_not_well_formed :
  forall buf offset,
    (length (buf_data buf) < offset)%nat \/
    ~ (exists os, Forall nd_option_ok os /\
                  skipn offset (buf_data buf) = nd_options_bytes os) ->
    icmpv6_options_well_formed_in_buffer buf offset = false.
Proof.
  intros buf offset H.
  unfold icmpv6_options_well_formed_in_buffer, buffer_data_length.
  destruct (Z.ltb_spec (Z.of_nat (length (buf_data buf))) (Z.of_nat offset));
    [reflexivity|].
  destruct H as [H|H]; [lia|].
  rewrite <- length_skipn.
  destruct (icmpv6_nd_options_validate _ _) eqn:E; [|reflexivity].
  apply icmpv6_nd_options_validate_iff in E. contradiction.
Qed.

(** ** Inbound NA: main results *)

(** X4.  [icmpv6_na_handler] comes to an end on every NA and never
    answers it: once the rounds allowed to the option searches exceed
    the length of the message, the handler returns NULL, whatever the
    collaborators, the state and the octets of the NA. *)
Theorem icmpv6_na_handler_returns :
  forall {NC NE Ext : Type} (K : collab NC NE Ext) (fuel : nat)
         (w : world NC Ext) (buf : buffer_t),
    (length (buf_data buf) < fuel)%nat ->
    exists w', icmpv6_na_handler K fuel w buf = Ret (w', None).
Proof.
  intros NC NE Ext K fuel w buf Hf. unfold icmpv6_na_handler.
  destruct (negb (opt_code _ =? 0) || negb (hop_limit _ =? 255)); [eauto|].
  destruct (icmpv6_options_well_formed_in_buffer buf 20) eqn:Hw; cbn [negb]; [|eauto].
  destruct (addr_is_ipv6_multicast (memcpy_n _ 16)); [eauto|].
  destruct (addr_is_ipv6_multicast (address (dst_sa buf)) && _); [eauto|].
  destruct (addr_get_entry K w _); [eauto|].
  destruct (icmpv6_find_option_well_formed fuel buf 20 ICMPV6_OPT_ADDR_REGISTRATION
              Hw Hf) as (os & _ & _ & _ & E1).
  destruct (icmpv6_find_option_well_formed fuel buf 20 ICMPV6_OPT_TGT_LL_ADDR
              Hw Hf) as (os2 & _ & _ & _ & E2).
  rewrite E1. cbn [bind].
  destruct (ipv6_neighbour_lookup K _ _); [|eauto].
  rewrite E2. cbn [bind]. eauto.
Qed.

Lemma icmpv6_na_handler_returns_witness :
  exists w', icmpv6_na_handler Demo.K 63 Demo.w0 Demo.na_unknown_target = Ret (w', None).
Proof.
  apply (icmpv6_na_handler_returns Demo.K 63 Demo.w0 Demo.na_unknown_target).
  vm_compute. lia.
Defined.

(** X5.  RFC 4861 7.1.2 and RFC 4862 5.4.4 as [icmpv6_na_handler]
    applies them: an NA with a code other than 0, an NA shorter than
    the twenty octets of flags and target, an NA whose options are not a
    chain of well-formed options, an NA for a multicast target and an
    NA for an address of the interface are dropped before any option is
    searched, and the state is left as it was. *)
Theorem icmpv6_na_handler_validation :
  forall {NC NE Ext : Type} (K : collab NC NE Ext) (fuel : nat)
         (w : world NC Ext) (buf : buffer_t),
    opt_code (options buf) <> 0 \/
    (length (buf_data buf) < 20)%nat \/
    ~ (exists os, Forall nd_option_ok os /\
                  skipn 20 (buf_data buf) = nd_options_bytes os) \/
    addr_is_ipv6_multicast (firstn 16 (skipn 4 (buf_data buf))) = true \/
    addr_get_entry K w (firstn 16 (skipn 4 (buf_data buf))) = true ->
    icmpv6_na_handler K fuel w buf = Ret (w, None).
Proof.
  intros NC NE Ext K fuel w buf H. unfold icmpv6_na_handler, memcpy_n.
  destruct (negb (opt_code _ =? 0) || negb (hop_limit _ =? 255)) eqn:E1;
    [reflexivity|].
  apply orb_false_elim in E1. destruct E1 as [Ec _].
  apply negb_false_iff, Z.eqb_eq in Ec.
  destruct (icmpv6_options_well_formed_in_buffer buf 20) eqn:Hw; cbn [negb];
    [|reflexivity].
  destruct (addr_is_ipv6_multicast (firstn 16 _)) eqn:Em; [reflexivity|].
  destruct (addr_is_ipv6_multicast (address (dst_sa buf)) && _); [reflexivity|].
  destruct (addr_get_entry K w _) eqn:Eg; [reflexivity|].
  exfalso.
  destruct H as [H|[H|[H|[H|H]]]]; try contradiction; try discriminate.
  - rewrite (icmpv6_options_not_well_formed buf 20) in Hw; [discriminate|].
    left. exact H.
  - rewrite (icmpv6_options_not_well_formed buf 20) in Hw; [discriminate|].
    right. exact H.
Qed.

Lemma icmpv6_na_handler_validation_witness :
  icmpv6_na_handler Demo.K 0 Demo.w0
    (Demo.inbound ICMPV6_TYPE_INFO_NA 255 Demo.fe80_1 Demo.fe80_9
                  (bytes_of [0x60; 0; 0; 0] ++ Demo.fe80_2))
  = Ret (Demo.w0, None).
Proof.
  apply (icmpv6_na_handler_validation Demo.K 0 Demo.w0).
  right. right. right. right. reflexivity.
Defined.

(** ** Inbound Redirect: main results *)

(** X6.  [icmpv6_redirect_handler] comes to an end on every Redirect
    and never answers it: once the rounds allowed to the option search
    exceed the length of the message, the handler returns NULL, and the
    state is either the one it started from or the one that a single
    call of [ipv6_destination_redirect] leaves, made for the target at
    offset 4, the source of the Redirect and the destination at offset
    20. *)
Theorem icmpv6_redirect_handler_returns :
  forall {NC NE Ext : Type} (K : collab NC NE Ext) (P : collab_paths NC Ext)
         (fuel : nat) (w : world NC Ext) (buf : buffer_t),
    (length (buf_data buf) < fuel)%nat ->
    exists w',
      icmpv6_redirect_handler K P fuel w buf = Ret (w', None) /\
      (w' = w \/
       exists ll_type ll_addr,
         w' = ipv6_destination_redirect P w
                (firstn 16 (skipn 4 (buf_data buf))) (address (src_sa buf))
                (firstn 16 (skipn 20 (buf_data buf))) ll_type ll_addr).
Proof.
  intros NC NE Ext K P fuel w buf Hf. unfold icmpv6_redirect_handler, memcpy_n.
  destruct (negb (hop_limit _ =? 255)); [eauto|].
  destruct (negb (addr_is_ipv6_link_local _)); [eauto|].
  destruct (negb (opt_code _ =? 0)); [eauto|].
  destruct (icmpv6_options_well_formed_in_buffer buf 36) eqn:Hw; cbn [negb];
    [|eauto].
  destruct (addr_is_ipv6_multicast _); [eauto|].
  destruct (icmpv6_find_option_well_formed fuel buf 36 ICMPV6_OPT_TGT_LL_ADDR
              Hw Hf) as (os & _ & _ & _ & E).
  rewrite E. cbn [bind]. eexists. split; [reflexivity|]. right. eauto.
Qed.

Lemma icmpv6_redirect_handler_returns_witness :
  exists w',
    icmpv6_redirect_handler Demo.K Demo2.P 37 Demo.w0 Demo2.redirect_255
    = Ret (w', None) /\
    (w' = Demo.w0 \/
     exists ll_type ll_addr,
       w' = ipv6_destination_redirect Demo2.P Demo.w0
              (firstn 16 (skipn 4 (buf_data Demo2.redirect_255)))
              (address (src_sa Demo2.redirect_255))
              (firstn 16 (skipn 20 (buf_data Demo2.redirect_255))) ll_type ll_addr).
Proof.
  apply (icmpv6_redirect_handler_returns Demo.K Demo2.P 37 Demo.w0 Demo2.redirect_255).
  vm_compute. lia.
Defined.

(** X7.  RFC 4861 8.1 as [icmpv6_redirect_handler] applies it: a
    Redirect whose hop limit is not 255, whose source is not a
    link-local address, whose code is not 0, that is shorter than the
    thirty-six octets of target and destination, whose options are not
    a chain of well-formed options or whose destination field is a
    multicast address is dropped with the state, destination cache
    included, left as it was. *)
Theorem icmpv6_redirect_handler_validation :
  forall {NC NE Ext : Type} (K : collab NC NE Ext) (P : collab_paths NC Ext)
         (fuel : nat) (w : world NC Ext) (buf : buffer_t),
    hop_limit (options buf) <> 255 \/
    addr_is_ipv6_link_local (address (src_sa buf)) = false \/
    opt_code (options buf) <> 0 \/
    (length (buf_data buf) < 36)%nat \/
    ~ (exists os, Forall nd_option_ok os /\
                  skipn 36 (buf_data buf) = nd_options_bytes os) \/
    addr_is_ipv6_multicast (skipn 20 (buf_data buf)) = true ->
    icmpv6_redirect_handler K P fuel w buf = Ret (w, None).
Proof.
  intros NC NE Ext K P fuel w buf H. unfold icmpv6_redirect_handler.
  destruct (Z.eqb_spec (hop_limit (options buf)) 255) as [Eh|Eh]; cbn [negb];
    [|reflexivity].
  destruct (addr_is_ipv6_link_local _) eqn:El; cbn [negb]; [|reflexivity].
  destruct (Z.eqb_spec (opt_code (options buf)) 0) as [Ec|Ec]; cbn [negb];
    [|reflexivity].
  destruct (icmpv6_options_well_formed_in_buffer buf 36) eqn:Hw; cbn [negb];
    [|reflexivity].
  destruct (addr_is_ipv6_multicast _) eqn:Em; [reflexivity|].
  exfalso.
  destruct H as [H|[H|[H|[H|[H|H]]]]]; try contradiction; try discriminate.
  - rewrite (icmpv6_options_not_well_formed buf 36) in Hw; [discriminate|].
    left. exact H.
  - rewrite (icmpv6_options_not_well_formed buf 36) in Hw; [discriminate|].
    right. exact H.
Qed.

Lemma icmpv6_redirect_handler_validation_witness :
  icmpv6_redirect_handler Demo.K Demo2.P 0 Demo.w0 Demo2.redirect_hop_64
  = Ret (Demo.w0, None).
Proof.
  apply (icmpv6_redirect_handler_validation Demo.K Demo2.P 0 Demo.w0).
  left. vm_compute. discriminate.
Defined.

(** ** Inbound NS: the handler returns *)

Lemma iobuf_pop_be16_ok :
  forall size data cnt,
    (2 <= size - cnt)%nat ->
    iobuf_pop_be16 (mk_iobuf size data cnt false) =
    (read_be16 (skipn cnt data), mk_iobuf size data (cnt + 2) false).
Proof.
  intros. unfold iobuf_pop_be16. rewrite iobuf_pop_data_ptr_ok by assumption.
  reflexivity.
Qed.

Lemma nd_option_first_In :
  forall opt os o os',
    nd_option_first opt os = Some (o, os') ->
    In o os /\ u8 (ndo_type o) = opt.
Proof.
  induction os as [|x os IH]; intros o os' H; cbn [nd_option_first] in H;
    [discriminate|].
  destruct (Z.eqb_spec (u8 (ndo_type x)) opt) as [E|E].
  - injection H as <- <-. split; [left; reflexivity|exact E].
  - destruct (IH o os' H) as [Hin Ht]. split; [right; exact Hin|exact Ht].
Qed.

(** An EARO of sixteen octets or more gives its EUI-64 to the dummy
    SLLAO: no NULL pointer reaches [iobuf_push_data]. *)
Lemma icmpv6_nd_ws_sllao_dummy_returns :
  forall aro_ptr aro_len,
    (16 <= aro_len)%nat ->
    exists sllao, icmpv6_nd_ws_sllao_dummy aro_ptr aro_len = Ret (true, sllao).
Proof.
  intros p n Hn. unfold icmpv6_nd_ws_sllao_dummy.
  rewrite iobuf_pop_u8_ok by lia.
  rewrite iobuf_pop_u8_ok by lia.
  rewrite iobuf_pop_u8_ok by lia.
  rewrite iobuf_pop_data_ptr_ok by lia.
  rewrite iobuf_pop_be16_ok by lia.
  rewrite iobuf_pop_data_ptr_ok by lia.
  cbv zeta. eauto.
Qed.

Section InboundNSTotal.

Context {NC NE Ext : Type}.
Variable K : collab NC NE Ext.

(** X8.  [icmpv6_ns_handler] comes to an end, without a NULL pointer
    handed to [iobuf_push_data], on every NS whose options are a chain
    of well-formed options in which each address registration option
    has at least its sixteen octets: once the rounds allowed to the
    searches exceed the number of options, the handler returns. *)
Theorem icmpv6_ns_handler_returns :
  forall fuel (w : world NC Ext) buf hdr os,
    buf_data buf = hdr ++ nd_options_bytes os ->
    length hdr = 20%nat ->
    Forall nd_option_ok os ->
    Forall (fun o => u8 (ndo_type o) = ICMPV6_OPT_ADDR_REGISTRATION ->
                     2 <= u8 (ndo_len o)) os ->
    (length os < fuel)%nat ->
    exists r, icmpv6_ns_handler K fuel w buf = Ret r.
Proof.
  intros fuel w buf hdr os Hd Hh Hok Hearo Hf. unfold icmpv6_ns_handler.
  pose proof (icmpv6_ns_handler_header buf) as Hhd.
  rewrite Hd, length_app in Hhd. specialize (Hhd ltac:(lia)).
  rewrite <- length_app, <- Hd in Hhd.
  destruct (iobuf_pop_data_ptr _ 4) as [p4 io4]. cbn [snd] in Hhd.
  rewrite Hhd. unfold iobuf_ptr, iobuf_remaining_size.
  cbn [io_data io_cnt io_err io_data_size].
  assert (Hopts : skipn 20 (buf_data buf) = nd_options_bytes os).
  { rewrite Hd, <- Hh. apply skipn_app_exact. }
  assert (Hlen : (length (buf_data buf) - 20)%nat = length (nd_options_bytes os)).
  { rewrite <- Hopts, length_skipn. reflexivity. }
  rewrite Hopts, Hlen.
  assert (Hget : forall opt,
            icmpv6_nd_option_get fuel (nd_options_bytes os)
                                 (length (nd_options_bytes os)) opt
            = Ret (nd_option_get_result opt os)).
  { intro opt. exact (icmpv6_nd_option_get_loop_chain os [] fuel opt Hok Hf). }
  rewrite !Hget. cbn [bind].
  destruct (nd_option_get_result ICMPV6_OPT_SRC_LL_ADDR os) as [has_sllao sllao].
  unfold nd_option_get_result.
  destruct (nd_option_first ICMPV6_OPT_ADDR_REGISTRATION os) as [[o os']|] eqn:Ef.
  - apply nd_option_first_In in Ef. destruct Ef as [Hin Ht].
    rewrite Forall_forall in Hearo. specialize (Hearo o Hin Ht).
    cbn [io_data io_data_size].
    destruct ((if recv_addr_reg _ then true else false) && negb has_sllao).
    + destruct (icmpv6_nd_ws_sllao_dummy_returns
                  (nd_option_bytes o ++ nd_options_bytes os')
                  (8 * Z.to_nat (u8 (ndo_len o)))) as [s Hs]; [lia|].
      rewrite Hs. cbn [bind].
      destruct (negb (hop_limit _ =? 255)); [eauto|].
      destruct (negb (opt_code _ =? 0)); [eauto|].
      destruct (addr_is_ipv6_multicast _); [eauto|].
      destruct (negb (icmpv6_nd_options_validate _ _)); [eauto|].
      destruct (addr_is_ipv6_unspecified _ && _); [eauto|].
      destruct (negb _ && addr_is_ipv6_link_local _); [eauto|].
      destruct (if (if recv_addr_reg _ then true else false) then _ else _)
        as [[ok na_earo] w1].
      destruct (negb ok); [eauto|].
      destruct (if negb (earo_present na_earo) && true then _ else _) as [w2 buf2].
      eauto.
    + cbn [bind].
      destruct (negb (hop_limit _ =? 255)); [eauto|].
      destruct (negb (opt_code _ =? 0)); [eauto|].
      destruct (addr_is_ipv6_multicast _); [eauto|].
      destruct (negb (icmpv6_nd_options_validate _ _)); [eauto|].
      destruct (addr_is_ipv6_unspecified _ && _); [eauto|].
      destruct (negb _ && addr_is_ipv6_link_local _); [eauto|].
      destruct (if (if recv_addr_reg _ then true else false) then _ else _)
        as [[ok na_earo] w1].
      destruct (negb ok); [eauto|].
      destruct (if negb (earo_present na_earo) && has_sllao then _ else _)
        as [w2 buf2].
      eauto.
  - replace (if recv_addr_reg (ipv6_neighbour_cache (cur w)) then false else false)
      with false by (destruct (recv_addr_reg _); reflexivity).
    cbn [andb bind].
    destruct (negb (hop_limit _ =? 255)); [eauto|].
    destruct (negb (opt_code _ =? 0)); [eauto|].
    destruct (addr_is_ipv6_multicast _); [eauto|].
    destruct (negb (icmpv6_nd_options_validate _ _)); [eauto|].
    destruct (addr_is_ipv6_unspecified _ && _); [eauto|].
    destruct (negb _ && addr_is_ipv6_link_local _); [eauto|].
    cbn [negb earo_present earo_zero andb].
    destruct (if has_sllao then _ else _) as [w2 buf2] eqn:E2.
    cbn [earo_present earo_zero negb andb] in *.
    eauto.
Qed.

End InboundNSTotal.

Lemma icmpv6_ns_handler_returns_witness :
  exists r, icmpv6_ns_handler Demo.K 2 Demo.w0 Demo.ns_s1 = Ret r.
Proof.
  apply (icmpv6_ns_handler_returns Demo.K 2 Demo.w0 Demo.ns_s1
           (repeat x00 4 ++ Demo.fe80_2) Demo2.earo_s1_options).
  - reflexivity.
  - reflexivity.
  - repeat (apply Forall_cons; [split; [vm_compute; discriminate|reflexivity]|]).
    apply Forall_nil.
  - repeat (apply Forall_cons; [intros _; vm_compute; discriminate|]).
    apply Forall_nil.
  - vm_compute. lia.
Defined.

(** ** What the builders write *)

Section BuilderData.

Context {NC NE Ext : Type}.
Variable K : collab NC NE Ext.

(** The octets of an NA: the flags, the target, the link-layer address
    option that the interface writes, then the EARO when there is
    one. *)
Lemma icmpv6_build_na_data :
  forall (w w' : world NC Ext) solicited override tllao_required target earo
         src_addr na,
    icmpv6_build_na K w solicited override tllao_required target earo src_addr
    = (w', Some na) ->
    opt_code (options na) = 0 /\
    buf_data na =
      write_be32 (to_u32 (Z.shiftl (na_flags solicited override src_addr) 24))
      ++ firstn 16 target
      ++ if_llao_write K w ICMPV6_OPT_TGT_LL_ADDR tllao_required target
      ++ match earo with
         | Some e => earo_na_bytes e
         | None => []
         end.
Proof.
  intros w w' solicited override tllao_required target earo src_addr na.
  unfold icmpv6_build_na.
  destruct (match earo with Some e => _ && _ && _ | None => false end);
    [discriminate|].
  destruct (negb tllao_required && _); [discriminate|].
  destruct (buffer_get K _) as [buf|]; [|discriminate].
  destruct buf as [[t c h tc b1 b2 b3] i [st sa sp] [dt da dp] dat cb r].
  set (fd := if addr_is_ipv6_unspecified src_addr then _ else _).
  assert (Hfd : fd = (na_flags solicited override src_addr, snd fd)).
  { subst fd. unfold na_flags.
    destruct (addr_is_ipv6_unspecified src_addr).
    - destruct override; reflexivity.
    - destruct earo as [e|]; [destruct (negb (earo_status e =? ARO_SUCCESS))|];
        destruct override, solicited; reflexivity. }
  rewrite Hfd. generalize (snd fd) as dst. clear Hfd fd. intro dst.
  cbv beta iota.
  intro H. simpl_buf in H. unfold memcpy_n in H.
  destruct (if addr_is_assigned_to_interface K w target then _ else _) as [sv|];
    [|discriminate].
  set (data := (_ ++ _) ++ _) in H.
  assert (Hdata : match earo with
                  | Some e => data ++ earo_na_bytes e
                  | None => data
                  end =
                  write_be32 (to_u32 (Z.shiftl (na_flags solicited override src_addr) 24))
                  ++ firstn 16 target
                  ++ if_llao_write K w ICMPV6_OPT_TGT_LL_ADDR tllao_required target
                  ++ match earo with
                     | Some e => earo_na_bytes e
                     | None => []
                     end).
  { subst data. unfold icmpv6_write_icmp_lla.
    destruct earo; rewrite <- !app_assoc, ?app_nil_r; reflexivity. }
  rewrite <- Hdata. clear Hdata. clearbody data.
  destruct (match earo with Some e => _ && _ | None => false end).
  - destruct earo as [e|].
    + destruct (ws_common_negative_aro_mark K w (earo_eui64 e)) as [[|] w1];
        [|discriminate].
      injection H as _ <-. simpl_buf. split; reflexivity.
    + injection H as _ <-. simpl_buf. split; reflexivity.
  - injection H as _ <-. simpl_buf. split; reflexivity.
Qed.

(** The octets and the addresses of an NS. *)
Lemma icmpv6_build_ns_data :
  forall (w : world NC Ext) target prompting unicast unspecified_source aro ns,
    icmpv6_build_ns K w target prompting unicast unspecified_source aro
    = Ret (Some ns) ->
    opt_code (options ns) = 0 /\
    buf_data ns =
      write_be32 0 ++ firstn 16 target
      ++ match aro with
         | Some a => earo_ns_bytes a
         | None => []
         end /\
    address (dst_sa ns) =
      (if unicast then firstn 16 target
       else firstn 13 ADDR_MULTICAST_SOLICITED ++ firstn 3 (skipn 13 target)) /\
    addr_type (dst_sa ns) = ADDR_IPV6 /\
    addr_type (src_sa ns) = ADDR_IPV6 /\
    buf_route_to ns = Some (address (dst_sa ns)) /\
    (unspecified_source = true -> address (src_sa ns) = repeat x00 16).
Proof.
  intros w target prompting unicast unspecified_source aro ns.
  unfold icmpv6_build_ns.
  destruct (addr_is_ipv6_multicast target); [discriminate|].
  destruct (buffer_get K 127) as [buf|]; [|discriminate].
  destruct buf as [[t c h tc b1 b2 b3] i [st sa sp] [dt da dp] dat cb r].
  cbv zeta. unfold memcpy_n, ipv6_buffer_route_to.
  assert (Hdata : (match aro with
                   | Some a => (write_be32 0 ++ firstn 16 target) ++ earo_ns_bytes a
                   | None => write_be32 0 ++ firstn 16 target
                   end) =
                  write_be32 0 ++ firstn 16 target
                  ++ match aro with Some a => earo_ns_bytes a | None => [] end).
  { destruct aro; [rewrite <- app_assoc|rewrite app_nil_r]; reflexivity. }
  rewrite Hdata. clear Hdata.
  generalize (write_be32 0 ++ firstn 16 target
              ++ match aro with Some a => earo_ns_bytes a | None => [] end) as data.
  intro data.
  destruct unspecified_source.
  - intro H. injection H as <-.
    destruct (unicast && _); simpl_buf; repeat split; reflexivity.
  - destruct (match aro with Some _ => true | None => _ end).
    + destruct prompting as [p|]; [|discriminate].
      intro H. injection H as <-.
      destruct (unicast && _), aro as [a|];
        try destruct (omit_na_aro_success _); try destruct (earo_lifetime a >? 1);
        simpl_buf; repeat split; try reflexivity; discriminate.
    + destruct (addr_interface_get_ll_address K w) as [ll|]; [|discriminate].
      intro H. injection H as <-.
      destruct (unicast && _), aro as [a|];
        try destruct (omit_na_aro_success _); try destruct (earo_lifetime a >? 1);
        simpl_buf; repeat split; try reflexivity; discriminate.
Qed.

End BuilderData.

(** ** Inbound NS: what a reply implies *)

Section InboundNSReply.

Context {NC NE Ext : Type}.
Variable K : collab NC NE Ext.

(** An NA leaves the NS handler only through [icmpv6_build_na], called
    for the target of the NS and its source, after the checks on the
    hop limit, the code and the target. *)
Lemma icmpv6_ns_handler_builds :
  forall fuel (w w' : world NC Ext) buf na,
    icmpv6_ns_handler K fuel w buf = Ret (w', Some na) ->
    hop_limit (options buf) = 255 /\
    opt_code (options buf) = 0 /\
    addr_is_ipv6_multicast (icmpv6_ns_target buf) = false /\
    exists w1 tllao_required earo,
      icmpv6_build_na K w1 true
        (addr_interface_address_compare K w (icmpv6_ns_target buf) =? 0)
        tllao_required (icmpv6_ns_target buf) earo (address (src_sa buf))
      = (w', Some na).
Proof.
  intros fuel w w' buf na. unfold icmpv6_ns_handler, icmpv6_ns_target.
  destruct (iobuf_pop_data_ptr _ 4) as [p4 io4]. cbn [snd].
  destruct (iobuf_pop_data io4 16) as [target io]. cbn [fst].
  destruct (icmpv6_nd_option_get fuel _ _ ICMPV6_OPT_SRC_LL_ADDR)
    as [[has_sllao sllao]| |]; cbn [bind]; try discriminate.
  destruct (icmpv6_nd_option_get fuel _ _ ICMPV6_OPT_ADDR_REGISTRATION)
    as [[has_earo earo]| |]; cbn [bind]; try discriminate.
  set (has_earo' := if recv_addr_reg _ then has_earo else false).
  assert (Hgen : forall has_sllao' sllao',
    (let drop := Ret (w, None) in
     if negb (hop_limit (options buf) =? 255) then drop
     else if negb (opt_code (options buf) =? 0) then drop
     else if addr_is_ipv6_multicast target then drop
     else if negb (icmpv6_nd_options_validate (iobuf_ptr io) (iobuf_remaining_size io))
     then drop
     else if addr_is_ipv6_unspecified (address (src_sa buf)) &&
             (memcmp_eq (address (dst_sa buf)) ADDR_MULTICAST_SOLICITED 13 || has_sllao')
     then drop
     else
       let proxy := negb (addr_interface_address_compare K w target =? 0) in
       if proxy && addr_is_ipv6_link_local target then drop
       else
         let '(ok, na_earo, w) :=
           if has_earo' then
             nd_ns_earo_handler K w (io_data earo) (io_data_size earo)
                                (if has_sllao' then Some (io_data sllao') else None)
                                (address (src_sa buf)) target
           else (true, earo_zero, w) in
         if negb ok then Ret (w, None)
         else
           let '(w, buf) :=
             if negb (earo_present na_earo) && has_sllao' then
               let '(r, ll) := if_llao_parse K w (io_data sllao') (dst_sa buf) in
               let buf := set_dst_sa buf ll in
               if negb (r =? 0) then
                 (set_cur w (set_neighbour_cache (cur w)
                    (ipv6_neighbour_update_unsolicited K (ipv6_neighbour_cache (cur w))
                       (address (src_sa buf)) (addr_type (dst_sa buf))
                       (address (dst_sa buf)))), buf)
               else (w, buf)
             else (w, buf) in
           Ret (icmpv6_build_na K w true (negb proxy)
                  (addr_is_ipv6_multicast (address (dst_sa buf))) target
                  (if earo_present na_earo then Some na_earo else None)
                  (address (src_sa buf)))) = Ret (w', Some na) ->
    hop_limit (options buf) = 255 /\
    opt_code (options buf) = 0 /\
    addr_is_ipv6_multicast target = false /\
    exists w1 tllao_required earo,
      icmpv6_build_na K w1 true (addr_interface_address_compare K w target =? 0)
        tllao_required target earo (address (src_sa buf))
      = (w', Some na)).
  { intros hs sl. cbv zeta.
    destruct (Z.eqb_spec (hop_limit (options buf)) 255) as [Eh|]; cbn [negb];
      [|discriminate].
    destruct (Z.eqb_spec (opt_code (options buf)) 0) as [Ec|]; cbn [negb];
      [|discriminate].
    destruct (addr_is_ipv6_multicast target); [discriminate|].
    destruct (negb (icmpv6_nd_options_validate _ _)); [discriminate|].
    destruct (addr_is_ipv6_unspecified _ && _); [discriminate|].
    destruct (negb _ && addr_is_ipv6_link_local target); [discriminate|].
    rewrite negb_involutive.
    destruct (if has_earo' then _ else _) as [[ok na_earo] w1].
    destruct (negb ok); [discriminate|].
    destruct (negb (earo_present na_earo) && hs).
    - destruct (if_llao_parse K w1 (io_data sl) (dst_sa buf)) as [r ll].
      destruct (negb (r =? 0)); intro E; injection E as E;
        simpl_buf in E; repeat (split; [first [assumption|reflexivity]|]); eauto.
    - intro E; injection E as E;
        repeat (split; [first [assumption|reflexivity]|]); eauto. }
  match goal with
  | |- context [if ?c then bind (icmpv6_nd_ws_sllao_dummy ?a ?b) _ else _] =>
      destruct c; [destruct (icmpv6_nd_ws_sllao_dummy a b) as [[ok dummy]| |]|]
  end; cbn [bind]; try discriminate; apply Hgen.
Qed.

End InboundNSReply.

(** The target that the NS handler reads is sixteen octets long. *)
Lemma icmpv6_ns_target_length :
  forall buf, length (icmpv6_ns_target buf) = 16%nat.
Proof.
  intro buf. unfold icmpv6_ns_target.
  destruct (Nat.lt_ge_cases (length (buf_data buf)) 4) as [H4|H4].
  - rewrite iobuf_pop_data_ptr_short by lia. cbn [snd].
    unfold iobuf_pop_data. rewrite iobuf_pop_data_ptr_err. apply repeat_length.
  - rewrite iobuf_pop_data_ptr_ok by lia. cbn [snd Nat.add].
    unfold iobuf_pop_data.
    destruct (Nat.lt_ge_cases (length (buf_data buf) - 4) 16) as [H16|H16].
    + rewrite iobuf_pop_data_ptr_short by lia. apply repeat_length.
    + rewrite iobuf_pop_data_ptr_ok by lia. cbn [fst].
      apply firstn_length_le. rewrite length_skipn. lia.
Qed.

(** ** Inbound NS: main results *)

(** X9.  An NA leaves [icmpv6_ns_handler] only in answer to an NS with
    hop limit 255, code 0 and a target that is not multicast, and it
    advertises that target: the NA has type 136 and code 0, and the
    sixteen octets behind its flags are the target of the NS. *)
Theorem icmpv6_ns_handler_na_target :
  forall {NC NE Ext : Type} (K : collab NC NE Ext) (fuel : nat)
         (w w' : world NC Ext) (buf na : buffer_t),
    icmpv6_ns_handler K fuel w buf = Ret (w', Some na) ->
    (hop_limit (options buf) = 255 /\ opt_code (options buf) = 0 /\
     addr_is_ipv6_multicast (icmpv6_ns_target buf) = false) /\
    opt_type (options na) = ICMPV6_TYPE_INFO_NA /\
    opt_code (options na) = 0 /\
    firstn 16 (skipn 4 (buf_data na)) = icmpv6_ns_target buf.
Proof.
  intros NC NE Ext K fuel w w' buf na H.
  apply icmpv6_ns_handler_builds in H.
  destruct H as (Hh & Hc & Hm & w1 & tl & earo & Hb).
  pose proof (icmpv6_build_na_spec K _ _ _ _ _ _ _ _ _ Hb) as (_ & Ht & _).
  pose proof (icmpv6_build_na_data K _ _ _ _ _ _ _ _ _ Hb) as (Hc' & Hd).
  split; [tauto|]. split; [exact Ht|]. split; [exact Hc'|].
  rewrite Hd.
  pose proof (icmpv6_ns_target_length buf) as Hl.
  unfold write_be32. cbn [app skipn].
  rewrite (firstn_all2 (n := 16) (icmpv6_ns_target buf)) by lia.
  rewrite firstn_app, Hl, Nat.sub_diag, firstn_O, app_nil_r.
  apply firstn_all2. lia.
Qed.

Lemma icmpv6_ns_handler_na_target_witness :
  exists w' na,
    icmpv6_ns_handler Demo.K 2 Demo.w0 Demo.ns_s1 = Ret (w', Some na) /\
    firstn 16 (skipn 4 (buf_data na)) = Demo.fe80_2.
Proof.
  destruct (icmpv6_ns_handler Demo.K 2 Demo.w0 Demo.ns_s1) as [[w' [na|]]| |] eqn:E;
    try (vm_compute in E; discriminate).
  exists w', na. split; [reflexivity|].
  exact (proj2 (proj2 (proj2 (icmpv6_ns_handler_na_target
                                 Demo.K 2 Demo.w0 w' Demo.ns_s1 na E)))).
Defined.

(** ** Builders against handlers *)

Lemma u8_to_u8 : forall z, u8 (to_u8 z) = z mod 256.
Proof.
  intro z. unfold u8, to_u8.
  pose proof (Z.mod_pos_bound z 256 ltac:(lia)) as Hb.
  destruct (Byte.of_N (Z.to_N (z mod 256))) as [b|] eqn:E.
  - apply Byte.to_of_N in E. rewrite E. lia.
  - apply Byte.of_N_None_iff in E. lia.
Qed.

Lemma to_u8_u8 : forall b, to_u8 (u8 b) = b.
Proof.
  intro b. unfold to_u8, u8.
  pose proof (Byte.to_N_bounded b) as Hb.
  rewrite Z.mod_small by lia. rewrite N2Z.id, Byte.of_to_N. reflexivity.
Qed.

(** The EARO of an NS and of an NA, as one option of sixteen octets. *)
Lemma earo_ns_option_ok :
  forall aro,
    length (earo_eui64 aro) = 8%nat ->
    exists o,
      earo_ns_bytes aro = nd_option_bytes o /\ nd_option_ok o /\
      u8 (ndo_type o) = ICMPV6_OPT_ADDR_REGISTRATION /\ u8 (ndo_len o) = 2.
Proof.
  intros aro He.
  exists (mk_nd_option (to_u8 ICMPV6_OPT_ADDR_REGISTRATION) (to_u8 2)
            ([to_u8 (earo_status aro); x00] ++ write_be16 0
             ++ write_be16 (earo_lifetime aro) ++ earo_eui64 aro)).
  unfold earo_ns_bytes, nd_option_ok, nd_option_bytes, memcpy_n.
  cbn [ndo_type ndo_len ndo_body].
  rewrite (firstn_all2 (n := 8) (earo_eui64 aro)) by lia.
  split; [reflexivity|]. split; [|split; reflexivity].
  split; [vm_compute; discriminate|].
  cbn [length app write_be16]. rewrite He. reflexivity.
Qed.

Lemma earo_na_option_ok :
  forall earo,
    length (earo_eui64 earo) = 8%nat ->
    exists o,
      earo_na_bytes earo = nd_option_bytes o /\ nd_option_ok o /\
      u8 (ndo_type o) = ICMPV6_OPT_ADDR_REGISTRATION /\ u8 (ndo_len o) = 2.
Proof.
  intros earo He.
  eexists (mk_nd_option (to_u8 ICMPV6_OPT_ADDR_REGISTRATION) (to_u8 2) _).
  unfold earo_na_bytes, nd_option_ok, nd_option_bytes, memcpy_n.
  cbn [ndo_type ndo_len ndo_body app].
  rewrite (firstn_all2 (n := 8) (earo_eui64 earo)) by lia.
  split; [reflexivity|]. split; [|split; reflexivity].
  split; [vm_compute; discriminate|].
  cbn [length app write_be16]. rewrite He. reflexivity.
Qed.

(** The dummy SLLAO made from an EARO of sixteen octets: type 1, length
    2, the EUI-64 of the EARO and six octets of padding. *)
Lemma icmpv6_nd_ws_sllao_dummy_earo :
  forall aro_ptr aro_len,
    (16 <= aro_len)%nat -> (16 <= length aro_ptr)%nat ->
    icmpv6_nd_ws_sllao_dummy aro_ptr aro_len
    = Ret (true, [to_u8 ICMPV6_OPT_SRC_LL_ADDR; to_u8 2]
                 ++ firstn 8 (skipn 8 aro_ptr) ++ repeat x00 6).
Proof.
  intros p n Hn Hp. unfold icmpv6_nd_ws_sllao_dummy.
  rewrite iobuf_pop_u8_ok by lia.
  rewrite iobuf_pop_u8_ok by lia.
  rewrite iobuf_pop_u8_ok by lia.
  rewrite iobuf_pop_data_ptr_ok by lia.
  rewrite iobuf_pop_be16_ok by lia.
  rewrite iobuf_pop_data_ptr_ok by lia.
  cbv zeta. cbn [Nat.add].
  assert (He : length (firstn 8 (skipn 8 p)) = 8%nat).
  { apply firstn_length_le. rewrite length_skipn. lia. }
  destruct (firstn 8 (skipn 8 p)) as [|e0 [|e1 [|e2 [|e3 [|e4 [|e5 [|e6 [|e7 [|]]]]]]]]];
    try discriminate He.
  reflexivity.
Qed.

(** ** Builders against handlers: main results *)

(** X10.  The probe that [icmpv6_build_ns] builds for Duplicate Address
    Detection (unspecified source, no unicast, no ARO) goes from :: to
    the solicited-node address of the target, and [icmpv6_ns_handler]
    drops it at every receiver, whatever the receiver's addresses and
    state, and leaves that state as it was: no NA ever defends the
    address. *)
Theorem icmpv6_build_ns_dad_probe_dropped :
  forall {NC NE Ext : Type} (K : collab NC NE Ext) (w : world NC Ext)
         {NC' NE' Ext' : Type} (K' : collab NC' NE' Ext') (w' : world NC' Ext')
         (target : address_t) (prompting : option address_t)
         (ns rx : buffer_t) (fuel : nat),
    length target = 16%nat ->
    icmpv6_build_ns K w target prompting false true None = Ret (Some ns) ->
    buf_data rx = buf_data ns ->
    address (src_sa rx) = address (src_sa ns) ->
    address (dst_sa rx) = address (dst_sa ns) ->
    address (src_sa ns) = ADDR_UNSPECIFIED /\
    address (dst_sa ns) = firstn 13 ADDR_MULTICAST_SOLICITED ++ skipn 13 target /\
    icmpv6_ns_handler K' (S fuel) w' rx = Ret (w', None).
Proof.
  intros NC NE Ext K w NC' NE' Ext' K' w' target prompting ns rx fuel
         Ht Hb Hd Hs Hdst.
  apply icmpv6_build_ns_data in Hb.
  destruct Hb as (_ & Hdata & Hdsta & _ & _ & _ & Hsrc).
  specialize (Hsrc eq_refl).
  assert (H3 : firstn 3 (skipn 13 target) = skipn 13 target).
  { apply firstn_all2. rewrite length_skipn. lia. }
  rewrite H3 in Hdsta.
  split; [exact Hsrc|]. split; [exact Hdsta|].
  apply icmpv6_ns_handler_dad_dropped.
  - rewrite Hd, Hdata, !length_app, length_firstn, Ht. reflexivity.
  - rewrite Hs, Hsrc. reflexivity.
  - rewrite Hdst, Hdsta. reflexivity.
Qed.

Lemma icmpv6_build_ns_dad_probe_dropped_witness :
  exists ns,
    icmpv6_build_ns Demo.K Demo.w0 Demo.fe80_9 None false true None = Ret (Some ns) /\
    icmpv6_ns_handler Demo.K 1 Demo.w0 ns = Ret (Demo.w0, None).
Proof.
  destruct (icmpv6_build_ns Demo.K Demo.w0 Demo.fe80_9 None false true None)
    as [[ns|]| |] eqn:E; try (vm_compute in E; discriminate).
  exists ns. split; [reflexivity|].
  exact (proj2 (proj2 (icmpv6_build_ns_dad_probe_dropped
                         Demo.K Demo.w0 Demo.K Demo.w0 Demo.fe80_9 None ns ns 0
                         eq_refl E eq_refl eq_refl eq_refl))).
Defined.

(** X11.  An NS built by [icmpv6_build_ns] with an address registration
    option is read back by the receiving side as it was written: the
    target is the one given, the options pass
    [icmpv6_options_well_formed_in_buffer], the search for the EARO
    returns the sixteen octets written, the search for an SLLAO finds
    none, and the dummy SLLAO that the NS handler then makes carries
    the EUI-64 of the registration. *)
Theorem icmpv6_build_ns_earo_round_trip :
  forall {NC NE Ext : Type} (K : collab NC NE Ext) (w : world NC Ext)
         (target : address_t) (prompting : option address_t)
         (unicast unspecified_source : bool) (aro : ipv6_nd_opt_earo)
         (ns rx : buffer_t) (fuel : nat),
    length target = 16%nat ->
    length (earo_eui64 aro) = 8%nat ->
    icmpv6_build_ns K w target prompting unicast unspecified_source (Some aro)
    = Ret (Some ns) ->
    buf_data rx = buf_data ns ->
    (2 <= fuel)%nat ->
    icmpv6_ns_target rx = target /\
    icmpv6_options_well_formed_in_buffer rx 20 = true /\
    icmpv6_find_option_in_buffer fuel rx 20 ICMPV6_OPT_ADDR_REGISTRATION
      = Ret (Some (earo_ns_bytes aro)) /\
    icmpv6_find_option_in_buffer fuel rx 20 ICMPV6_OPT_SRC_LL_ADDR = Ret None /\
    icmpv6_nd_ws_sllao_dummy (earo_ns_bytes aro) 16
      = Ret (true, [to_u8 ICMPV6_OPT_SRC_LL_ADDR; to_u8 2]
                   ++ earo_eui64 aro ++ repeat x00 6).
Proof.
  intros NC NE Ext K w target prompting unicast unspecified_source aro ns rx fuel
         Ht He Hb Hd Hf.
  apply icmpv6_build_ns_data in Hb. destruct Hb as (_ & Hdata & _).
  rewrite (firstn_all2 (n := 16) target) in Hdata by lia.
  destruct (earo_ns_option_ok aro He) as (o & Ho & Hok & Hty & Hlen).
  assert (Hrx : buf_data rx = (write_be32 0 ++ target) ++ nd_options_bytes [o]).
  { rewrite Hd, Hdata. cbn [nd_options_bytes]. rewrite app_nil_r, <- Ho.
    rewrite <- app_assoc. reflexivity. }
  assert (Hh : length (write_be32 0 ++ target) = 20%nat).
  { rewrite length_app, Ht. reflexivity. }
  assert (Hoks : Forall nd_option_ok [o]) by (constructor; [exact Hok|constructor]).
  split; [|split; [|split; [|split]]].
  - unfold icmpv6_ns_target.
    rewrite icmpv6_ns_handler_header by (rewrite Hrx, length_app; lia).
    cbn [fst]. rewrite Hrx. unfold write_be32. cbn [app skipn].
    rewrite firstn_app, Ht, Nat.sub_diag, firstn_O, app_nil_r.
    apply firstn_all2. lia.
  - rewrite <- Hh. apply (icmpv6_options_well_formed_of_chain rx _ [o] Hrx Hoks).
  - rewrite <- Hh.
    rewrite (icmpv6_find_option_of_chain fuel rx _ [o] _ Hrx Hoks)
      by (cbn [length]; lia).
    cbn [nd_option_first]. rewrite Hty, Z.eqb_refl. cbn [nd_options_bytes].
    rewrite app_nil_r, Ho. reflexivity.
  - rewrite <- Hh.
    rewrite (icmpv6_find_option_of_chain fuel rx _ [o] _ Hrx Hoks)
      by (cbn [length]; lia).
    cbn [nd_option_first]. rewrite Hty. reflexivity.
  - rewrite icmpv6_nd_ws_sllao_dummy_earo.
    + unfold earo_ns_bytes, memcpy_n, write_be16. cbn [app skipn].
      rewrite firstn_firstn. cbn [Nat.min]. 
      rewrite (firstn_all2 (n := 8) (earo_eui64 aro)) by lia. reflexivity.
    + lia.
    + rewrite Ho. destruct Hok as [_ Hl]. rewrite Hl, Hlen. cbn. lia.
Qed.

Lemma icmpv6_build_ns_earo_round_trip_witness :
  exists ns,
    icmpv6_build_ns Demo.K Demo.w0 Demo.fe80_1 (Some Demo.fe80_2) true false
                    (Some (Demo.earo_of_bytes Demo.earo_s1)) = Ret (Some ns) /\
    icmpv6_find_option_in_buffer 2 ns 20 ICMPV6_OPT_ADDR_REGISTRATION
    = Ret (Some (earo_ns_bytes (Demo.earo_of_bytes Demo.earo_s1))).
Proof.
  destruct (icmpv6_build_ns Demo.K Demo.w0 Demo.fe80_1 (Some Demo.fe80_2) true false
                            (Some (Demo.earo_of_bytes Demo.earo_s1)))
    as [[ns|]| |] eqn:E; try (vm_compute in E; discriminate).
  exists ns. split; [reflexivity|].
  assert (Hf : (2 <= 2)%nat) by lia.
  exact (proj1 (proj2 (proj2 (icmpv6_build_ns_earo_round_trip
                                Demo.K Demo.w0 Demo.fe80_1 (Some Demo.fe80_2) true false
                                (Demo.earo_of_bytes Demo.earo_s1) ns ns 2
                                eq_refl eq_refl E eq_refl Hf)))).
Defined.

(** X12.  An NA built by [icmpv6_build_na] with an EARO is read back by
    [icmpv6_na_handler]'s own accessors as it was written, as long as
    the link-layer address option that the interface writes is a chain
    of well-formed options other than an EARO: the target read at
    offset 4 is the target given, the options pass
    [icmpv6_options_well_formed_in_buffer], and the search for the EARO
    returns an option with length octet 2 that holds the status and the
    EUI-64 given at the offsets where [icmpv6_na_wisun_aro_handler]
    reads them. *)
Theorem icmpv6_build_na_earo_round_trip :
  forall {NC NE Ext : Type} (K : collab NC NE Ext) (w w' : world NC Ext)
         (solicited override tllao_required : bool) (target : address_t)
         (earo : ipv6_nd_opt_earo) (src_addr : address_t)
         (lla : list nd_option) (na rx : buffer_t) (fuel : nat),
    length target = 16%nat ->
    length (earo_eui64 earo) = 8%nat ->
    if_llao_write K w ICMPV6_OPT_TGT_LL_ADDR tllao_required target
    = nd_options_bytes lla ->
    Forall nd_option_ok lla ->
    nd_option_first ICMPV6_OPT_ADDR_REGISTRATION lla = None ->
    icmpv6_build_na K w solicited override tllao_required target (Some earo) src_addr
    = (w', Some na) ->
    buf_data rx = buf_data na ->
    (length lla + 1 < fuel)%nat ->
    firstn 16 (skipn 4 (buf_data rx)) = target /\
    icmpv6_options_well_formed_in_buffer rx 20 = true /\
    exists p,
      icmpv6_find_option_in_buffer fuel rx 20 ICMPV6_OPT_ADDR_REGISTRATION
      = Ret (Some p) /\
      at8 p 1 = 2 /\
      at8 p 2 = earo_status earo mod 256 /\
      firstn 8 (skipn 8 p) = earo_eui64 earo.
Proof.
  intros NC NE Ext K w w' solicited override tllao_required target earo src_addr
         lla na rx fuel Ht He Hlla Hok Hno Hb Hd Hf.
  apply icmpv6_build_na_data in Hb. destruct Hb as (_ & Hdata).
  rewrite (firstn_all2 (n := 16) target) in Hdata by lia.
  rewrite Hlla in Hdata.
  destruct (earo_na_option_ok earo He) as (o & Ho & Hoko & Hty & Hlen).
  set (flags := to_u32 (Z.shiftl (na_flags solicited override src_addr) 24)) in *.
  assert (Hbytes : forall a b, nd_options_bytes (a ++ b)
                               = nd_options_bytes a ++ nd_options_bytes b).
  { induction a as [|x a IH]; intro b; cbn [app nd_options_bytes];
      [reflexivity|]. rewrite IH, app_assoc. reflexivity. }
  assert (Hrx : buf_data rx = (write_be32 flags ++ target)
                              ++ nd_options_bytes (lla ++ [o])).
  { rewrite Hd, Hdata, Hbytes. cbn [nd_options_bytes]. rewrite app_nil_r, <- Ho.
    rewrite <- app_assoc. reflexivity. }
  assert (Hh : length (write_be32 flags ++ target) = 20%nat).
  { rewrite length_app, Ht. reflexivity. }
  assert (Hoks : Forall nd_option_ok (lla ++ [o])).
  { apply Forall_app. split; [exact Hok|]. constructor; [exact Hoko|constructor]. }
  assert (Hfirst : nd_option_first ICMPV6_OPT_ADDR_REGISTRATION (lla ++ [o])
                   = Some (o, [])).
  { clear - Hno Hty. induction lla as [|x lla IH]; cbn [app nd_option_first] in *.
    - rewrite Hty, Z.eqb_refl. reflexivity.
    - destruct (u8 (ndo_type x) =? ICMPV6_OPT_ADDR_REGISTRATION); [discriminate|].
      apply IH. exact Hno. }
  split; [|split].
  - rewrite Hrx. unfold write_be32. cbn [app skipn].
    rewrite firstn_app, Ht, Nat.sub_diag, firstn_O, app_nil_r.
    apply firstn_all2. lia.
  - rewrite <- Hh. apply (icmpv6_options_well_formed_of_chain rx _ _ Hrx Hoks).
  - exists (earo_na_bytes earo). split; [|split; [|split]].
    + rewrite <- Hh.
      rewrite (icmpv6_find_option_of_chain fuel rx _ _ _ Hrx Hoks)
        by (rewrite length_app; cbn [length]; lia).
      rewrite Hfirst. cbn [nd_options_bytes]. rewrite app_nil_r, Ho. reflexivity.
    + reflexivity.
    + unfold earo_na_bytes, at8. cbn [app nth]. apply u8_to_u8.
    + unfold earo_na_bytes, memcpy_n, write_be16. cbn [app skipn].
      rewrite firstn_firstn. cbn [Nat.min].
      apply firstn_all2. lia.
Qed.

Lemma icmpv6_build_na_earo_round_trip_witness :
  exists w' na p,
    icmpv6_build_na Demo.K Demo.w0 true true true Demo.fe80_2
                    (Some (Demo.earo_of_bytes Demo.earo_s1)) Demo.fe80_1
    = (w', Some na) /\
    icmpv6_find_option_in_buffer 3 na 20 ICMPV6_OPT_ADDR_REGISTRATION = Ret (Some p) /\
    firstn 8 (skipn 8 p) = Demo.eui64_peer.
Proof.
  destruct (icmpv6_build_na Demo.K Demo.w0 true true true Demo.fe80_2
                            (Some (Demo.earo_of_bytes Demo.earo_s1)) Demo.fe80_1)
    as [w' [na|]] eqn:E; try (vm_compute in E; discriminate).
  assert (Hok : Forall nd_option_ok
                  [mk_nd_option (to_u8 ICMPV6_OPT_TGT_LL_ADDR) (to_u8 2)
                                (Demo.eui64_if ++ repeat x00 6)]).
  { repeat (apply Forall_cons; [split; [vm_compute; discriminate|reflexivity]|]).
    apply Forall_nil. }
  assert (Hf : (1 + 1 < 3)%nat) by lia.
  destruct (icmpv6_build_na_earo_round_trip
              Demo.K Demo.w0 w' true true true Demo.fe80_2
              (Demo.earo_of_bytes Demo.earo_s1) Demo.fe80_1
              [mk_nd_option (to_u8 ICMPV6_OPT_TGT_LL_ADDR) (to_u8 2)
                            (Demo.eui64_if ++ repeat x00 6)]
              na na 3 eq_refl eq_refl eq_refl Hok eq_refl E eq_refl Hf)
    as (_ & _ & p & Hp & _ & _ & He).
  exists w', na, p. split; [reflexivity|]. split; [exact Hp|exact He].
Defined.

(** ** The error responder: what is sent, and when *)



(** X14.  The converse of the RFC 4443 rules: for a packet that was not
    received with the security bypass, that is neither an ICMPv6 error
    nor a Redirect, that was not received as a multicast (unless the
    error is one of the two exceptions) and whose source names a single
    node, [icmpv6_error] does send the error and takes one token, as
    long as the bucket is not empty, a route back exists and the buffer
    layer makes the headroom. *)
Theorem icmpv6_error_sent :
  forall {NC NE Ext : Type} (K : collab NC NE Ext) (w : world NC Ext)
         (buf : buffer_t) (type code aux : Z),
    (forall w1 b, fst (ipv6_buffer_route K w1 b) <> None) ->
    (forall b, buffer_headroom K b 4 <> None) ->
    ll_security_bypass_rx (options buf) = false ->
    ~ is_icmpv6_error_or_redirect buf ->
    (received_as_multicast buf -> multicast_exception type code) ->
    ~ source_not_single_node buf ->
    0 < icmp_tokens (cur w) <= 10 ->
    exists w' out,
      icmpv6_error K w buf type code aux = (w', Some out) /\
      icmp_tokens (cur w') = icmp_tokens (cur w) - 1.
Proof.
  intros NC NE Ext K w buf type code aux Hroute Hhead Hbyp Hicmp Hmc Hsrc Htok.
  assert (Hsome : exists out, snd (icmpv6_error K w buf type code aux) = Some out).
  { unfold icmpv6_error. rewrite Hbyp.
    set (w1 := match b_dir (info buf) with
               | B_DIR_UP => _ | B_DIR_DOWN => _ end).
    assert (Hw1 : cur w1 = cur w) by (subst w1; destruct (b_dir _); reflexivity).
    clearbody w1.
    pose proof (is_icmpv6_msg_frame buf) as (Hs & Hd & _ & _ & _ & Hb & Hm).
    unfold is_icmpv6_error_or_redirect, received_as_multicast,
      multicast_exception, source_not_single_node in *.
    destruct (is_icmpv6_msg buf) as [is_icmp buf1]. cbn [fst snd] in *.
    rewrite Hs, Hd, Hb, Hm.
    destruct (is_icmp && (_ || _)) eqn:E1.
    { exfalso. apply Hicmp. apply andb_true_iff in E1. destruct E1 as [-> E1].
      split; [reflexivity|]. apply orb_true_iff in E1.
      destruct E1 as [E1|E1]; [left; apply Z.ltb_lt; exact E1
                              |right; apply Z.eqb_eq; exact E1]. }
    destruct ((_ || _ || _) && negb _) eqn:E2.
    { exfalso. apply andb_true_iff in E2. destruct E2 as [Ea Eb].
      apply negb_true_iff in Eb.
      assert (Hex : multicast_exception type code).
      { apply Hmc. apply orb_true_iff in Ea. destruct Ea as [Ea|Ea]; [|tauto].
        apply orb_true_iff in Ea. tauto. }
      unfold multicast_exception in Hex.
      apply orb_false_iff in Eb. destruct Eb as [Eb1 Eb2].
      apply Z.eqb_neq in Eb1. destruct Hex as [Hex|[Hex1 Hex2]]; [contradiction|].
      subst. cbn in Eb2. discriminate. }
    destruct (addr_is_ipv6_unspecified _ || _) eqn:E3.
    { exfalso. apply Hsrc. apply orb_true_iff in E3. exact E3. }
    match goal with
    | |- context [ipv6_buffer_route K w1 ?b] =>
        pose proof (Hroute w1 b) as Hr;
        destruct (ipv6_buffer_route K w1 b) as [[rb|] e]
    end; [|cbn in Hr; contradiction].
    cbn [set_ext cur ext]. rewrite Hw1.
    destruct (Z.eqb_spec (icmp_tokens (cur w)) 0); [lia|].
    match goal with
    | |- context [buffer_headroom K ?b 4] =>
        pose proof (Hhead b) as Hh; destruct (buffer_headroom K b 4) as [hb|]
    end; [|contradiction].
    cbn [snd]. eauto. }
  destruct Hsome as [out Hout].
  destruct (icmpv6_error K w buf type code aux) as [w' o] eqn:E.
  cbn [snd] in Hout. subst o.
  exists w', out. split; [reflexivity|].
  apply (icmpv6_error_emitted K w w' buf type code aux out); [lia|exact E].
Qed.

Lemma icmpv6_error_sent_witness :
  exists w' out,
    icmpv6_error Demo.K Demo.w0 Demo.udp_packet
                 ICMPV6_TYPE_ERROR_DESTINATION_UNREACH 4 0 = (w', Some out) /\
    icmp_tokens (cur w') = icmp_tokens (cur Demo.w0) - 1.
Proof.
  apply (icmpv6_error_sent Demo.K Demo.w0 Demo.udp_packet
                           ICMPV6_TYPE_ERROR_DESTINATION_UNREACH 4 0).
  - intros w1 b. cbn. discriminate.
  - intro b. cbn. discriminate.
  - reflexivity.
  - intros [H _]. vm_compute in H. discriminate.
  - intros [H|[H|H]]; vm_compute in H; discriminate.
  - intros [H|H]; vm_compute in H; discriminate.
  - vm_compute. split; [reflexivity|discriminate].
Defined.

(** ** [is_icmpv6_msg]: where the type and the code come from *)

Lemma land_7_mod_8 : forall z, 0 <= z -> Z.land z 7 = 0 -> z mod 8 = 0.
Proof.
  intros z Hz H. change 7 with (Z.ones 3) in H.
  rewrite Z.land_ones in H by lia. exact H.
Qed.

Lemma at8_skipn : forall p n i, at8 (skipn n p) i = at8 p (n + i).
Proof. intros. unfold at8. rewrite nth_skipn. reflexivity. Qed.

(** The walk over the extension headers ends on an ICMPv6 header only
    at an offset that is a multiple of eight and leaves at least four
    octets of the payload. *)
Lemma is_icmpv6_msg_loop_offset :
  forall fuel ptr len nh t c,
    0 <= len ->
    is_icmpv6_msg_loop fuel ptr len nh = Ret (Some (t, c)) ->
    exists off : Z,
      0 <= off /\ off mod 8 = 0 /\ off + 4 <= len /\
      t = at8 ptr (Z.to_nat off) /\ c = at8 ptr (Z.to_nat off + 1).
Proof.
  induction fuel as [|fuel IH]; intros ptr len nh t c Hlen H; [discriminate|].
  cbn [is_icmpv6_msg_loop] in H.
  destruct (len =? 0); [discriminate|].
  destruct (nh =? IPV6_NH_ICMPV6).
  { destruct (Z.ltb_spec len 4); [discriminate|].
    injection H as <- <-. exists 0. repeat split; try reflexivity; lia. }
  pose proof (at8_range ptr 1) as Hb.
  assert (Hstep : forall hdrlen,
            0 <= hdrlen < 65536 ->
            (if (hdrlen >? len) || negb (Z.land hdrlen 7 =? 0) then Ret None
             else is_icmpv6_msg_loop fuel (skipn (Z.to_nat hdrlen) ptr)
                                     (to_u16 (len - hdrlen)) (at8 ptr 0))
            = Ret (Some (t, c)) ->
            exists off : Z,
              0 <= off /\ off mod 8 = 0 /\ off + 4 <= len /\
              t = at8 ptr (Z.to_nat off) /\ c = at8 ptr (Z.to_nat off + 1)).
  { intros hdrlen Hh Hs.
    destruct (Z.gtb_spec hdrlen len) as [|Hle]; cbn [orb] in Hs; [discriminate|].
    destruct (Z.eqb_spec (Z.land hdrlen 7) 0) as [E7|]; cbn [negb] in Hs;
      [|discriminate].
    apply land_7_mod_8 in E7; [|lia].
    pose proof (to_u16_le (len - hdrlen) ltac:(lia)) as Hu.
    apply IH in Hs; [|apply to_u16_range].
    destruct Hs as (off & H0 & H8 & H4 & Ht & Hc).
    exists (hdrlen + off). rewrite !at8_skipn in *.
    split; [lia|]. split.
    { rewrite Z.add_mod, E7, H8 by lia. reflexivity. }
    split; [lia|].
    rewrite Z2Nat.inj_add by lia.
    split; [exact Ht|]. rewrite <- Nat.add_assoc. exact Hc. }
  destruct (is_ext_header nh).
  - destruct (len <? 8); [discriminate|].
    rewrite (to_u16_small ((at8 ptr 1 + 1) * 8)) in H by lia.
    apply Hstep in H; [exact H|lia].
  - destruct (nh =? IPV6_NH_AUTH); [|discriminate].
    destruct (len <? 8); [discriminate|].
    rewrite (to_u16_small ((at8 ptr 1 + 2) * 4)) in H by lia.
    apply Hstep in H; [exact H|lia].
Qed.

(** X15.  When [is_icmpv6_msg] recognises an ICMPv6 message, the type
    and the code it stores were read from the payload that the IPv6
    header declares, which lies inside the buffer: the ICMPv6 header
    starts a multiple of eight octets behind the forty octets of the
    IPv6 header, and its first four octets are within the payload
    length.  Nothing else of the buffer is changed. *)
Theorem is_icmpv6_msg_in_bounds :
  forall (buf buf' : buffer_t),
    is_icmpv6_msg buf = (true, buf') ->
    exists off : nat,
      (off mod 8 = 0)%nat /\
      Z.of_nat off + 4 <= read_be16 (skipn 4 (buf_data buf)) /\
      40 + read_be16 (skipn 4 (buf_data buf)) <= buffer_data_length buf /\
      opt_type (options buf') = at8 (buf_data buf) (40 + off) /\
      opt_code (options buf') = at8 (buf_data buf) (40 + off + 1) /\
      buf_data buf' = buf_data buf /\
      src_sa buf' = src_sa buf /\ dst_sa buf' = dst_sa buf.
Proof.
  intros buf buf' H. unfold is_icmpv6_msg in H.
  unfold IPV6_HDRLEN, IPV6_HDROFF_PAYLOAD_LENGTH in H.
  pose proof (to_u16_range (buffer_data_length buf)) as Hr.
  assert (Hle : to_u16 (buffer_data_length buf) <= buffer_data_length buf).
  { apply to_u16_le. unfold buffer_data_length. lia. }
  destruct (Z.ltb_spec (to_u16 (buffer_data_length buf)) 40) as [|H40];
    [discriminate|].
  rewrite (to_u16_small (to_u16 (buffer_data_length buf) - 40)) in H by lia.
  destruct (Z.gtb_spec (read_be16 (skipn 4 (buf_data buf)))
                       (to_u16 (buffer_data_length buf) - 40)) as [|Hip];
    [discriminate|].
  destruct (is_icmpv6_msg_loop _ _ _ _) as [[[t c]|]| |] eqn:E; try discriminate.
  injection H as <-.
  apply is_icmpv6_msg_loop_offset in E.
  - destruct E as (off & H0 & H8 & H4 & Ht & Hc).
    exists (Z.to_nat off). rewrite Z2Nat.id by lia.
    rewrite at8_skipn in Ht, Hc.
    split.
    { apply Nat2Z.inj. rewrite Nat2Z.inj_mod, Z2Nat.id by lia. exact H8. }
    split; [exact H4|]. split; [lia|].
    change (Z.to_nat 40) with 40%nat in Ht, Hc.
    rewrite Nat.add_assoc in Hc.
    cbn [set_options set_type_code options opt_type opt_code buf_data src_sa dst_sa].
    repeat split; try reflexivity; assumption.
  - unfold read_be16.
    pose proof (at8_range (skipn 4 (buf_data buf)) 0).
    pose proof (at8_range (skipn 4 (buf_data buf)) 1). lia.
Qed.

Lemma is_icmpv6_msg_in_bounds_witness :
  exists buf' off,
    is_icmpv6_msg Demo.icmp_error_packet = (true, buf') /\
    opt_type (options buf') = at8 (buf_data Demo.icmp_error_packet) (40 + off).
Proof.
  destruct (is_icmpv6_msg Demo.icmp_error_packet) as [[|] buf'] eqn:E;
    try (vm_compute in E; discriminate).
  destruct (is_icmpv6_msg_in_bounds Demo.icmp_error_packet buf' E)
    as (off & _ & _ & _ & Ht & _).
  exists buf', off. split; [reflexivity|exact Ht].
Defined.

(** ** The receive and transmit paths *)

Section UpDown.

Context {NC NE Ext : Type}.
Variable K : collab NC NE Ext.
Variable P : collab_paths NC Ext.

(** Neither the NA handler nor the Redirect handler ever returns a
    buffer. *)
Lemma icmpv6_na_handler_silent :
  forall fuel (w w' : world NC Ext) buf out,
    icmpv6_na_handler K fuel w buf <> Ret (w', Some out).
Proof.
  intros fuel w w' buf out. unfold icmpv6_na_handler.
  destruct (negb (opt_code _ =? 0) || negb (hop_limit _ =? 255)); [discriminate|].
  destruct (negb (icmpv6_options_well_formed_in_buffer buf 20)); [discriminate|].
  destruct (addr_is_ipv6_multicast (memcpy_n _ 16)); [discriminate|].
  destruct (addr_is_ipv6_multicast (address (dst_sa buf)) && _); [discriminate|].
  destruct (addr_get_entry K w _); [discriminate|].
  destruct (icmpv6_find_option_in_buffer fuel buf 20 ICMPV6_OPT_ADDR_REGISTRATION)
    as [aro| |]; cbn [bind]; try discriminate.
  destruct (ipv6_neighbour_lookup K _ _); [|discriminate].
  destruct (icmpv6_find_option_in_buffer fuel buf 20 ICMPV6_OPT_TGT_LL_ADDR)
    as [tllao| |]; cbn [bind]; discriminate.
Qed.

Lemma icmpv6_redirect_handler_silent :
  forall fuel (w w' : world NC Ext) buf out,
    icmpv6_redirect_handler K P fuel w buf <> Ret (w', Some out).
Proof.
  intros fuel w w' buf out. unfold icmpv6_redirect_handler.
  destruct (negb (hop_limit _ =? 255)); [discriminate|].
  destruct (negb (addr_is_ipv6_link_local _)); [discriminate|].
  destruct (negb (opt_code _ =? 0)); [discriminate|].
  destruct (negb (icmpv6_options_well_formed_in_buffer buf 36)); [discriminate|].
  destruct (addr_is_ipv6_multicast _); [discriminate|].
  destruct (icmpv6_find_option_in_buffer fuel buf 36 ICMPV6_OPT_TGT_LL_ADDR)
    as [tllao| |]; cbn [bind]; discriminate.
Qed.

(** The header that [icmpv6_up] pops. *)
Lemma icmpv6_up_header :
  forall buf,
    (4 <= length (buf_data buf))%nat ->
    let io := mk_iobuf (length (buf_data buf)) (buf_data buf) 0 false in
    iobuf_pop_u8 io = (at8 (buf_data buf) 0, iobuf_set_cnt io 1) /\
    iobuf_pop_u8 (iobuf_set_cnt io 1) = (at8 (buf_data buf) 1, iobuf_set_cnt io 2) /\
    io_err (snd (iobuf_pop_be16 (iobuf_set_cnt io 2))) = false.
Proof.
  intros buf H io. subst io. unfold iobuf_set_cnt.
  cbn [io_data_size io_data io_cnt io_err].
  rewrite !iobuf_pop_u8_ok by lia. rewrite iobuf_pop_be16_ok by lia.
  rewrite !at8_skipn. cbn [Nat.add snd io_err]. repeat split.
Qed.

Lemma icmpv6_up_short :
  forall buf,
    (length (buf_data buf) < 4)%nat ->
    let io := mk_iobuf (length (buf_data buf)) (buf_data buf) 0 false in
    io_err (snd (iobuf_pop_be16 (snd (iobuf_pop_u8 (snd (iobuf_pop_u8 io)))))) = true.
Proof.
  intros buf H io. subst io.
  destruct (Nat.lt_ge_cases (length (buf_data buf)) 1) as [H1|H1].
  { rewrite iobuf_pop_u8_short by lia. reflexivity. }
  rewrite iobuf_pop_u8_ok by lia. cbn [snd Nat.add].
  destruct (Nat.lt_ge_cases (length (buf_data buf)) 2) as [H2|H2].
  { rewrite iobuf_pop_u8_short by lia. reflexivity. }
  rewrite iobuf_pop_u8_ok by lia. cbn [snd Nat.add].
  unfold iobuf_pop_be16. rewrite iobuf_pop_data_ptr_short by lia. reflexivity.
Qed.

(** [icmpv6_up] in three cases. *)
Lemma icmpv6_up_cases :
  forall fuel (w : world NC Ext) buf,
    let typed := set_options buf (set_type_code (options buf)
                                    (at8 (buf_data buf) 0) (at8 (buf_data buf) 1)) in
    icmpv6_up K P fuel w buf =
    if (length (buf_data buf) <? 4)%nat then Ret (w, None)
    else if negb (buffer_ipv6_fcf P typed IPV6_NH_ICMPV6 =? 0) then
      Ret (set_ext w (protocol_stats_update K (ext w) STATS_IP_CKSUM_ERROR 1), None)
    else icmpv6_up_dispatch K P fuel w (buffer_data_strip_header typed 4).
Proof.
  intros fuel w buf typed. unfold icmpv6_up.
  destruct (Nat.ltb_spec (length (buf_data buf)) 4) as [Hs|Hl].
  - pose proof (icmpv6_up_short buf Hs) as He. cbv zeta in He.
    set (io := mk_iobuf _ _ 0 false) in *.
    destruct (iobuf_pop_u8 io) as [t io1]. cbn [snd] in He.
    destruct (iobuf_pop_u8 io1) as [c io2]. cbn [snd] in He.
    destruct (iobuf_pop_be16 io2) as [x io3]. cbn [snd] in He.
    rewrite He. reflexivity.
  - pose proof (icmpv6_up_header buf Hl) as (H1 & H2 & H3).
    rewrite H1, H2.
    destruct (iobuf_pop_be16 _) as [x io3]. cbn [snd] in H3.
    rewrite H3. reflexivity.
Qed.

End UpDown.

(** ** The receive path: main results *)

(** X16.  The only buffer that ever leaves [icmpv6_up] is a Neighbor
    Advertisement: it is returned for a message of at least four
    octets whose checksum verifies and whose type octet is 135 (NS),
    and it has type 136 and hop limit 255.  Nothing is returned for
    any other message. *)
Theorem icmpv6_up_replies_only_na :
  forall {NC NE Ext : Type} (K : collab NC NE Ext) (P : collab_paths NC Ext)
         (fuel : nat) (w w' : world NC Ext) (buf out : buffer_t),
    icmpv6_up K P fuel w buf = Ret (w', Some out) ->
    (4 <= length (buf_data buf))%nat /\
    at8 (buf_data buf) 0 = ICMPV6_TYPE_INFO_NS /\
    buffer_ipv6_fcf P
      (set_options buf (set_type_code (options buf) (at8 (buf_data buf) 0)
                                      (at8 (buf_data buf) 1)))
      IPV6_NH_ICMPV6 = 0 /\
    opt_type (options out) = ICMPV6_TYPE_INFO_NA /\
    hop_limit (options out) = 255.
Proof.
  intros NC NE Ext K P fuel w w' buf out H.
  rewrite icmpv6_up_cases in H. cbv zeta in H.
  destruct (Nat.ltb_spec (length (buf_data buf)) 4) as [|Hl]; [discriminate|].
  destruct (Z.eqb_spec (buffer_ipv6_fcf P
              (set_options buf (set_type_code (options buf) (at8 (buf_data buf) 0)
                                              (at8 (buf_data buf) 1)))
              IPV6_NH_ICMPV6) 0) as [Ef|]; cbn [negb] in H; [|discriminate].
  unfold icmpv6_up_dispatch in H.
  destruct (trace_icmp fuel _) as [[]| |]; cbn [bind] in H; try discriminate.
  revert H. unfold buffer_data_strip_header.
  cbn [set_data set_options set_type_code options opt_type].
  destruct (Z.eqb_spec (at8 (buf_data buf) 0) ICMPV6_TYPE_INFO_NS) as [En|_].
  - intro H. apply icmpv6_ns_handler_builds in H.
    destruct H as (_ & _ & _ & w1 & tl & earo & Hb).
    apply icmpv6_build_na_spec in Hb. destruct Hb as (Hh & Ht & _).
    repeat split; assumption.
  - destruct (at8 (buf_data buf) 0 =? ICMPV6_TYPE_INFO_NA).
    + intro H. exfalso. exact (icmpv6_na_handler_silent K _ _ _ _ _ H).
    + destruct (at8 (buf_data buf) 0 =? ICMPV6_TYPE_INFO_REDIRECT).
      * intro H. exfalso. exact (icmpv6_redirect_handler_silent K P _ _ _ _ _ H).
      * discriminate.
Qed.

Lemma icmpv6_up_replies_only_na_witness :
  exists w' out,
    icmpv6_up Demo.K Demo2.P 2 Demo.w0 Demo2.ns_s1_wire = Ret (w', Some out) /\
    opt_type (options out) = ICMPV6_TYPE_INFO_NA /\
    hop_limit (options out) = 255.
Proof.
  destruct (icmpv6_up Demo.K Demo2.P 2 Demo.w0 Demo2.ns_s1_wire)
    as [[w' [out|]]| |] eqn:E; try (vm_compute in E; discriminate).
  exists w', out. split; [reflexivity|].
  exact (proj2 (proj2 (proj2 (icmpv6_up_replies_only_na
                                 Demo.K Demo2.P 2 Demo.w0 w' Demo2.ns_s1_wire out E)))).
Defined.

(** X17.  A message whose type is not NS, NA or Redirect (an echo
    request, a router solicitation, an ICMPv6 error...) is consumed by
    [icmpv6_up] without an answer and without a change to the interface
    record, whatever its length and its checksum: at most a statistics
    counter moves. *)
Theorem icmpv6_up_unsupported_type :
  forall {NC NE Ext : Type} (K : collab NC NE Ext) (P : collab_paths NC Ext)
         (fuel : nat) (w : world NC Ext) (buf : buffer_t),
    at8 (buf_data buf) 0 <> ICMPV6_TYPE_INFO_NS ->
    at8 (buf_data buf) 0 <> ICMPV6_TYPE_INFO_NA ->
    at8 (buf_data buf) 0 <> ICMPV6_TYPE_INFO_REDIRECT ->
    icmpv6_up K P fuel w buf = Ret (w, None) \/
    icmpv6_up K P fuel w buf =
      Ret (set_ext w (protocol_stats_update K (ext w) STATS_IP_CKSUM_ERROR 1), None).
Proof.
  intros NC NE Ext K P fuel w buf Hns Hna Hrd.
  rewrite icmpv6_up_cases. cbv zeta.
  destruct (length (buf_data buf) <? 4)%nat; [left; reflexivity|].
  destruct (negb (_ =? 0)); [right; reflexivity|].
  left. unfold icmpv6_up_dispatch, trace_icmp, buffer_data_strip_header.
  cbn [set_data set_options options opt_type set_type_code].
  apply Z.eqb_neq in Hns, Hna, Hrd. rewrite Hns, Hna, Hrd. reflexivity.
Qed.

Lemma icmpv6_up_unsupported_type_witness :
  icmpv6_up Demo.K Demo2.P 0 Demo.w0 Demo2.echo_request = Ret (Demo.w0, None) \/
  icmpv6_up Demo.K Demo2.P 0 Demo.w0 Demo2.echo_request =
    Ret (set_ext Demo.w0 (protocol_stats_update Demo.K (ext Demo.w0)
                            STATS_IP_CKSUM_ERROR 1), None).
Proof.
  apply (icmpv6_up_unsupported_type Demo.K Demo2.P 0 Demo.w0 Demo2.echo_request);
    vm_compute; discriminate.
Defined.

(** ** The transmit path against the receive path: main results *)

(** X18.  What [icmpv6_down] writes, [icmpv6_up] reads back.  The
    message handed to IPv6 is the body behind four new octets that hold
    the type, the code and the checksum; it is marked as next header 58,
    has an IPv6 source and has the ECN bits of its traffic class
    cleared.  A receiver given these octets either counts a checksum
    error or goes on to the handlers with the type, the code and the
    body that the sender started from.  (The buffer layer is taken to
    keep data and options when it makes headroom.) *)
Theorem icmpv6_down_up_round_trip :
  forall {NC NE Ext : Type} (K : collab NC NE Ext) (P : collab_paths NC Ext)
         {NC' NE' Ext' : Type} (K' : collab NC' NE' Ext') (P' : collab_paths NC' Ext')
         (fuel fuel' : nat) (w : world NC Ext) (w' : world NC' Ext')
         (buf out rx : buffer_t),
    (forall b n b', buffer_headroom K b n = Some b' ->
                    buf_data b' = buf_data b /\ options b' = options b) ->
    0 <= opt_type (options buf) < 256 ->
    0 <= opt_code (options buf) < 256 ->
    icmpv6_down K P fuel w buf = Ret (Some out) ->
    buf_data rx = buf_data out ->
    (skipn 4 (buf_data out) = buf_data buf /\
     buffer_data_length out = buffer_data_length buf + 4 /\
     opt_type (options out) = IPV6_NH_ICMPV6 /\
     addr_type (src_sa out) = ADDR_IPV6 /\
     Z.land (traffic_class (options out)) IP_TCLASS_ECN_MASK = 0) /\
    let typed := set_options rx (set_type_code (options rx) (opt_type (options buf))
                                               (opt_code (options buf))) in
    icmpv6_up K' P' fuel' w' rx =
    if negb (buffer_ipv6_fcf P' typed IPV6_NH_ICMPV6 =? 0) then
      Ret (set_ext w' (protocol_stats_update K' (ext w') STATS_IP_CKSUM_ERROR 1), None)
    else icmpv6_up_dispatch K' P' fuel' w' (set_data typed (buf_data buf)).
Proof.
  intros NC NE Ext K P NC' NE' Ext' K' P' fuel fuel' w w' buf out rx
         Hhead Ht Hc Hdown Hrx.
  unfold icmpv6_down in Hdown.
  destruct (trace_icmp fuel buf) as [[]| |]; cbn [bind] in Hdown; try discriminate.
  destruct (buffer_headroom K buf 4) as [hb|] eqn:Eh; [|discriminate].
  apply Hhead in Eh. destruct Eh as [Ehd Eho].
  destruct buf as [[t c h tc b1 b2 b3] bi bs bd bdat bcb br].
  destruct hb as [ho hi hs hd hdat hcb hr].
  cbn [buf_data options opt_type opt_code] in *. subst hdat ho.
  simpl_buf in Hdown.
  set (src := if negb (addrtype_eqb (addr_type hs) ADDR_IPV6) then _ else Some hs)
    in Hdown.
  assert (Hsrc : forall s, src = Some s -> addr_type s = ADDR_IPV6).
  { subst src. intro s. destruct (addr_type hs) eqn:Ea; cbn [addrtype_eqb negb];
      try (destruct (addr_interface_select_source P w _); [|discriminate];
           intro E; injection E as <-; reflexivity).
    intro E; injection E as <-. exact Ea. }
  destruct src as [s|]; [|discriminate].
  specialize (Hsrc s eq_refl).
  injection Hdown as <-.
  simpl_buf in Hrx.
  split.
  - unfold buffer_data_length. simpl_buf.
    split; [reflexivity|]. split.
    { unfold write_be16. cbn [app length]. lia. }
    split; [reflexivity|]. split; [exact Hsrc|].
    rewrite <- Z.land_assoc. change (Z.land 252 IP_TCLASS_ECN_MASK) with 0.
    apply Z.land_0_r.
  - rewrite icmpv6_up_cases. cbv zeta.
    destruct (Nat.ltb_spec (length (buf_data rx)) 4) as [Hs|_].
    { rewrite Hrx in Hs. cbn [length] in Hs. lia. }
    assert (H0 : at8 (buf_data rx) 0 = t).
    { rewrite Hrx. unfold at8. cbn [nth]. rewrite u8_to_u8.
      apply Z.mod_small. exact Ht. }
    assert (H1 : at8 (buf_data rx) 1 = c).
    { rewrite Hrx. unfold at8. cbn [nth]. rewrite u8_to_u8.
      apply Z.mod_small. exact Hc. }
    rewrite H0, H1.
    destruct (negb (_ =? 0)); [reflexivity|].
    f_equal. unfold buffer_data_strip_header. f_equal.
    cbn [set_options buf_data]. rewrite Hrx. reflexivity.
Qed.

Lemma icmpv6_down_up_round_trip_witness :
  exists out,
    icmpv6_down Demo.K Demo2.P 2 Demo.w0 Demo.ns_s1 = Ret (Some out) /\
    skipn 4 (buf_data out) = buf_data Demo.ns_s1 /\
    buffer_data_length out = buffer_data_length Demo.ns_s1 + 4.
Proof.
  destruct (icmpv6_down Demo.K Demo2.P 2 Demo.w0 Demo.ns_s1) as [[out|]| |] eqn:E;
    try (vm_compute in E; discriminate).
  exists out. split; [reflexivity|].
  assert (Hhead : forall b n b', buffer_headroom Demo.K b n = Some b' ->
                                 buf_data b' = buf_data b /\ options b' = options b).
  { intros b n b' H. cbn in H. injection H as <-. split; reflexivity. }
  assert (Ht : 0 <= opt_type (options Demo.ns_s1) < 256) by (vm_compute; split; [discriminate|reflexivity]).
  assert (Hc : 0 <= opt_code (options Demo.ns_s1) < 256) by (vm_compute; split; [discriminate|reflexivity]).
  destruct (icmpv6_down_up_round_trip Demo.K Demo2.P Demo.K Demo2.P 2 2
              Demo.w0 Demo.w0 Demo.ns_s1 out out Hhead Ht Hc E eq_refl)
    as ((H1 & H2 & _) & _).
  split; [exact H1|exact H2].
Defined.

(** ** Interface identifiers *)

(** Inverting the universal/local bit twice gives the octet back. *)
Lemma xor_2_involutive : forall b, to_u8 (Z.lxor (u8 (to_u8 (Z.lxor (u8 b) 2))) 2) = b.
Proof.
  intro b. rewrite u8_to_u8.
  pose proof (u8_range b) as Hb.
  assert (Hx : 0 <= Z.lxor (u8 b) 2 < 256).
  { split; [apply Z.lxor_nonneg; lia|].
    change 256 with (2 ^ 8).
    destruct (Z.eq_dec (Z.lxor (u8 b) 2) 0) as [->|Hn]; [lia|].
    apply Z.log2_lt_pow2; [pose proof (Z.lxor_nonneg (u8 b) 2); lia|].
    eapply Z.le_lt_trans; [apply Z.log2_lxor; lia|].
    apply Z.max_lub_lt; [|reflexivity].
    destruct (Z.eq_dec (u8 b) 0) as [->|H0]; [reflexivity|].
    apply Z.log2_lt_pow2; lia. }
  rewrite Z.mod_small by exact Hx.
  rewrite Z.lxor_assoc. change (Z.lxor 2 2) with 0. rewrite Z.lxor_0_r.
  apply to_u8_u8.
Qed.

Lemma xor_at_0_involutive : forall p, xor_at (xor_at p 0 2) 0 2 = p.
Proof.
  intros [|b p]; cbn [xor_at]; [reflexivity|].
  rewrite xor_2_involutive. reflexivity.
Qed.

Lemma xor_at_app : forall a b i m,
    xor_at (a ++ b) (length a + i) m = a ++ xor_at b i m.
Proof.
  induction a as [|x a IH]; intros b i m; cbn [app length Nat.add xor_at].
  - reflexivity.
  - destruct b as [|y b].
    + rewrite app_nil_r.
      assert (H : forall l j, xor_at l (length l + j) m = l).
      { induction l as [|z l IHl]; intro j; cbn [length Nat.add xor_at];
          [destruct j; reflexivity|]. rewrite IHl. reflexivity. }
      rewrite H. cbn [xor_at]. rewrite app_nil_r. reflexivity.
    + rewrite IH. reflexivity.
Qed.

(** ** Interface identifiers: main results *)

(** X19.  When [protocol_set_eui64] accepts an EUI-64, the MAC address
    is the EUI-64 and both interface identifiers are the EUI-64 with
    the universal/local bit inverted, from which the EUI-64 is
    recovered by inverting the bit again.  The link-local address made
    of fe80::/64 and that identifier is the address that
    [icmpv6_build_na] sends a failed registration to, and the address
    that the ACK callbacks compute from a long 802.15.4 destination
    that holds the same EUI-64 behind its PAN id. *)
Theorem protocol_set_eui64_link_local :
  forall (eui64 : list byte) (ids : eui64_ids),
    length eui64 = 8%nat ->
    protocol_set_eui64 eui64 = Some ids ->
    id_mac ids = eui64 /\
    id_iid_slaac ids = id_iid_eui64 ids /\
    xor_at (id_iid_eui64 ids) 0 2 = eui64 /\
    ADDR_LINK_LOCAL_PREFIX ++ id_iid_eui64 ids = link_local_of_eui64 eui64 /\
    forall (pan pad : list byte) (port : Z),
      length pan = 2%nat ->
      ack_ll_target (mk_sockaddr ADDR_802_15_4_LONG (pan ++ eui64 ++ pad) port)
      = Some (ADDR_LINK_LOCAL_PREFIX ++ id_iid_eui64 ids).
Proof.
  intros eui64 ids Hl. unfold protocol_set_eui64, memcpy_n.
  rewrite (firstn_all2 (n := 8) eui64) by lia.
  assert (Hll : link_local_of_eui64 eui64 = ADDR_LINK_LOCAL_PREFIX ++ xor_at eui64 0 2).
  { unfold link_local_of_eui64. rewrite (firstn_all2 (n := 8) eui64) by lia.
    apply (xor_at_app ADDR_LINK_LOCAL_PREFIX eui64 0 2). }
  destruct (memzcmp_is_zero eui64 8); [discriminate|].
  intro H. injection H as <-. cbn [id_mac id_iid_eui64 id_iid_slaac].
  split; [reflexivity|]. split; [reflexivity|].
  split; [apply xor_at_0_involutive|]. split; [symmetry; exact Hll|].
  intros pan pad port Hp. unfold ack_ll_target, memcpy_n.
  cbn [addr_type address]. f_equal.
  assert (Hs : skipn 2 (pan ++ eui64 ++ pad) = eui64 ++ pad).
  { rewrite <- Hp. apply skipn_app_exact. }
  rewrite Hs.
  assert (Hf : firstn 8 (eui64 ++ pad) = eui64).
  { rewrite <- Hl. rewrite firstn_app, Nat.sub_diag, firstn_O, app_nil_r.
    apply firstn_all. }
  rewrite Hf.
  apply (xor_at_app (firstn 8 ADDR_LINK_LOCAL_PREFIX) eui64 0 2).
Qed.

Lemma protocol_set_eui64_link_local_witness :
  exists ids,
    protocol_set_eui64 Demo.eui64_if = Some ids /\
    ADDR_LINK_LOCAL_PREFIX ++ id_iid_eui64 ids = link_local_of_eui64 Demo.eui64_if.
Proof.
  destruct (protocol_set_eui64 Demo.eui64_if) as [ids|] eqn:E;
    try (vm_compute in E; discriminate).
  exists ids. split; [reflexivity|].
  assert (Hl : length Demo.eui64_if = 8%nat) by reflexivity.
  destruct (protocol_set_eui64_link_local Demo.eui64_if ids Hl E)
    as (_ & _ & _ & H & _).
  exact H.
Defined.

(** ** The reachable time: what a call may touch *)

Section ReachableInvariant.

Context {NC NE Ext : Type}.
Variable K : collab NC NE Ext.

Lemma update_reachable_time_frame :
  forall (w : world NC Ext) s,
    0 <= s ->
    1 <= reachable_time_ttl (cur w) <= 600 ->
    let w' := update_reachable_time K s w in
    1 <= reachable_time_ttl (cur w') <= 600 /\
    base_reachable_time (cur w') = base_reachable_time (cur w) /\
    icmp_tokens (cur w') = icmp_tokens (cur w) /\
    cur_hop_limit (cur w') = cur_hop_limit (cur w) /\
    mac (cur w') = mac (cur w) /\
    nc_list (ipv6_neighbour_cache (cur w')) = nc_list (ipv6_neighbour_cache (cur w)).
Proof.
  intros w s Hs Ht. unfold update_reachable_time.
  destruct (Z.gtb_spec (reachable_time_ttl (cur w)) s) as [Hg|Hg].
  - cbn. rewrite to_u16_small by lia. repeat split; lia.
  - unfold protocol_stack_interface_set_reachable_time.
    destruct (rand_get K (ext w)) as [r e]. cbn.
    unfold REACHABLE_TIME_UPDATE_SECONDS. repeat split; lia.
Qed.

End ReachableInvariant.

(** ** The reachable time: main results *)

(** X20.  Whatever the sequence of (non-negative) seconds handed to
    [update_reachable_time], the time to live of the reachable time
    stays between 1 and 600 seconds (it never reaches 0 and the 16-bit
    subtraction never wraps), the base of the reachable time is never
    changed, and neither are the token bucket, the hop limit, the MAC
    address and the entries of the neighbour cache. *)
Theorem update_reachable_time_invariant :
  forall {NC NE Ext : Type} (K : collab NC NE Ext) (secs : list Z)
         (w : world NC Ext),
    Forall (fun s => 0 <= s) secs ->
    1 <= reachable_time_ttl (cur w) <= 600 ->
    let w' := update_reachable_time_all K secs w in
    1 <= reachable_time_ttl (cur w') <= 600 /\
    base_reachable_time (cur w') = base_reachable_time (cur w) /\
    icmp_tokens (cur w') = icmp_tokens (cur w) /\
    cur_hop_limit (cur w') = cur_hop_limit (cur w) /\
    mac (cur w') = mac (cur w) /\
    nc_list (ipv6_neighbour_cache (cur w')) = nc_list (ipv6_neighbour_cache (cur w)).
Proof.
  intros NC NE Ext K secs.
  induction secs as [|s secs IH]; intros w Hs Ht; cbn [update_reachable_time_all].
  - cbn zeta. repeat split; lia.
  - inversion Hs as [|? ? Hs1 Hs2]; subst.
    pose proof (update_reachable_time_frame K w s Hs1 Ht) as (F1 & F2 & F3 & F4 & F5 & F6).
    specialize (IH (update_reachable_time K s w) Hs2 F1). cbn zeta in IH.
    destruct IH as (I1 & I2 & I3 & I4 & I5 & I6).
    cbn zeta. rewrite I2, I3, I4, I5, I6. repeat split; try assumption; lia.
Qed.

Lemma update_reachable_time_invariant_witness :
  let w' := update_reachable_time_all Demo.K [250; 0; 400; 7] Demo.w0 in
  1 <= reachable_time_ttl (cur w') <= 600 /\
  base_reachable_time (cur w') = 30000.
Proof.
  assert (Hs : Forall (fun s => 0 <= s) [250; 0; 400; 7])
    by (repeat (apply Forall_cons; [lia|]); apply Forall_nil).
  assert (Ht : 1 <= reachable_time_ttl (cur Demo.w0) <= 600) by (vm_compute; split; discriminate).
  pose proof (update_reachable_time_invariant Demo.K [250; 0; 400; 7] Demo.w0 Hs Ht)
    as H.
  cbn zeta in H. destruct H as (H1 & H2 & _).
  cbn zeta. split; [exact H1|exact H2].
Defined.

(** ** ACK callbacks against the builders *)

Lemma xor_at_length : forall p i m, length (xor_at p i m) = length p.
Proof.
  induction p as [|b p IH]; intros [|i] m; cbn [xor_at length]; try reflexivity.
  rewrite IH. reflexivity.
Qed.

Section AckCallbacks.

Context {NC NE Ext : Type}.
Variable K : collab NC NE Ext.

(** The NA that reports a failed registration asks for the ACK callback
    that removes the neighbour, and travels with DSCP CS6. *)
Lemma icmpv6_build_na_negative :
  forall (w w' : world NC Ext) solicited override tllao_required target e
         src_addr na,
    earo_status e <> ARO_SUCCESS ->
    earo_status e <> ARO_TOPOLOGICALLY_INCORRECT ->
    icmpv6_build_na K w solicited override tllao_required target (Some e) src_addr
    = (w', Some na) ->
    buf_ack_receive_cb na = CB_ack_remove_neighbour_cb /\
    traffic_class (options na) = Z.shiftl IP_DSCP_CS6 IP_TCLASS_DSCP_SHIFT /\
    addr_type (dst_sa na) = ADDR_IPV6 /\
    fst (ws_common_negative_aro_mark K w (earo_eui64 e)) = true.
Proof.
  intros w w' solicited override tllao_required target e src_addr na Hs Ht.
  unfold icmpv6_build_na.
  apply Z.eqb_neq in Hs, Ht. rewrite Hs, Ht.
  rewrite !andb_false_r. cbn [negb andb].
  destruct (buffer_get K _) as [buf|]; [|discriminate].
  destruct buf as [[t c h tc b1 b2 b3] i [st sa sp] [dt da dp] dat cb r].
  destruct (addr_is_ipv6_unspecified src_addr); cbv beta iota.
  all: intro H; simpl_buf in H.
  all: destruct (if addr_is_assigned_to_interface K w target then _ else _) as [sv|];
    [|discriminate].
  all: destruct (ws_common_negative_aro_mark K w (earo_eui64 e)) as [[|] w1];
    [|discriminate].
  all: injection H as _ <-; simpl_buf; repeat split; reflexivity.
Qed.

(** An NS sent as a unicast probe while NAs are omitted asks for the
    ACK callback that stands for the NA. *)
Lemma icmpv6_build_ns_probe_ack :
  forall (w : world NC Ext) target prompting unspecified_source ns,
    omit_na (ipv6_neighbour_cache (cur w)) = true ->
    icmpv6_build_ns K w target prompting true unspecified_source None
    = Ret (Some ns) ->
    buf_ack_receive_cb ns = CB_ack_receive_cb.
Proof.
  intros w target prompting unspecified_source ns Ho.
  unfold icmpv6_build_ns.
  destruct (addr_is_ipv6_multicast target); [discriminate|].
  destruct (buffer_get K 127) as [buf|]; [|discriminate].
  destruct buf as [[t c h tc b1 b2 b3] i [st sa sp] [dt da dp] dat cb r].
  cbv zeta. rewrite Ho. cbn [andb].
  destruct unspecified_source.
  - intro H. injection H as <-. reflexivity.
  - destruct prompting as [p|].
    + destruct (addr_is_assigned_to_interface K w p).
      * intro H. injection H as <-. reflexivity.
      * destruct (addr_interface_get_ll_address K w) as [ll|]; [|discriminate].
        intro H. injection H as <-. reflexivity.
    + destruct (addr_interface_get_ll_address K w) as [ll|]; [|discriminate].
      intro H. injection H as <-. reflexivity.
Qed.

End AckCallbacks.

(** ** ACK callbacks against the builders: main results *)

(** X21.  The NA that [icmpv6_build_na] sends for a registration that
    failed (status neither SUCCESS nor TOPOLOGICALLY_INCORRECT) to a
    registrant with a specified source is sent with DSCP CS6 and with
    [ack_remove_neighbour_cb] as its ACK callback; when that callback
    runs on the NA, whatever the status, the neighbour it removes is
    the link-local address made from the EUI-64 of the registration,
    which is the address the NA was sent to. *)
Theorem icmpv6_build_na_negative_aro_ack :
  forall {NC NE Ext : Type} (K : collab NC NE Ext) (P : collab_paths NC Ext)
         (w w' w2 : world NC Ext) (solicited override tllao_required : bool)
         (target : address_t) (e : ipv6_nd_opt_earo) (src_addr : address_t)
         (na : buffer_t) (status : Z),
    earo_status e <> ARO_SUCCESS ->
    earo_status e <> ARO_TOPOLOGICALLY_INCORRECT ->
    addr_is_ipv6_unspecified src_addr = false ->
    length (earo_eui64 e) = 8%nat ->
    icmpv6_build_na K w solicited override tllao_required target (Some e) src_addr
    = (w', Some na) ->
    buf_ack_receive_cb na = CB_ack_remove_neighbour_cb /\
    traffic_class (options na) = Z.shiftl IP_DSCP_CS6 IP_TCLASS_DSCP_SHIFT /\
    address (dst_sa na) = link_local_of_eui64 (earo_eui64 e) /\
    ack_remove_neighbour_cb P w2 na status
    = ws_common_neighbor_remove P w2 (link_local_of_eui64 (earo_eui64 e)).
Proof.
  intros NC NE Ext K P w w' w2 solicited override tllao_required target e src_addr
         na status Hs Ht Hu He Hb.
  pose proof (icmpv6_build_na_negative K _ _ _ _ _ _ _ _ _ Hs Ht Hb)
    as (Hcb & Htc & Hty & _).
  pose proof (icmpv6_build_na_spec K _ _ _ _ _ _ _ _ _ Hb) as (_ & _ & _ & Hd & _).
  rewrite Hu in Hd. unfold earo_failed, earo_eui64_of in Hd.
  apply Z.eqb_neq in Hs. rewrite Hs in Hd. cbn [negb] in Hd.
  split; [exact Hcb|]. split; [exact Htc|]. split; [exact Hd|].
  unfold ack_remove_neighbour_cb, ack_ll_target. rewrite Hty, Hd.
  unfold memcpy_n. rewrite firstn_all2; [reflexivity|].
  unfold link_local_of_eui64. rewrite xor_at_length, length_app, length_firstn, He.
  cbn. lia.
Qed.

Lemma icmpv6_build_na_negative_aro_ack_witness :
  exists w' na,
    icmpv6_build_na Demo.K Demo.w0 true true false Demo.fe80_2
      (Some (Demo.earo_of_bytes (bytes_of [33; 2; 2; 0; 0; 0; 0; 0] ++ Demo.eui64_peer)))
      Demo.fe80_1 = (w', Some na) /\
    buf_ack_receive_cb na = CB_ack_remove_neighbour_cb /\
    address (dst_sa na) = link_local_of_eui64 Demo.eui64_peer.
Proof.
  destruct (icmpv6_build_na Demo.K Demo.w0 true true false Demo.fe80_2
              (Some (Demo.earo_of_bytes
                       (bytes_of [33; 2; 2; 0; 0; 0; 0; 0] ++ Demo.eui64_peer)))
              Demo.fe80_1) as [w' [na|]] eqn:E; try (vm_compute in E; discriminate).
  exists w', na. split; [reflexivity|].
  assert (Hs : earo_status (Demo.earo_of_bytes
                 (bytes_of [33; 2; 2; 0; 0; 0; 0; 0] ++ Demo.eui64_peer)) <> ARO_SUCCESS)
    by (vm_compute; discriminate).
  assert (Ht : earo_status (Demo.earo_of_bytes
                 (bytes_of [33; 2; 2; 0; 0; 0; 0; 0] ++ Demo.eui64_peer))
               <> ARO_TOPOLOGICALLY_INCORRECT)
    by (vm_compute; discriminate).
  destruct (icmpv6_build_na_negative_aro_ack Demo.K Demo2.P Demo.w0 w' Demo.w0
              true true false Demo.fe80_2 _ Demo.fe80_1 na 0 Hs Ht eq_refl eq_refl E)
    as (H1 & _ & H3 & _).
  split; [exact H1|exact H3].
Defined.

(** X22.  A unicast NS that [icmpv6_build_ns] builds without an ARO
    while NAs are omitted carries [ack_receive_cb]; when the MAC
    acknowledges it (status SOCKET_TX_DONE) the callback treats the ACK
    as a solicited NA from the target of the NS: the neighbour entry of
    the target, when there is one, is updated with the S flag, and the
    Wi-SUN neighbour of the target is refreshed.  With any other status
    nothing changes. *)
Theorem icmpv6_build_ns_probe_ack_confirms :
  forall {NC NE Ext : Type} (K : collab NC NE Ext) (P : collab_paths NC Ext)
         (w w2 : world NC Ext) (target : address_t) (prompting : option address_t)
         (unspecified_source : bool) (ns : buffer_t) (status : Z),
    length target = 16%nat ->
    omit_na (ipv6_neighbour_cache (cur w)) = true ->
    icmpv6_build_ns K w target prompting true unspecified_source None
    = Ret (Some ns) ->
    buf_ack_receive_cb ns = CB_ack_receive_cb /\
    (status <> SOCKET_TX_DONE P -> ack_receive_cb K P w2 ns status = w2) /\
    ack_receive_cb K P w2 ns (SOCKET_TX_DONE P) =
      ws_common_neighbor_update K
        (match ipv6_neighbour_lookup K (ipv6_neighbour_cache (cur w2)) target with
         | Some entry =>
             set_cur w2 (set_neighbour_cache (cur w2)
               (ipv6_neighbour_update_from_na K (ipv6_neighbour_cache (cur w2))
                  entry NA_S ADDR_IPV6 target))
         | None => w2
         end) target.
Proof.
  intros NC NE Ext K P w w2 target prompting unspecified_source ns status
         Hl Ho Hb.
  pose proof (icmpv6_build_ns_probe_ack K _ _ _ _ _ Ho Hb) as Hcb.
  apply icmpv6_build_ns_data in Hb.
  destruct Hb as (_ & _ & Hd & Hty & _).
  rewrite (firstn_all2 (n := 16) target) in Hd by lia.
  split; [exact Hcb|]. split.
  - intro Hst. unfold ack_receive_cb. apply Z.eqb_neq in Hst. rewrite Hst.
    reflexivity.
  - unfold ack_receive_cb, ack_ll_target. rewrite Z.eqb_refl, Hty, Hd.
    cbn [negb]. unfold memcpy_n.
    rewrite (firstn_all2 (n := 16) target) by lia. reflexivity.
Qed.

Lemma icmpv6_build_ns_probe_ack_confirms_witness :
  exists ns,
    icmpv6_build_ns Demo.K Demo2.w_omit_na Demo.fe80_1 None true false None
    = Ret (Some ns) /\
    buf_ack_receive_cb ns = CB_ack_receive_cb.
Proof.
  destruct (icmpv6_build_ns Demo.K Demo2.w_omit_na Demo.fe80_1 None true false None)
    as [[ns|]| |] eqn:E; try (vm_compute in E; discriminate).
  exists ns. split; [reflexivity|].
  exact (proj1 (icmpv6_build_ns_probe_ack_confirms
                  Demo.K Demo2.P Demo2.w_omit_na Demo.w0 Demo.fe80_1 None false ns 0
                  eq_refl eq_refl E)).
Defined.

(** ** Inbound NS: where the handler does not return *)

(** An EARO of eight octets leaves no EUI-64 for the dummy SLLAO. *)
Lemma icmpv6_nd_ws_sllao_dummy_short :
  forall aro_ptr, icmpv6_nd_ws_sllao_dummy aro_ptr 8 = Fault.
Proof.
  intro p. unfold icmpv6_nd_ws_sllao_dummy.
  rewrite iobuf_pop_u8_ok by lia.
  rewrite iobuf_pop_u8_ok by lia.
  rewrite iobuf_pop_u8_ok by lia.
  rewrite iobuf_pop_data_ptr_ok by lia.
  rewrite iobuf_pop_be16_ok by lia.
  rewrite iobuf_pop_data_ptr_short by (cbn; lia).
  reflexivity.
Qed.

(** ** Inbound NS: main results on the failures *)

(** X23.  The receive path as a whole does not return on an NS of which
    the first option has a length octet of zero and a type other than
    33 (address registration): for a message with a valid checksum,
    type 135 and at least two octets of options, [icmpv6_up] is still
    inside the option search of [trace_icmp] after any number of
    rounds, before any handler has looked at the hop limit. *)
Theorem icmpv6_up_zero_length_option :
  forall {NC NE Ext : Type} (K : collab NC NE Ext) (P : collab_paths NC Ext)
         (fuel : nat) (w : world NC Ext) (buf : buffer_t),
    (26 <= length (buf_data buf))%nat ->
    at8 (buf_data buf) 0 = ICMPV6_TYPE_INFO_NS ->
    buffer_ipv6_fcf P
      (set_options buf (set_type_code (options buf) (at8 (buf_data buf) 0)
                                      (at8 (buf_data buf) 1)))
      IPV6_NH_ICMPV6 = 0 ->
    at8 (buf_data buf) 24 <> ICMPV6_OPT_ADDR_REGISTRATION ->
    at8 (buf_data buf) 25 = 0 ->
    icmpv6_up K P fuel w buf = OutOfFuel.
Proof.
  intros NC NE Ext K P fuel w buf Hl Ht Hf Ho Hz.
  rewrite icmpv6_up_cases. cbv zeta.
  destruct (Nat.ltb_spec (length (buf_data buf)) 4) as [|_]; [lia|].
  rewrite Hf. cbn [Z.eqb negb].
  unfold icmpv6_up_dispatch, trace_icmp, buffer_data_strip_header, buffer_data_length.
  cbn [set_data set_options set_type_code options opt_type buf_data].
  rewrite Ht, Z.eqb_refl.
  rewrite length_skipn.
  destruct (Z.gtb_spec (Z.of_nat (length (buf_data buf) - 4)) 20) as [_|Hn]; [|lia].
  unfold icmpv6_nd_option_get.
  rewrite icmpv6_nd_option_get_loop_stuck; [reflexivity| | |].
  - lia.
  - rewrite !at8_skipn. exact Ho.
  - rewrite !at8_skipn. exact Hz.
Qed.

Lemma icmpv6_up_zero_length_option_witness :
  icmpv6_up Demo.K Demo2.P 1000 Demo.w0 Demo2.ns_zero_length_wire = OutOfFuel.
Proof.
  apply (icmpv6_up_zero_length_option Demo.K Demo2.P 1000 Demo.w0
                                      Demo2.ns_zero_length_wire).
  - vm_compute. lia.
  - reflexivity.
  - reflexivity.
  - vm_compute. discriminate.
  - reflexivity.
Defined.

(** X24.  On an interface that accepts address registrations, an NS
    whose options are well-formed, hold no SLLAO and hold an address
    registration option of eight octets only (length octet 1) makes
    [icmpv6_ns_handler] build the dummy SLLAO from an EARO that is too
    short for its EUI-64: [icmpv6_nd_ws_sllao_dummy] hands the NULL
    pointer it got from the reader to [iobuf_push_data], before the
    NS has been validated. *)
Theorem icmpv6_ns_handler_short_earo :
  forall {NC NE Ext : Type} (K : collab NC NE Ext) (fuel : nat)
         (w : world NC Ext) (buf : buffer_t) (hdr : list byte)
         (os os' : list nd_option) (o : nd_option),
    buf_data buf = hdr ++ nd_options_bytes os ->
    length hdr = 20%nat ->
    Forall nd_option_ok os ->
    (length os < fuel)%nat ->
    recv_addr_reg (ipv6_neighbour_cache (cur w)) = true ->
    nd_option_first ICMPV6_OPT_SRC_LL_ADDR os = None ->
    nd_option_first ICMPV6_OPT_ADDR_REGISTRATION os = Some (o, os') ->
    u8 (ndo_len o) = 1 ->
    icmpv6_ns_handler K fuel w buf = Fault.
Proof.
  intros NC NE Ext K fuel w buf hdr os os' o Hd Hh Hok Hf Hreg Hs He Hlen.
  unfold icmpv6_ns_handler.
  pose proof (icmpv6_ns_handler_header buf) as Hhd.
  rewrite Hd, length_app in Hhd. specialize (Hhd ltac:(lia)).
  rewrite <- length_app, <- Hd in Hhd.
  destruct (iobuf_pop_data_ptr _ 4) as [p4 io4]. cbn [snd] in Hhd.
  rewrite Hhd. unfold iobuf_ptr, iobuf_remaining_size.
  cbn [io_data io_cnt io_err io_data_size].
  assert (Hopts : skipn 20 (buf_data buf) = nd_options_bytes os).
  { rewrite Hd, <- Hh. apply skipn_app_exact. }
  assert (Hl : (length (buf_data buf) - 20)%nat = length (nd_options_bytes os)).
  { rewrite <- Hopts, length_skipn. reflexivity. }
  rewrite Hopts, Hl.
  assert (Hget : forall opt,
            icmpv6_nd_option_get fuel (nd_options_bytes os)
                                 (length (nd_options_bytes os)) opt
            = Ret (nd_option_get_result opt os)).
  { intro opt. exact (icmpv6_nd_option_get_loop_chain os [] fuel opt Hok Hf). }
  rewrite !Hget. unfold nd_option_get_result. rewrite Hs, He, Hreg, Hlen.
  cbn [bind andb negb io_data io_data_size Z.to_nat Pos.to_nat Pos.iter_op Nat.mul Nat.add].
  rewrite icmpv6_nd_ws_sllao_dummy_short. reflexivity.
Qed.

Lemma icmpv6_ns_handler_short_earo_witness :
  icmpv6_ns_handler Demo.K 2 Demo.w0 Demo2.ns_short_earo = Fault.
Proof.
  apply (icmpv6_ns_handler_short_earo Demo.K 2 Demo.w0 Demo2.ns_short_earo
           (repeat x00 4 ++ Demo.fe80_2) Demo2.short_earo_options []
           (mk_nd_option (to_u8 ICMPV6_OPT_ADDR_REGISTRATION) (to_u8 1) (repeat x00 6))).
  - reflexivity.
  - reflexivity.
  - repeat (apply Forall_cons; [split; [vm_compute; discriminate|reflexivity]|]).
    apply Forall_nil.
  - vm_compute. lia.
  - reflexivity.
  - reflexivity.
  - reflexivity.
  - reflexivity.
Defined.
